(** * bluez-sample-dbus: device registry, class filter and device cache

A shallow embedding of the parts of the program that decide the
behaviour of the device lifecycle pipeline:

- [Inc/DeviceHelper.h]: [BluetoothDeviceClass::from_uint32_t];
- [Src/ObjectManager/ObjectManagerProxy.cpp]: the class filter, the
  object-added and object-removed handlers and the consumer loop;
- [Src/DeviceManager/DeviceManager.cpp]: identity derivation, the
  consumer loop, removal and teardown;
- [Src/Device/Device.cpp], [Src/Device/DeviceProxy.cpp]: the guarded
  operations, the profile operations, the property-changed callbacks
  and the handler of the property-changed signal, with
  [Src/Utilities/Utilities.h];
- [Src/Menu/Menu.cpp]: the selection of a device and the commands that
  act on it;
- [Src/SPPHandler/SPPHandler.cpp]: the writer thread.

C++ exceptions are values of [exn]; code that can throw lives in the
state-and-exception monad [M].  The bus daemon is not part of the
program: it is a parameter ([Device1_proxy]).  Where the behaviour of
the program is undefined -- the constructor of a device whose properties
can all be read -- the model marks the run ([UndefinedBehaviour]); the
statements that need it say that the run is [defined]. *)

From Stdlib Require Import ZArith Lia Ascii String.
From stdpp Require Import base tactics option list strings gmap sorting pretty.

Local Open Scope Z_scope.

(* ================================================================== *)
(** ** std::string operations used by the program *)

Module StdString.

(** [needle] occurs in [s] at offset 0. *)
Fixpoint starts_with (needle s : string) : bool :=
  match needle, s with
  | EmptyString, _ => true
  | String _ _, EmptyString => false
  | String a needle', String b s' =>
      if Ascii.eqb a b then starts_with needle' s' else false
  end.

(** [s.find(needle)]: offset of the first occurrence; [None] is
    [std::string::npos]. *)
Fixpoint find (needle s : string) : option nat :=
  if starts_with needle s then Some 0%nat
  else match s with
       | EmptyString => None
       | String _ s' => S <$> find needle s'
       end.

(** [s.substr(pos)], for [pos <= s.size()] (beyond that the C++ function
    throws; [GetMACFromPath] never gets there, see
    [find_Some_bound]). *)
Fixpoint substr (s : string) (pos : nat) : string :=
  match pos, s with
  | O, _ => s
  | S _, EmptyString => EmptyString
  | S pos', String _ s' => substr s' pos'
  end.

(** [std::replace(s.begin(), s.end(), old, new)]. *)
Fixpoint replace (old new : ascii) (s : string) : string :=
  match s with
  | EmptyString => EmptyString
  | String c s' =>
      String (if Ascii.eqb c old then new else c) (replace old new s')
  end.

(** [s.empty()]. *)
Definition empty (s : string) : bool :=
  match s with EmptyString => true | String _ _ => false end.

End StdString.

(* ================================================================== *)
(** ** Exceptions and effects *)

(** The exception classes the program catches. *)
Inductive exn : Type :=
  | sdbus_Error (what : string)
  | out_of_range (what : string)
  | system_error (what : string).

Definition what (e : exn) : string :=
  match e with sdbus_Error w | out_of_range w | system_error w => w end.

Inductive outcome (A : Type) : Type :=
  | Ret (a : A)
  | Throw (e : exn).
Arguments Ret {A} a.
Arguments Throw {A} e.

(** A computation over a state [σ] that returns or throws; the state
    reached before a throw is kept. *)
Definition M (σ A : Type) : Type := σ → outcome A * σ.

Global Instance M_ret {σ} : MRet (M σ) := λ A a s, (Ret a, s).
Global Instance M_bind {σ} : MBind (M σ) := λ A B k m s,
  match m s with
  | (Ret a, s') => k a s'
  | (Throw e, s') => (Throw e, s')
  end.
Global Instance M_throw {σ} : MThrow exn (M σ) := λ A e s, (Throw e, s).

(** [try { body } catch (...) { handler }]: the handler decides by the
    exception's class and rethrows what it does not catch. *)
Definition try_catch {σ A} (body : M σ A) (handler : exn → M σ A) : M σ A :=
  λ s, match body s with
       | (Ret a, s') => (Ret a, s')
       | (Throw e, s') => handler e s'
       end.

(** [catch (const sdbus::Error &e)]. *)
Definition catch_sdbus_Error {σ A} (h : string → M σ A) (e : exn) : M σ A :=
  match e with sdbus_Error w => h w | _ => mthrow e end.
(** [catch (const std::out_of_range &e)]. *)
Definition catch_out_of_range {σ A} (h : string → M σ A) (e : exn) : M σ A :=
  match e with out_of_range w => h w | _ => mthrow e end.
(** [catch (const std::exception &e)]: every class above derives from it. *)
Definition catch_exception {σ A} (h : string → M σ A) (e : exn) : M σ A :=
  h (what e).

Definition modify {σ} (f : σ → σ) : M σ unit := λ s, (Ret tt, f s).
Definition gets {σ A} (f : σ → A) : M σ A := λ s, (Ret (f s), s).
Definition when {σ} (b : bool) (m : M σ unit) : M σ unit :=
  if b then m else mret tt.

(** Run a computation on a component [get]/[set] of a larger state. *)
Definition zoom {σ τ A} (get : τ → σ) (set : σ → τ → τ) (m : M σ A) : M τ A :=
  λ t, let '(r, s') := m (get t) in (r, set s' t).

(** [for (x : l) body(x)]. *)
Fixpoint for_each {σ X} (l : list X) (body : X → M σ unit) : M σ unit :=
  match l with
  | [] => mret tt
  | x :: l' => body x ;; for_each l' body
  end.

(** A [std::map] is traversed in the order of its keys: [std::string]
    keys by byte-wise lexicographic order, integer keys by value. *)
Definition key_le {K V} (le : relation K) : relation (K * V) :=
  λ a b, le a.1 b.1.
Global Instance key_le_dec {K V} (le : relation K) `{!RelDecision le}
  : RelDecision (key_le (V:=V) le) := λ a b, decide_rel le a.1 b.1.

Definition in_order {K V} `{Countable K} (le : relation K)
    `{!RelDecision le} (m : gmap K V) : list (K * V) :=
  merge_sort (key_le le) (map_to_list m).

(* ================================================================== *)
(** ** Logger.h *)

(** One variadic argument of [Log]. *)
Inductive LogArg : Type :=
  | LStr (s : string)
  | LNum (n : Z)
  | LBool (b : bool).

(** One call [Log(fmt, args...)]. *)
Record LogLine : Type := mkLog { fmt : string; args : list LogArg }.

Global Instance LogArg_eq_dec : EqDecision LogArg.
Proof. solve_decision. Defined.
Global Instance LogLine_eq_dec : EqDecision LogLine.
Proof. solve_decision. Defined.

(* ================================================================== *)
(** ** Inc/DeviceHelper.h *)

Module DeviceHelper.

Definition DEVICE_PROPERTY_Address : string := "Address".
Definition DEVICE_PROPERTY_AddressType : string := "AddressType".
Definition DEVICE_PROPERTY_Name : string := "Name".
Definition DEVICE_PROPERTY_UUIDs : string := "UUIDs".
Definition DEVICE_PROPERTY_Paired : string := "Paired".
Definition DEVICE_PROPERTY_Connected : string := "Connected".
Definition DEVICE_PROPERTY_Trusted : string := "Trusted".
Definition DEVICE_PROPERTY_Blocked : string := "Blocked".
Definition DEVICE_PROPERTY_Alias : string := "Alias".
Definition DEVICE_PROPERTY_Adapter : string := "Adapter".
Definition DEVICE_PROPERTY_LegacyPairing : string := "LegacyPairing".
Definition DEVICE_PROPERTY_ServiceData : string := "ServiceData".
Definition DEVICE_PROPERTY_ServicesResolved : string := "ServicesResolved".
Definition DEVICE_PROPERTY_Icon : string := "Icon".
Definition DEVICE_PROPERTY_Class : string := "Class".
Definition DEVICE_PROPERTY_ManufacturerData : string := "ManufacturerData".

(** [DeviceProperties]; [uint32_t]/[uint16_t]/[int] values are [Z]. *)
Record DeviceProperties : Type := mkProps {
  Address : string;
  AddressType : string;
  Name : string; Class : Z;
  UUIDs : list string;
  Paired : bool;
  Connected : bool;
  Trusted : bool;
  Blocked : bool;
  Alias : string;
  AdapterPath : string;
  LegacyPairing : bool;
  ServiceData : gmap string (gmap Z string);
  ServicesResolved : bool;
  Icon : string;
  ManufacturerData : gmap Z (gmap Z string)
}.

(** Value-initialisation [DeviceProperties()]. *)
Definition DeviceProperties_zero : DeviceProperties :=
  {| Address := ""; AddressType := ""; Name := ""; Class := 0;
     UUIDs := []; Paired := false; Connected := false; Trusted := false;
     Blocked := false; Alias := ""; AdapterPath := "";
     LegacyPairing := false; ServiceData := ∅; ServicesResolved := false;
     Icon := ""; ManufacturerData := ∅ |}.

(** [properties.F = v] for each field [F]. *)
Definition set_Address v (q : DeviceProperties) : DeviceProperties :=
  {| Address := v; AddressType := AddressType q;
     Name := Name q; Class := Class q; UUIDs := UUIDs q;
     Paired := Paired q; Connected := Connected q; Trusted := Trusted q;
     Blocked := Blocked q; Alias := Alias q; AdapterPath := AdapterPath q;
     LegacyPairing := LegacyPairing q; ServiceData := ServiceData q;
     ServicesResolved := ServicesResolved q; Icon := Icon q;
     ManufacturerData := ManufacturerData q |}.
Definition set_AddressType v (q : DeviceProperties) : DeviceProperties :=
  {| Address := Address q; AddressType := v;
     Name := Name q; Class := Class q; UUIDs := UUIDs q;
     Paired := Paired q; Connected := Connected q; Trusted := Trusted q;
     Blocked := Blocked q; Alias := Alias q; AdapterPath := AdapterPath q;
     LegacyPairing := LegacyPairing q; ServiceData := ServiceData q;
     ServicesResolved := ServicesResolved q; Icon := Icon q;
     ManufacturerData := ManufacturerData q |}.
Definition set_Name v (q : DeviceProperties) : DeviceProperties :=
  {| Address := Address q; AddressType := AddressType q;
     Name := v; Class := Class q; UUIDs := UUIDs q;
     Paired := Paired q; Connected := Connected q; Trusted := Trusted q;
     Blocked := Blocked q; Alias := Alias q; AdapterPath := AdapterPath q;
     LegacyPairing := LegacyPairing q; ServiceData := ServiceData q;
     ServicesResolved := ServicesResolved q; Icon := Icon q;
     ManufacturerData := ManufacturerData q |}.
Definition set_Class v (q : DeviceProperties) : DeviceProperties :=
  {| Address := Address q; AddressType := AddressType q;
     Name := Name q; Class := v; UUIDs := UUIDs q;
     Paired := Paired q; Connected := Connected q; Trusted := Trusted q;
     Blocked := Blocked q; Alias := Alias q; AdapterPath := AdapterPath q;
     LegacyPairing := LegacyPairing q; ServiceData := ServiceData q;
     ServicesResolved := ServicesResolved q; Icon := Icon q;
     ManufacturerData := ManufacturerData q |}.
Definition set_UUIDs v (q : DeviceProperties) : DeviceProperties :=
  {| Address := Address q; AddressType := AddressType q;
     Name := Name q; Class := Class q; UUIDs := v;
     Paired := Paired q; Connected := Connected q; Trusted := Trusted q;
     Blocked := Blocked q; Alias := Alias q; AdapterPath := AdapterPath q;
     LegacyPairing := LegacyPairing q; ServiceData := ServiceData q;
     ServicesResolved := ServicesResolved q; Icon := Icon q;
     ManufacturerData := ManufacturerData q |}.
Definition set_Paired v (q : DeviceProperties) : DeviceProperties :=
  {| Address := Address q; AddressType := AddressType q;
     Name := Name q; Class := Class q; UUIDs := UUIDs q;
     Paired := v; Connected := Connected q; Trusted := Trusted q;
     Blocked := Blocked q; Alias := Alias q; AdapterPath := AdapterPath q;
     LegacyPairing := LegacyPairing q; ServiceData := ServiceData q;
     ServicesResolved := ServicesResolved q; Icon := Icon q;
     ManufacturerData := ManufacturerData q |}.
Definition set_Connected v (q : DeviceProperties) : DeviceProperties :=
  {| Address := Address q; AddressType := AddressType q;
     Name := Name q; Class := Class q; UUIDs := UUIDs q;
     Paired := Paired q; Connected := v; Trusted := Trusted q;
     Blocked := Blocked q; Alias := Alias q; AdapterPath := AdapterPath q;
     LegacyPairing := LegacyPairing q; ServiceData := ServiceData q;
     ServicesResolved := ServicesResolved q; Icon := Icon q;
     ManufacturerData := ManufacturerData q |}.
Definition set_Trusted v (q : DeviceProperties) : DeviceProperties :=
  {| Address := Address q; AddressType := AddressType q;
     Name := Name q; Class := Class q; UUIDs := UUIDs q;
     Paired := Paired q; Connected := Connected q; Trusted := v;
     Blocked := Blocked q; Alias := Alias q; AdapterPath := AdapterPath q;
     LegacyPairing := LegacyPairing q; ServiceData := ServiceData q;
     ServicesResolved := ServicesResolved q; Icon := Icon q;
     ManufacturerData := ManufacturerData q |}.
Definition set_Blocked v (q : DeviceProperties) : DeviceProperties :=
  {| Address := Address q; AddressType := AddressType q;
     Name := Name q; Class := Class q; UUIDs := UUIDs q;
     Paired := Paired q; Connected := Connected q; Trusted := Trusted q;
     Blocked := v; Alias := Alias q; AdapterPath := AdapterPath q;
     LegacyPairing := LegacyPairing q; ServiceData := ServiceData q;
     ServicesResolved := ServicesResolved q; Icon := Icon q;
     ManufacturerData := ManufacturerData q |}.
Definition set_Alias v (q : DeviceProperties) : DeviceProperties :=
  {| Address := Address q; AddressType := AddressType q;
     Name := Name q; Class := Class q; UUIDs := UUIDs q;
     Paired := Paired q; Connected := Connected q; Trusted := Trusted q;
     Blocked := Blocked q; Alias := v; AdapterPath := AdapterPath q;
     LegacyPairing := LegacyPairing q; ServiceData := ServiceData q;
     ServicesResolved := ServicesResolved q; Icon := Icon q;
     ManufacturerData := ManufacturerData q |}.
Definition set_AdapterPath v (q : DeviceProperties) : DeviceProperties :=
  {| Address := Address q; AddressType := AddressType q;
     Name := Name q; Class := Class q; UUIDs := UUIDs q;
     Paired := Paired q; Connected := Connected q; Trusted := Trusted q;
     Blocked := Blocked q; Alias := Alias q; AdapterPath := v;
     LegacyPairing := LegacyPairing q; ServiceData := ServiceData q;
     ServicesResolved := ServicesResolved q; Icon := Icon q;
     ManufacturerData := ManufacturerData q |}.
Definition set_LegacyPairing v (q : DeviceProperties) : DeviceProperties :=
  {| Address := Address q; AddressType := AddressType q;
     Name := Name q; Class := Class q; UUIDs := UUIDs q;
     Paired := Paired q; Connected := Connected q; Trusted := Trusted q;
     Blocked := Blocked q; Alias := Alias q; AdapterPath := AdapterPath q;
     LegacyPairing := v; ServiceData := ServiceData q;
     ServicesResolved := ServicesResolved q; Icon := Icon q;
     ManufacturerData := ManufacturerData q |}.
Definition set_ServiceData v (q : DeviceProperties) : DeviceProperties :=
  {| Address := Address q; AddressType := AddressType q;
     Name := Name q; Class := Class q; UUIDs := UUIDs q;
     Paired := Paired q; Connected := Connected q; Trusted := Trusted q;
     Blocked := Blocked q; Alias := Alias q; AdapterPath := AdapterPath q;
     LegacyPairing := LegacyPairing q; ServiceData := v;
     ServicesResolved := ServicesResolved q; Icon := Icon q;
     ManufacturerData := ManufacturerData q |}.
Definition set_ServicesResolved v (q : DeviceProperties) : DeviceProperties :=
  {| Address := Address q; AddressType := AddressType q;
     Name := Name q; Class := Class q; UUIDs := UUIDs q;
     Paired := Paired q; Connected := Connected q; Trusted := Trusted q;
     Blocked := Blocked q; Alias := Alias q; AdapterPath := AdapterPath q;
     LegacyPairing := LegacyPairing q; ServiceData := ServiceData q;
     ServicesResolved := v; Icon := Icon q;
     ManufacturerData := ManufacturerData q |}.
Definition set_Icon v (q : DeviceProperties) : DeviceProperties :=
  {| Address := Address q; AddressType := AddressType q;
     Name := Name q; Class := Class q; UUIDs := UUIDs q;
     Paired := Paired q; Connected := Connected q; Trusted := Trusted q;
     Blocked := Blocked q; Alias := Alias q; AdapterPath := AdapterPath q;
     LegacyPairing := LegacyPairing q; ServiceData := ServiceData q;
     ServicesResolved := ServicesResolved q; Icon := v;
     ManufacturerData := ManufacturerData q |}.
Definition set_ManufacturerData v (q : DeviceProperties) : DeviceProperties :=
  {| Address := Address q; AddressType := AddressType q;
     Name := Name q; Class := Class q; UUIDs := UUIDs q;
     Paired := Paired q; Connected := Connected q; Trusted := Trusted q;
     Blocked := Blocked q; Alias := Alias q; AdapterPath := AdapterPath q;
     LegacyPairing := LegacyPairing q; ServiceData := ServiceData q;
     ServicesResolved := ServicesResolved q; Icon := Icon q;
     ManufacturerData := v |}.

Inductive BluetoothMajorDeviceClass : Type :=
  | Miscellaneous | Computer | Phone | LAN_NetworkAccessPoint | AudioVideo
  | Peripheral | Imaging | Wearable | Toy | Health | Uncategorized.

(** The enumerators' values. *)
Definition major_value (c : BluetoothMajorDeviceClass) : Z :=
  match c with
  | Miscellaneous => 0x00 | Computer => 0x01 | Phone => 0x02
  | LAN_NetworkAccessPoint => 0x03 | AudioVideo => 0x04
  | Peripheral => 0x05 | Imaging => 0x06 | Wearable => 0x07
  | Toy => 0x08 | Health => 0x09 | Uncategorized => 0x1F
  end.

(** [struct BluetoothDeviceClass]: five unsigned bit-fields of widths
    2, 6, 5, 11 and 8. *)
Record BluetoothDeviceClass : Type := mkClass {
  format_byte : Z;
  minor_device_class : Z;
  major_device_class : Z;
  service_class : Z;
  reserved : Z
}.

(** Storing into an unsigned bit-field of [width] bits keeps the low
    [width] bits of the value. *)
Definition store_bitfield (width : Z) (v : Z) : Z := Z.land v (Z.ones width).

Definition from_uint32_t (value : Z) : BluetoothDeviceClass :=
  {| format_byte := store_bitfield 2 (Z.land value 0x3);
     minor_device_class := store_bitfield 6 (Z.land (Z.shiftr value 2) 0x3F);
     major_device_class := store_bitfield 5 (Z.land (Z.shiftr value 8) 0xFF);
     service_class := store_bitfield 11 (Z.land (Z.shiftr value 16) 0x7FF);
     reserved := store_bitfield 8 (Z.land (Z.shiftr value 27) 0x1F) |}.

End DeviceHelper.

(* ================================================================== *)
(** ** sdbus::Variant *)

(** The payloads the program extracts with [get<T>()]; any other D-Bus
    value is [VOther]. *)
Inductive Variant : Type :=
  | VString (s : string)
  | VBool (b : bool)
  | VUint32 (n : Z)
  | VStrings (l : list string)
  | VObjectPath (p : string)
  | VOther.

(** [variant.get<T>()] throws [sdbus::Error] when the variant holds
    another type. *)
Definition get_uint32 {σ} (v : Variant) : M σ Z :=
  match v with
  | VUint32 n => mret n
  | _ => mthrow (sdbus_Error "Failed to deserialize a uint32 value")
  end.

Definition get_string {σ} (v : Variant) : M σ string :=
  match v with
  | VString s => mret s
  | _ => mthrow (sdbus_Error "Failed to deserialize a string value")
  end.

Definition get_bool {σ} (v : Variant) : M σ bool :=
  match v with
  | VBool b => mret b
  | _ => mthrow (sdbus_Error "Failed to deserialize a bool value")
  end.

Definition get_strings {σ} (v : Variant) : M σ (list string) :=
  match v with
  | VStrings l => mret l
  | _ => mthrow (sdbus_Error "Failed to deserialize an array of strings")
  end.

(* ================================================================== *)
(** ** The bus: sdbus-c++ and the generated [org::bluez::Device1_proxy] *)

(** The reply to a bus request: a value, or the [sdbus::Error] the
    library throws. *)
Inductive reply (A : Type) : Type :=
  | Ok (a : A)
  | Failed (error : string).
Arguments Ok {A} a.
Arguments Failed {A} error.

(** The methods of [org.bluez.Device1]. *)
Inductive Method : Type :=
  | mConnect
  | mDisconnect
  | mConnectProfile (uuid : string)
  | mDisconnectProfile (uuid : string)
  | mPair
  | mCancelPairing.

Module org_bluez.

(** The generated proxy class and [sdbus::ProxyInterfaces], as
    [DeviceProxy] uses them, over a bus state [B] that belongs to the
    daemon: the first argument is the object path the proxy is bound
    to.  Every request may fail and may find the remote state changed. *)
Class Device1_proxy (B : Type) : Type := {
  ProxyInterfaces : string → B → reply unit * B;
  registerProxy : string → B → reply unit * B;
  Address : string → B → reply string * B;
  AddressType : string → B → reply string * B;
  Name : string → B → reply string * B;
  Icon : string → B → reply string * B; Class : string → B → reply Z * B;
  UUIDs : string → B → reply (list string) * B;
  Paired : string → B → reply bool * B;
  Connected : string → B → reply bool * B;
  Trusted : string → B → reply bool * B;
  Blocked : string → B → reply bool * B;
  Alias : string → B → reply string * B;
  Adapter : string → B → reply string * B;
  LegacyPairing : string → B → reply bool * B;
  ServicesResolved : string → B → reply bool * B;
  invoke : string → Method → B → reply unit * B
}.

End org_bluez.
Abbreviation Device1_proxy := org_bluez.Device1_proxy.

(** What the program did on the bus, in order: the properties it read,
    the methods it invoked, the proxies it created, registered and
    unregistered.  [UndefinedBehaviour] is not a request: it marks the
    point from which the C++ standard says nothing about the run, see
    [undefined_behaviour]. *)
Inductive BusEvent : Type :=
  | PropertyGet (path name : string)
  | MethodCall (path : string) (m : Method)
  | ProxyCreated (path : string)
  | ProxyRegistered (path : string)
  | ProxyUnregistered (path : string)
  | UndefinedBehaviour (path : string).

(** The method invocations among the requests.  A property read is a
    request to the bus as well, of another kind. *)
Definition is_method_call (ev : BusEvent) : bool :=
  match ev with MethodCall _ _ => true | _ => false end.

Definition method_calls (tr : list BusEvent) : list BusEvent :=
  List.filter is_method_call tr.

Definition is_undefined (ev : BusEvent) : bool :=
  match ev with UndefinedBehaviour _ => true | _ => false end.

(** A run whose behaviour is defined: nothing in it is marked. *)
Definition defined (tr : list BusEvent) : Prop :=
  Forall (λ ev, is_undefined ev = false) tr.

(** The world outside the objects: the bus, the requests sent to it and
    the lines written by [Log]. *)
Record Env (B : Type) : Type := mkEnv {
  bus : B;
  trace : list BusEvent;
  console : list LogLine
}.
Arguments mkEnv {B} bus trace console.
Arguments bus {B} e.
Arguments trace {B} e.
Arguments console {B} e.

Section Effects.
Context {B : Type}.

(** [Log(fmt, args...)]. *)
Definition Log (fmt : string) (args : list LogArg) : M (Env B) unit :=
  modify (λ e, mkEnv (bus e) (trace e) (console e ++ [mkLog fmt args])).

(** The program does something for which the C++ standard imposes no
    requirement, at the object bound to [p].  What the program does from
    here on is not described by its source: the model marks the run and
    goes on as the source reads, and a statement about a run says
    something of the program only when the run is [defined]. *)
Definition undefined_behaviour (p : string) : M (Env B) unit :=
  modify (λ e, mkEnv (bus e) (trace e ++ [UndefinedBehaviour p]) (console e)).

(** One request to the bus: recorded, then answered. *)
Definition request {A} (ev : BusEvent) (op : B → reply A * B) : M (Env B) A :=
  λ e, let '(r, b') := op (bus e) in
       let e' := mkEnv b' (trace e ++ [ev]) (console e) in
       match r with
       | Ok a => (Ret a, e')
       | Failed w => (Throw (sdbus_Error w), e')
       end.

End Effects.

(* ================================================================== *)
(** ** Src/Device/DeviceProxy.cpp *)

Module DeviceProxy.
Section WithBus.
Context {B : Type} `{!Device1_proxy B}.
Import DeviceHelper.

Definition TAG : string := "DeviceProxy::".

(** The proxy is identified by the object path it is bound to. *)
Definition Connect (p : string) : M (Env B) unit :=
  request (MethodCall p mConnect) (org_bluez.invoke p mConnect).
Definition Disconnect (p : string) : M (Env B) unit :=
  request (MethodCall p mDisconnect) (org_bluez.invoke p mDisconnect).
Definition ConnectProfile (p uuid : string) : M (Env B) unit :=
  request (MethodCall p (mConnectProfile uuid))
          (org_bluez.invoke p (mConnectProfile uuid)).
Definition DisconnectProfile (p uuid : string) : M (Env B) unit :=
  request (MethodCall p (mDisconnectProfile uuid))
          (org_bluez.invoke p (mDisconnectProfile uuid)).
Definition Pair (p : string) : M (Env B) unit :=
  request (MethodCall p mPair) (org_bluez.invoke p mPair).
Definition CancelPairing (p : string) : M (Env B) unit :=
  request (MethodCall p mCancelPairing) (org_bluez.invoke p mCancelPairing).

Definition GetAddress (p : string) : M (Env B) string :=
  request (PropertyGet p DEVICE_PROPERTY_Address) (org_bluez.Address p).
Definition GetAddressType (p : string) : M (Env B) string :=
  request (PropertyGet p DEVICE_PROPERTY_AddressType) (org_bluez.AddressType p).
Definition GetName (p : string) : M (Env B) string :=
  request (PropertyGet p DEVICE_PROPERTY_Name) (org_bluez.Name p).
Definition GetIcon (p : string) : M (Env B) string :=
  request (PropertyGet p DEVICE_PROPERTY_Icon) (org_bluez.Icon p).
Definition GetClass (p : string) : M (Env B) Z :=
  request (PropertyGet p DEVICE_PROPERTY_Class) (org_bluez.Class p).
Definition GetUUIDs (p : string) : M (Env B) (list string) :=
  request (PropertyGet p DEVICE_PROPERTY_UUIDs) (org_bluez.UUIDs p).
Definition GetPaired (p : string) : M (Env B) bool :=
  request (PropertyGet p DEVICE_PROPERTY_Paired) (org_bluez.Paired p).
Definition GetConnected (p : string) : M (Env B) bool :=
  request (PropertyGet p DEVICE_PROPERTY_Connected) (org_bluez.Connected p).
Definition GetTrusted (p : string) : M (Env B) bool :=
  request (PropertyGet p DEVICE_PROPERTY_Trusted) (org_bluez.Trusted p).
Definition GetBlocked (p : string) : M (Env B) bool :=
  request (PropertyGet p DEVICE_PROPERTY_Blocked) (org_bluez.Blocked p).
Definition GetAlias (p : string) : M (Env B) string :=
  request (PropertyGet p DEVICE_PROPERTY_Alias) (org_bluez.Alias p).
Definition GetAdapter (p : string) : M (Env B) string :=
  request (PropertyGet p DEVICE_PROPERTY_Adapter) (org_bluez.Adapter p).
Definition GetLegacyPairing (p : string) : M (Env B) bool :=
  request (PropertyGet p DEVICE_PROPERTY_LegacyPairing) (org_bluez.LegacyPairing p).
Definition GetServicesResolved (p : string) : M (Env B) bool :=
  request (PropertyGet p DEVICE_PROPERTY_ServicesResolved)
          (org_bluez.ServicesResolved p).

(** [dispatchDeviceProperties]: a [std::map] keyed by property name, so
    it is traversed in the order of the names; each entry stores what
    the proxy reports into [properties]. *)
Definition dispatchDeviceProperties
  : list (string * (DeviceProperties → string → M (Env B) DeviceProperties)) :=
  [ (DEVICE_PROPERTY_Adapter, λ q p, v ← GetAdapter p; mret (set_AdapterPath v q));
    (DEVICE_PROPERTY_Address, λ q p, v ← GetAddress p; mret (set_Address v q));
    (DEVICE_PROPERTY_AddressType,
       λ q p, v ← GetAddressType p; mret (set_AddressType v q));
    (DEVICE_PROPERTY_Alias, λ q p, v ← GetAlias p; mret (set_Alias v q));
    (DEVICE_PROPERTY_Blocked, λ q p, v ← GetBlocked p; mret (set_Blocked v q));
    (DEVICE_PROPERTY_Class, λ q p, v ← GetClass p; mret (set_Class v q));
    (DEVICE_PROPERTY_Connected,
       λ q p, v ← GetConnected p; mret (set_Connected v q));
    (DEVICE_PROPERTY_Icon, λ q p, v ← GetIcon p; mret (set_Icon v q));
    (DEVICE_PROPERTY_LegacyPairing,
       λ q p, v ← GetLegacyPairing p; mret (set_LegacyPairing v q));
    (DEVICE_PROPERTY_ManufacturerData, λ q p, mret q);
    (DEVICE_PROPERTY_Name, λ q p, v ← GetName p; mret (set_Name v q));
    (DEVICE_PROPERTY_Paired, λ q p, v ← GetPaired p; mret (set_Paired v q));
    (DEVICE_PROPERTY_ServiceData, λ q p, mret q);
    (DEVICE_PROPERTY_ServicesResolved,
       λ q p, v ← GetServicesResolved p; mret (set_ServicesResolved v q));
    (DEVICE_PROPERTY_Trusted, λ q p, v ← GetTrusted p; mret (set_Trusted v q));
    (DEVICE_PROPERTY_UUIDs, λ q p, v ← GetUUIDs p; mret (set_UUIDs v q)) ].

(** The loop of [GetProperties]: an entry that throws
    [std::out_of_range] is logged and skipped; any other exception
    leaves the loop. *)
Fixpoint GetProperties_loop
    (table : list (string * (DeviceProperties → string → M (Env B) DeviceProperties)))
    (properties : DeviceProperties) (p : string) : M (Env B) DeviceProperties :=
  match table with
  | [] => mret properties
  | prop :: rest =>
      properties' ← try_catch (prop.2 properties p)
        (catch_out_of_range (λ _,
           Log "%s%s %s Not Available in List"
               [LStr TAG; LStr "GetProperties"; LStr prop.1] ;;
           mret properties));
      GetProperties_loop rest properties' p
  end.

(** [DeviceProperties properties;] leaves the scalar members
    unassigned; every one of them is assigned by the loop when it
    completes. *)
Definition GetProperties (p : string) : M (Env B) DeviceProperties :=
  GetProperties_loop dispatchDeviceProperties DeviceProperties_zero p.

(** The constructor: the base [ProxyInterfaces] is built first, outside
    the [try]; the first reading of the properties, the call of
    [device.PropertiesChanged] with what was read, and the registration
    are guarded.  [device] is the callback interface the proxy is given:
    [PropertiesChanged] is what its method of that name does. *)
Definition DeviceProxy_ctor (PropertiesChanged : DeviceProperties → M (Env B) unit)
    (devicePath : string) : M (Env B) unit :=
  request (ProxyCreated devicePath) (org_bluez.ProxyInterfaces devicePath) ;;
  Log "%s%s" [LStr TAG; LStr "DeviceProxy"] ;;
  try_catch
    (properites ← GetProperties devicePath;
     PropertiesChanged properites ;;
     request (ProxyRegistered devicePath) (org_bluez.registerProxy devicePath))
    (catch_exception (λ w,
       Log "%s%s Error - %s" [LStr TAG; LStr "DeviceProxy"; LStr w])).

(** The destructor.  [unregisterProxy()] takes the handlers of the proxy
    off the connection; it asks nothing of the remote object and does
    not throw. *)
Definition DeviceProxy_dtor (devicePath : string) : M (Env B) unit :=
  Log "%s%s" [LStr TAG; LStr "~DeviceProxy"] ;;
  modify (λ e, mkEnv (bus e) (trace e ++ [ProxyUnregistered devicePath]) (console e)).

End WithBus.
End DeviceProxy.

(* ================================================================== *)
(** ** Src/Device/Device.cpp *)

Module Device.

(** The members of [Device] that the program reads or writes;
    [m_deviceProxy] is the proxy bound to [m_devicePath], and
    [m_eventLoopThread] records whether the monitoring thread was
    started (is joinable). *)
Record Device : Type := mkDevice {
  m_devicePath : string;
  m_properties : DeviceHelper.DeviceProperties;
  m_running : bool;
  m_eventLoopThread : bool
}.

Definition set_m_properties (q : DeviceHelper.DeviceProperties) (this : Device)
  : Device :=
  mkDevice (m_devicePath this) q (m_running this) (m_eventLoopThread this).

Section WithBus.
Context {B : Type} `{!Device1_proxy B}.
Import DeviceHelper.

Definition TAG : string := "Device::".

(** [PropertiesChanged] as the constructor of [m_deviceProxy] calls it.
    Members are initialised in the order of their declaration, and
    [m_deviceProxy] is declared before [m_properties] (Device.h): the
    assignment [m_properties = properties] is then made to a member that
    is not constructed yet, strings, vector and maps included.  The
    behaviour of the program is undefined. *)
Definition PropertiesChanged_in_ctor (devicePath : string)
    (properties : DeviceProperties) : M (Env B) unit :=
  undefined_behaviour devicePath.

(** The constructor.  [m_deviceProxy] is initialised first: its
    constructor reads the properties and, when every read succeeds, calls
    [PropertiesChanged] on the device under construction.  Then
    [m_properties()] value-initialises the cache, then the rest. *)
Definition Device_ctor (devicePath : string) : M (Env B) Device :=
  DeviceProxy.DeviceProxy_ctor (PropertiesChanged_in_ctor devicePath) devicePath ;;
  Log "%s%s" [LStr TAG; LStr "Device"] ;;
  mret (mkDevice devicePath DeviceProperties_zero true false).

(** The destructor writes its line, clears the loop flag and joins the
    monitoring thread if it was started: that thread only sleeps until
    the flag is cleared, so joining it leaves nothing to see.  Then the
    members are destroyed in the reverse order of their declaration,
    [m_deviceProxy] last. *)
Definition Device_dtor (this : Device) : M (Env B) unit :=
  Log "%s%s" [LStr TAG; LStr "~Device"] ;;
  DeviceProxy.DeviceProxy_dtor (m_devicePath this).

(** [StartLooping]: the thread that runs [RunEventLoop] is started. *)
Definition StartLooping (this : Device) : M (Env B) Device :=
  Log "%s%s" [LStr TAG; LStr "StartLooping"] ;;
  mret (mkDevice (m_devicePath this) (m_properties this) (m_running this) true).

Definition GetPath (this : Device) : string := m_devicePath this.

Definition Connect (this : Device) : M (Env B) unit :=
  Log "%s%s" [LStr TAG; LStr "Connect"] ;;
  connected ← DeviceProxy.GetConnected (m_devicePath this);
  if connected : bool then
    Log "%s%s Device is already connected" [LStr TAG; LStr "Connect"]
  else DeviceProxy.Connect (m_devicePath this).

Definition Disconnect (this : Device) : M (Env B) unit :=
  Log "%s%s" [LStr TAG; LStr "Disconnect"] ;;
  connected ← DeviceProxy.GetConnected (m_devicePath this);
  if negb connected then
    Log "%s%s Device is not connected" [LStr TAG; LStr "Disconnect"]
  else DeviceProxy.Disconnect (m_devicePath this).

Definition Pair (this : Device) : M (Env B) unit :=
  Log "%s%s" [LStr TAG; LStr "Pair"] ;;
  paired ← DeviceProxy.GetPaired (m_devicePath this);
  if paired : bool then
    Log "%s%s Device is already paired" [LStr TAG; LStr "Pair"]
  else DeviceProxy.Pair (m_devicePath this).

Definition CancelPairing (this : Device) : M (Env B) unit :=
  Log "%s%s" [LStr TAG; LStr "CancelPairing"] ;;
  paired ← DeviceProxy.GetPaired (m_devicePath this);
  if negb paired then
    Log "%s%s Device is not paired" [LStr TAG; LStr "CancelPairing"]
  else DeviceProxy.CancelPairing (m_devicePath this).

Definition PropertiesChanged (properties : DeviceProperties) (this : Device)
  : Device :=
  set_m_properties properties this.

(** [GetProperties]: a fresh reading through the proxy, not the cache. *)
Definition GetProperties (this : Device) : M (Env B) DeviceProperties :=
  DeviceProxy.GetProperties (m_devicePath this).

(** The loop of [PrintUUID]: one line for each cached UUID, numbered by
    the counter [i]. *)
Fixpoint PrintUUID_loop (i : Z) (uuids : list string) : M (Env B) unit :=
  match uuids with
  | [] => mret tt
  | uuid :: rest =>
      Log "%s%s %d UUID - %s" [LStr TAG; LStr "PrintUUID"; LNum i; LStr uuid] ;;
      PrintUUID_loop (i + 1) rest
  end.

Definition PrintUUID (this : Device) : M (Env B) unit :=
  Log "%s%s" [LStr TAG; LStr "PrintUUID"] ;;
  PrintUUID_loop 1 (UUIDs (m_properties this)).

(** [ConnectProfile]: the UUID cache is refreshed from the proxy, outside
    the [try]; only the invocation itself is guarded.  It returns the
    object after the call. *)
Definition ConnectProfile (uuid : string) (this : Device) : M (Env B) Device :=
  Log "%s%s UUID - %s" [LStr TAG; LStr "ConnectProfile"; LStr uuid] ;;
  uuids ← DeviceProxy.GetUUIDs (m_devicePath this);
  let this := set_m_properties (set_UUIDs uuids (m_properties this)) this in
  when (bool_decide (length (UUIDs (m_properties this)) = 0%nat))
       (Log "%s%s Error: UUIDs is empty" [LStr TAG; LStr "ConnectProfile"]) ;;
  PrintUUID this ;;
  try_catch (DeviceProxy.ConnectProfile (m_devicePath this) uuid)
    (catch_sdbus_Error (λ w,
       Log "%s%s Error: Couldn't connect UUID - %s %s"
           [LStr TAG; LStr "ConnectProfile"; LStr uuid; LStr w])) ;;
  mret this.

Definition DisconnectProfile (uuid : string) (this : Device) : M (Env B) unit :=
  Log "%s%s UUID - %s" [LStr TAG; LStr "DisconnectProfile"; LStr uuid] ;;
  DeviceProxy.DisconnectProfile (m_devicePath this) uuid.

(** *** The property-changed callbacks

Each one compares the delivered value with the cached member and,
when they differ, assigns and logs.  They return the object after
the call. *)

Definition AddressChanged (value : string) (this : Device) : M (Env B) Device :=
  if decide (Address (m_properties this) ≠ value) then
    let this := set_m_properties (set_Address value (m_properties this)) this in
    Log "%s%s Address- %s " [LStr TAG; LStr "AddressChanged"; LStr value] ;;
    mret this
  else mret this.

Definition AddressTypeChanged (value : string) (this : Device) : M (Env B) Device :=
  if decide (AddressType (m_properties this) ≠ value) then
    let this := set_m_properties (set_AddressType value (m_properties this)) this in
    Log "%s%s AddressType: %s" [LStr TAG; LStr "AddressTypeChanged"; LStr value] ;;
    mret this
  else mret this.

Definition NameChanged (value : string) (this : Device) : M (Env B) Device :=
  if decide (Name (m_properties this) ≠ value) then
    let this := set_m_properties (set_Name value (m_properties this)) this in
    Log "%s%s Name: %s" [LStr TAG; LStr "NameChanged"; LStr value] ;;
    mret this
  else mret this.

Definition IconChanged (value : string) (this : Device) : M (Env B) Device :=
  if decide (Icon (m_properties this) ≠ value) then
    let this := set_m_properties (set_Icon value (m_properties this)) this in
    Log "%s%s Icon: %s" [LStr TAG; LStr "IconChanged"; LStr value] ;;
    mret this
  else mret this.

Definition ClassChanged (value : Z) (this : Device) : M (Env B) Device :=
  if decide (Class (m_properties this) ≠ value) then
    let this := set_m_properties (set_Class value (m_properties this)) this in
    Log "%s%s Class: %u" [LStr TAG; LStr "ClassChanged"; LNum value] ;;
    mret this
  else mret this.

(** The [stringstream] of [UUIDsChanged]: each element followed by a
    space. *)
Definition join_uuids (value : list string) : string :=
  foldr (λ uuid acc, uuid +:+ " " +:+ acc) "" value.

Definition UUIDsChanged (value : list string) (this : Device) : M (Env B) Device :=
  if decide (UUIDs (m_properties this) ≠ value) then
    let this := set_m_properties (set_UUIDs value (m_properties this)) this in
    Log "%s%s UUIDs: %s" [LStr TAG; LStr "UUIDsChanged"; LStr (join_uuids value)] ;;
    mret this
  else mret this.

Definition PairedChanged (value : bool) (this : Device) : M (Env B) Device :=
  if decide (Paired (m_properties this) ≠ value) then
    let this := set_m_properties (set_Paired value (m_properties this)) this in
    Log "%s%s Paired - %d" [LStr TAG; LStr "PairedChanged"; LBool value] ;;
    mret this
  else mret this.

Definition ConnectedChanged (value : bool) (this : Device) : M (Env B) Device :=
  if decide (Connected (m_properties this) ≠ value) then
    let this := set_m_properties (set_Connected value (m_properties this)) this in
    Log "%s%s Connected - %d" [LStr TAG; LStr "ConnectedChanged"; LBool value] ;;
    mret this
  else mret this.

Definition TrustedChanged (value : bool) (this : Device) : M (Env B) Device :=
  if decide (Trusted (m_properties this) ≠ value) then
    let this := set_m_properties (set_Trusted value (m_properties this)) this in
    Log "%s%s Trusted - %d" [LStr TAG; LStr "TrustedChanged"; LBool value] ;;
    mret this
  else mret this.

Definition BlockedChanged (value : bool) (this : Device) : M (Env B) Device :=
  if decide (Blocked (m_properties this) ≠ value) then
    let this := set_m_properties (set_Blocked value (m_properties this)) this in
    Log "%s%s Blocked - %d" [LStr TAG; LStr "BlockedChanged"; LBool value] ;;
    mret this
  else mret this.

Definition AliasChanged (value : string) (this : Device) : M (Env B) Device :=
  if decide (Alias (m_properties this) ≠ value) then
    let this := set_m_properties (set_Alias value (m_properties this)) this in
    Log "%s%s Alias %s" [LStr TAG; LStr "AliasChanged"; LStr value] ;;
    mret this
  else mret this.

Definition AdapterChanged (value : string) (this : Device) : M (Env B) Device :=
  if decide (AdapterPath (m_properties this) ≠ value) then
    let this := set_m_properties (set_AdapterPath value (m_properties this)) this in
    Log "%s%s Adapter %s" [LStr TAG; LStr "AdapterChanged"; LStr value] ;;
    mret this
  else mret this.

Definition LegacyPairingChanged (value : bool) (this : Device) : M (Env B) Device :=
  if decide (LegacyPairing (m_properties this) ≠ value) then
    let this := set_m_properties (set_LegacyPairing value (m_properties this)) this in
    Log "%s%s Legacy Pairing - %d"
        [LStr TAG; LStr "LegacyPairingChanged"; LBool value] ;;
    mret this
  else mret this.

(** The [stringstream] of the two data callbacks:
    [key: subKey=subVal subKey=subVal ...] for each entry. *)
Definition join_entries (val : gmap Z string) : string :=
  foldr (λ kv acc, pretty kv.1 +:+ "=" +:+ kv.2 +:+ " " +:+ acc) ""
        (in_order Z.le val).

Definition join_manufacturer (value : gmap Z (gmap Z string)) : string :=
  foldr (λ kv acc, pretty kv.1 +:+ ": " +:+ join_entries kv.2 +:+ acc) ""
        (in_order Z.le value).

Definition join_service (value : gmap string (gmap Z string)) : string :=
  foldr (λ kv acc, kv.1 +:+ ": " +:+ join_entries kv.2 +:+ acc) ""
        (in_order String.le value).

Definition ManufacturerDataChanged (value : gmap Z (gmap Z string)) (this : Device)
  : M (Env B) Device :=
  if decide (ManufacturerData (m_properties this) ≠ value) then
    let this :=
      set_m_properties (set_ManufacturerData value (m_properties this)) this in
    Log "%s%s ManufacturerData: %s"
        [LStr TAG; LStr "ManufacturerDataChanged"; LStr (join_manufacturer value)] ;;
    mret this
  else mret this.

Definition ServiceDataChanged (value : gmap string (gmap Z string)) (this : Device)
  : M (Env B) Device :=
  if decide (ServiceData (m_properties this) ≠ value) then
    let this := set_m_properties (set_ServiceData value (m_properties this)) this in
    Log "%s%s ServiceData: %s"
        [LStr TAG; LStr "ServiceDataChanged"; LStr (join_service value)] ;;
    mret this
  else mret this.

Definition ServicesResolvedChanged (value : bool) (this : Device)
  : M (Env B) Device :=
  if decide (ServicesResolved (m_properties this) ≠ value) then
    let this :=
      set_m_properties (set_ServicesResolved value (m_properties this)) this in
    Log "%s%s ServicesResolved - %d"
        [LStr TAG; LStr "ServicesResolvedChanged"; LBool value] ;;
    mret this
  else mret this.

(** One delivery to one of the sixteen callbacks. *)
Inductive PropertyChange : Type :=
  | ChAddress (value : string)
  | ChAddressType (value : string)
  | ChName (value : string)
  | ChIcon (value : string)
  | ChClass (value : Z)
  | ChUUIDs (value : list string)
  | ChPaired (value : bool)
  | ChConnected (value : bool)
  | ChTrusted (value : bool)
  | ChBlocked (value : bool)
  | ChAlias (value : string)
  | ChAdapter (value : string)
  | ChLegacyPairing (value : bool)
  | ChManufacturerData (value : gmap Z (gmap Z string))
  | ChServiceData (value : gmap string (gmap Z string))
  | ChServicesResolved (value : bool).

Definition deliver (c : PropertyChange) : Device → M (Env B) Device :=
  match c with
  | ChAddress v => AddressChanged v
  | ChAddressType v => AddressTypeChanged v
  | ChName v => NameChanged v
  | ChIcon v => IconChanged v
  | ChClass v => ClassChanged v
  | ChUUIDs v => UUIDsChanged v
  | ChPaired v => PairedChanged v
  | ChConnected v => ConnectedChanged v
  | ChTrusted v => TrustedChanged v
  | ChBlocked v => BlockedChanged v
  | ChAlias v => AliasChanged v
  | ChAdapter v => AdapterChanged v
  | ChLegacyPairing v => LegacyPairingChanged v
  | ChManufacturerData v => ManufacturerDataChanged v
  | ChServiceData v => ServiceDataChanged v
  | ChServicesResolved v => ServicesResolvedChanged v
  end.

End WithBus.

(** The cached member a delivery is about holds the delivered value. *)
Definition cached (c : PropertyChange) (q : DeviceHelper.DeviceProperties) : Prop :=
  match c with
  | ChAddress v => DeviceHelper.Address q = v
  | ChAddressType v => DeviceHelper.AddressType q = v
  | ChName v => DeviceHelper.Name q = v
  | ChIcon v => DeviceHelper.Icon q = v
  | ChClass v => DeviceHelper.Class q = v
  | ChUUIDs v => DeviceHelper.UUIDs q = v
  | ChPaired v => DeviceHelper.Paired q = v
  | ChConnected v => DeviceHelper.Connected q = v
  | ChTrusted v => DeviceHelper.Trusted q = v
  | ChBlocked v => DeviceHelper.Blocked q = v
  | ChAlias v => DeviceHelper.Alias q = v
  | ChAdapter v => DeviceHelper.AdapterPath q = v
  | ChLegacyPairing v => DeviceHelper.LegacyPairing q = v
  | ChManufacturerData v => DeviceHelper.ManufacturerData q = v
  | ChServiceData v => DeviceHelper.ServiceData q = v
  | ChServicesResolved v => DeviceHelper.ServicesResolved q = v
  end.

(** Two deliveries are about the same member. *)
Definition same_member (c c' : PropertyChange) : bool :=
  match c, c' with
  | ChAddress _, ChAddress _ | ChAddressType _, ChAddressType _
  | ChName _, ChName _ | ChIcon _, ChIcon _ | ChClass _, ChClass _
  | ChUUIDs _, ChUUIDs _ | ChPaired _, ChPaired _
  | ChConnected _, ChConnected _ | ChTrusted _, ChTrusted _
  | ChBlocked _, ChBlocked _ | ChAlias _, ChAlias _
  | ChAdapter _, ChAdapter _ | ChLegacyPairing _, ChLegacyPairing _
  | ChManufacturerData _, ChManufacturerData _
  | ChServiceData _, ChServiceData _
  | ChServicesResolved _, ChServicesResolved _ => true
  | _, _ => false
  end.

End Device.

(* ================================================================== *)
(** ** Src/Utilities/Utilities.h and the property-changed signal of
       Src/Device/DeviceProxy.cpp *)

Module DeviceProxySignal.

(** What the handler of the signal acts on: the device the proxy refers
    to ([m_device]), the world, and the lines written to [std::cerr]. *)
Record State (B : Type) : Type := mkState {
  m_device : Device.Device;
  env : Env B;
  cerr : list string
}.
Arguments mkState {B} m_device env cerr.
Arguments m_device {B} s.
Arguments env {B} s.
Arguments cerr {B} s.

Section WithBus.
Context {B : Type} `{!Device1_proxy B}.

Definition set_env (e : Env B) (s : State B) : State B :=
  mkState (m_device s) e (cerr s).

Definition io {A} (m : M (Env B) A) : M (State B) A := zoom env set_env m.

(** [getFromSVariant<T>]: [variant.get<T>()]; whatever it throws is
    written to [std::cerr] and thrown again. *)
Definition getFromSVariant {T} (get : Variant → M (State B) T) (variant : Variant)
  : M (State B) T :=
  try_catch (get variant)
    (λ e, modify (λ s, mkState (m_device s) (env s) (cerr s ++ [what e])) ;;
          mthrow e).

(** A call of one of the callbacks of [IDevice] on [m_device]. *)
Definition callback (changed : Device.Device → M (Env B) Device.Device)
  : M (State B) unit :=
  λ s, match changed (m_device s) (env s) with
       | (Ret device, e') => (Ret tt, mkState device e' (cerr s))
       | (Throw ex, e') => (Throw ex, mkState (m_device s) e' (cerr s))
       end.

(** [dispatchDeviceCallbacks]: a [std::map] from the property name to
    the function that extracts the value and hands it to the callback;
    the entries of the two data properties do nothing. *)
Definition dispatchDeviceCallbacks : gmap string (Variant → M (State B) unit) :=
  list_to_map
    [ (DeviceHelper.DEVICE_PROPERTY_Address,
         λ value, v ← getFromSVariant get_string value;
                  callback (Device.AddressChanged v));
      (DeviceHelper.DEVICE_PROPERTY_AddressType,
         λ value, v ← getFromSVariant get_string value;
                  callback (Device.AddressTypeChanged v));
      (DeviceHelper.DEVICE_PROPERTY_Name,
         λ value, v ← getFromSVariant get_string value;
                  callback (Device.NameChanged v));
      (DeviceHelper.DEVICE_PROPERTY_UUIDs,
         λ value, v ← getFromSVariant get_strings value;
                  callback (Device.UUIDsChanged v));
      (DeviceHelper.DEVICE_PROPERTY_Paired,
         λ value, v ← getFromSVariant get_bool value;
                  callback (Device.PairedChanged v));
      (DeviceHelper.DEVICE_PROPERTY_Connected,
         λ value, v ← getFromSVariant get_bool value;
                  callback (Device.ConnectedChanged v));
      (DeviceHelper.DEVICE_PROPERTY_Trusted,
         λ value, v ← getFromSVariant get_bool value;
                  callback (Device.TrustedChanged v));
      (DeviceHelper.DEVICE_PROPERTY_Blocked,
         λ value, v ← getFromSVariant get_bool value;
                  callback (Device.BlockedChanged v));
      (DeviceHelper.DEVICE_PROPERTY_Alias,
         λ value, v ← getFromSVariant get_string value;
                  callback (Device.AliasChanged v));
      (DeviceHelper.DEVICE_PROPERTY_Adapter,
         λ value, v ← getFromSVariant get_string value;
                  callback (Device.AdapterChanged v));
      (DeviceHelper.DEVICE_PROPERTY_LegacyPairing,
         λ value, v ← getFromSVariant get_bool value;
                  callback (Device.LegacyPairingChanged v));
      (DeviceHelper.DEVICE_PROPERTY_ServiceData, λ value, mret tt);
      (DeviceHelper.DEVICE_PROPERTY_ServicesResolved,
         λ value, v ← getFromSVariant get_bool value;
                  callback (Device.ServicesResolvedChanged v));
      (DeviceHelper.DEVICE_PROPERTY_Icon,
         λ value, v ← getFromSVariant get_string value;
                  callback (Device.IconChanged v));
      (DeviceHelper.DEVICE_PROPERTY_Class,
         λ value, v ← getFromSVariant get_uint32 value;
                  callback (Device.ClassChanged v));
      (DeviceHelper.DEVICE_PROPERTY_ManufacturerData, λ value, mret tt) ].

(** [dispatchDeviceCallbacks.at(name)(m_device, value)]. *)
Definition dispatch (name : string) (value : Variant) : M (State B) unit :=
  match dispatchDeviceCallbacks !! name with
  | Some entry => entry value
  | None => mthrow (out_of_range "map::at")
  end.

(** The body of the loop of [onPropertiesChanged] for one changed
    property: a name that is not in the table is logged and skipped; any
    other exception leaves the handler. *)
Definition onPropertiesChanged_entry (prop : string * Variant) : M (State B) unit :=
  io (Log "%s%s Name - %s" [LStr DeviceProxy.TAG; LStr "onPropertiesChanged";
                            LStr prop.1]) ;;
  try_catch (dispatch prop.1 prop.2)
    (catch_out_of_range (λ _,
       io (Log "%s%s %s Not Available in List"
               [LStr DeviceProxy.TAG; LStr "onPropertiesChanged"; LStr prop.1]))).

(** [onPropertiesChanged]: the changed properties are visited in the
    order of their names; the name of the interface and the invalidated
    properties are not looked at. *)
Definition onPropertiesChanged (interface_name : string)
    (changed_properties : gmap string Variant)
    (invalidated_properties : list string) : M (State B) unit :=
  for_each (in_order String.le changed_properties) onPropertiesChanged_entry.

End WithBus.
End DeviceProxySignal.

(* ================================================================== *)
(** ** Src/DeviceManager/DeviceManager.cpp *)

Module DeviceManager.

(** A queued add request. *)
Record DeviceStruct : Type := mkDeviceStruct {
  path : string;
  enableLoop : bool
}.

(** The members of [DeviceManager] and the world it acts on.  A
    [std::shared_ptr<Device>] may be null: [None]. *)
Record State (B : Type) : Type := mkState {
  m_devicesMap : gmap string (option Device.Device);
  m_deviceQueue : list DeviceStruct;
  m_running : bool;
  env : Env B
}.
Arguments mkState {B} m_devicesMap m_deviceQueue m_running env.
Arguments m_devicesMap {B} s.
Arguments m_deviceQueue {B} s.
Arguments m_running {B} s.
Arguments env {B} s.

Definition TAG : string := "DeviceManager::".

Definition GetMACFromPath (path : string) : string :=
  let toFind := "dev_" in
  match StdString.find toFind path with
  | None => ""
  | Some pos =>
      let mac := StdString.substr path (pos + String.length toFind) in
      StdString.replace "_"%char ":"%char mac
  end.

Section WithBus.
Context {B : Type} `{!Device1_proxy B}.

Definition set_devicesMap (m : gmap string (option Device.Device)) (s : State B)
  : State B :=
  mkState m (m_deviceQueue s) (m_running s) (env s).
Definition set_deviceQueue (q : list DeviceStruct) (s : State B) : State B :=
  mkState (m_devicesMap s) q (m_running s) (env s).
Definition set_running (r : bool) (s : State B) : State B :=
  mkState (m_devicesMap s) (m_deviceQueue s) r (env s).
Definition set_env (e : Env B) (s : State B) : State B :=
  mkState (m_devicesMap s) (m_deviceQueue s) (m_running s) e.

(** Code of the devices and of the logger, run from the manager. *)
Definition io {A} (m : M (Env B) A) : M (State B) A := zoom env set_env m.

(** The constructor: nothing registered, nothing queued. *)
Definition DeviceManager_ctor (e : Env B) : State B :=
  mkState ∅ [] true (Log "%s%s" [LStr TAG; LStr "DeviceManager"] e).2.

Definition DeviceAdded (devicePath : string) (enableLoop : bool)
  : M (State B) unit :=
  modify (λ s, set_deviceQueue
                 (m_deviceQueue s ++ [mkDeviceStruct devicePath enableLoop]) s) ;;
  io (Log "%s%s Device - %s added to queue"
          [LStr TAG; LStr "DeviceAdded"; LStr devicePath]).

(** [m_devicesMap.at(key)]. *)
Definition at_ (key : string) : M (State B) (option Device.Device) :=
  m ← gets m_devicesMap;
  match m !! key with
  | Some d => mret d
  | None => mthrow (out_of_range "map::at")
  end.

(** [DeviceRemoved].  [reset()] gives up the registry's reference to
    the device; other owners ([Menu::m_device]) may keep it alive, so
    nothing of the device's destruction is part of this function. *)
Definition DeviceRemoved (devicePath : string) : M (State B) unit :=
  let deviceMAC := GetMACFromPath devicePath in
  io (Log "%s%s Device - %s MAC - %s"
          [LStr TAG; LStr "DeviceRemoved"; LStr devicePath;
           LStr (GetMACFromPath devicePath)]) ;;
  try_catch
    (_ ← at_ deviceMAC;
     modify (λ s, set_devicesMap (delete deviceMAC (m_devicesMap s)) s))
    (catch_exception (λ w,
       io (Log "%s%s Device - %s Seleting %s, Error - %s"
               [LStr TAG; LStr "DeviceRemoved"; LStr devicePath;
                LStr deviceMAC; LStr w]))).

Definition GetDevice (mac : string) : M (State B) (option Device.Device) :=
  try_catch (at_ mac)
    (catch_out_of_range (λ w,
       io (Log "%s%s Out of Range Error" [LStr TAG; LStr "GetDevice"; LStr w]) ;;
       mret None)).

Definition GetDevicesMAC : M (State B) (list string) :=
  gets (λ s, (in_order String.le (m_devicesMap s)).*1).

(** The body of the inner loop of [RunEventLoop] for one dequeued
    request.  [std::make_shared<Device>(...)] is evaluated before
    [m_devicesMap[deviceMAC]] (the right operand of an assignment is
    sequenced first), so a constructor that throws leaves the map as it
    was. *)
Definition process (devicePath : DeviceStruct) : M (State B) unit :=
  let deviceMAC := GetMACFromPath (path devicePath) in
  io (Log "%s%s Processing Device - %s MAC - %s"
          [LStr TAG; LStr "RunEventLoop"; LStr (path devicePath); LStr deviceMAC]) ;;
  if StdString.empty (path devicePath) || StdString.empty deviceMAC then
    io (Log "%s%s Error: devicePath or deviceMAC is empty"
            [LStr TAG; LStr "RunEventLoop"])
  else
    m ← gets m_devicesMap;
    if decide (is_Some (m !! deviceMAC)) then
      io (Log "%s%s Device - %s already exists"
              [LStr TAG; LStr "RunEventLoop"; LStr deviceMAC])
    else
      try_catch
        (device ← io (Device.Device_ctor (path devicePath));
         modify (λ s, set_devicesMap
                        (<[deviceMAC := Some device]> (m_devicesMap s)) s) ;;
         count ← gets (λ s, size (m_devicesMap s));
         io (Log "%s%s Device Count - %d"
                 [LStr TAG; LStr "RunEventLoop"; LNum (Z.of_nat count)]))
        (catch_sdbus_Error (λ w,
           io (Log "%s%s Error creating device for devicePath - %s, Error - %s"
                   [LStr TAG; LStr "RunEventLoop"; LStr (path devicePath);
                    LStr w]))).

(** [while (!m_deviceQueue.empty()) { front(); pop(); ... }] on the
    queue [q] found at wake-up. *)
Fixpoint drain (q : list DeviceStruct) : M (State B) unit :=
  match q with
  | [] => mret tt
  | devicePath :: rest =>
      modify (set_deviceQueue rest) ;;
      process devicePath ;;
      drain rest
  end.

(** One wake-up of the consumer thread in [RunEventLoop]. *)
Definition RunEventLoop_wakeup : M (State B) unit :=
  running ← gets m_running;
  if negb running then
    io (Log "%s%s Exiting RunEventLoop" [LStr TAG; LStr "RunEventLoop"])
  else
    q ← gets m_deviceQueue;
    drain q.

(** The body of the loop of [RemoveDevices] at one entry.
    [RemoveDevices] is called by the destructor of the registry, which
    runs when the application is released by its last owner, the menu;
    the menu has released the device it selected by then ([m_device] is
    declared after [m_application] in Menu.h and destroyed before it).
    The registry holds the only reference to each device: [reset()]
    destroys it. *)
Definition RemoveDevices_entry (it : string * option Device.Device)
  : M (State B) unit :=
  match it.2 with
  | None => mret tt
  | Some device =>
      properties ← io (Device.GetProperties device);
      when (DeviceHelper.Connected properties) (io (Device.Disconnect device)) ;;
      when (DeviceHelper.Paired properties) (io (Device.CancelPairing device)) ;;
      io (Device.Device_dtor device) ;;
      modify (λ s, set_devicesMap (delete it.1 (m_devicesMap s)) s)
  end.

Definition RemoveDevices : M (State B) unit :=
  io (Log "%s%s" [LStr TAG; LStr "RemoveDevices"]) ;;
  try_catch
    (entries ← gets (λ s, in_order String.le (m_devicesMap s));
     for_each entries RemoveDevices_entry ;;
     m ← gets m_devicesMap;
     when (negb (bool_decide (m = ∅))) (modify (set_devicesMap ∅)))
    (catch_sdbus_Error (λ w,
       io (Log "%s%s Error - %s" [LStr TAG; LStr "RemoveDevices"; LStr w]))).

(** The destructor, once the consumer thread is joined.  The records
    [RemoveDevices] has left in the map are destroyed with the map when
    the destructor is over; that is not part of this function. *)
Definition DeviceManager_dtor : M (State B) unit :=
  io (Log "%s%s" [LStr TAG; LStr "~DeviceManager"]) ;;
  modify (set_running false) ;;
  RemoveDevices.

End WithBus.
End DeviceManager.

(* ================================================================== *)
(** ** Src/ObjectManager/ObjectManagerProxy.cpp *)

Module ObjectManagerProxy.

Definition TAG : string := "ObjectManagerProxy::".
Definition DEVICE_INTERFACE : string := "org.bluez.Device1".

(** A queued object-added signal. *)
Record InterfaceAddedStruct : Type := mkInterfaceAdded {
  path : string;
  interfacesAndProperties : gmap string (gmap string Variant)
}.

(** [GetClass]: the value under the key ["Class"], or the enumerator
    [Uncategorized] used as a class value. *)
Definition GetClass {σ} (interfaces : gmap string Variant) : M σ Z :=
  let device_class := DeviceHelper.major_value DeviceHelper.Uncategorized in
  match interfaces !! "Class" with
  | Some it => get_uint32 it
  | None => mret device_class
  end.

Definition ValidateClass (device_class : Z) : bool :=
  let device_class_obj := DeviceHelper.from_uint32_t device_class in
  (DeviceHelper.major_device_class device_class_obj
     =? DeviceHelper.major_value DeviceHelper.Phone)
  || (DeviceHelper.major_device_class device_class_obj
        =? DeviceHelper.major_value DeviceHelper.AudioVideo).

Definition GetAndValidateClass {σ} (interfaces : gmap string Variant) : M σ bool :=
  device_class ← GetClass interfaces;
  mret (ValidateClass device_class).

(** The members of [ObjectManagerProxy]; [m_deviceManager] is the
    registry it feeds, which holds the world. *)
Record State (B : Type) : Type := mkState {
  m_deviceManager : DeviceManager.State B;
  m_interface_added_queue : list InterfaceAddedStruct;
  m_running : bool
}.
Arguments mkState {B} m_deviceManager m_interface_added_queue m_running.
Arguments m_deviceManager {B} s.
Arguments m_interface_added_queue {B} s.
Arguments m_running {B} s.

Section WithBus.
Context {B : Type} `{!Device1_proxy B}.

Definition onInterfacesRemoved (objectPath : string) (interfaces : list string)
  : M (DeviceManager.State B) unit :=
  DeviceManager.io
    (Log "%s%s Object Path - %s"
         [LStr TAG; LStr "onInterfacesRemoved"; LStr objectPath]) ;;
  for_each interfaces (λ interface,
    when (bool_decide (DEVICE_INTERFACE = interface))
         (DeviceManager.DeviceRemoved interface)).

(** What [RunEventLoop] does with one dequeued object-added signal. *)
Definition RunEventLoop_signal (interfaceAdded : InterfaceAddedStruct)
  : M (DeviceManager.State B) unit :=
  for_each (in_order String.le (interfacesAndProperties interfaceAdded))
    (λ interface,
      DeviceManager.io
        (Log "%s%s Interface - %s"
             [LStr TAG; LStr "RunEventLoop"; LStr interface.1]) ;;
      if bool_decide (DEVICE_INTERFACE = interface.1) then
        accepted ← GetAndValidateClass interface.2;
        when accepted (DeviceManager.DeviceAdded (path interfaceAdded) false)
      else mret tt).

Definition set_deviceManager (d : DeviceManager.State B) (s : State B) : State B :=
  mkState d (m_interface_added_queue s) (m_running s).
Definition set_interface_added_queue (q : list InterfaceAddedStruct) (s : State B)
  : State B :=
  mkState (m_deviceManager s) q (m_running s).

(** Code of the registry and of the logger, run from the proxy. *)
Definition manager {A} (m : M (DeviceManager.State B) A) : M (State B) A :=
  zoom m_deviceManager set_deviceManager m.

(** The handler of the object-added signal: the signal is queued for
    the consumer thread. *)
Definition onInterfacesAdded (objectPath : string)
    (interfacesAndProperties : gmap string (gmap string Variant)) : M (State B) unit :=
  manager (DeviceManager.io
    (Log "%s%s Object Path - %s"
         [LStr TAG; LStr "onInterfacesAdded"; LStr objectPath])) ;;
  modify (λ s, set_interface_added_queue
                 (m_interface_added_queue s
                  ++ [mkInterfaceAdded objectPath interfacesAndProperties]) s).

(** One wake-up of the consumer thread in [RunEventLoop]: at most one
    queued signal is taken. *)
Definition RunEventLoop_wakeup : M (State B) unit :=
  running ← gets m_running;
  if negb running then
    manager (DeviceManager.io
      (Log "%s%s Exiting RunEventLoop" [LStr TAG; LStr "RunEventLoop"]))
  else
    q ← gets m_interface_added_queue;
    match q with
    | [] => mret tt
    | interfaceAdded :: rest =>
        modify (set_interface_added_queue rest) ;;
        manager (RunEventLoop_signal interfaceAdded)
    end.

End WithBus.
End ObjectManagerProxy.

(* ================================================================== *)
(** ** Src/Agent/Agent.cpp *)

Module Agent.
Section WithBus.
Context {B : Type} `{!Device1_proxy B}.

Definition RequestConfirmation (path : string) : M (DeviceManager.State B) unit :=
  DeviceManager.DeviceAdded path true.

End WithBus.
End Agent.

(* ================================================================== *)
(** ** Src/Menu/Menu.cpp *)

Module Menu.

(** The members of [Menu].  [m_application] is the application the menu
    was built for: of it the commands below use the registry, which
    holds the world.  [m_device] is the selected device, or null; it
    shares the device with the registry, and none of the commands below
    writes to a device. *)
Record State (B : Type) : Type := mkState {
  m_application : DeviceManager.State B;
  m_device : option Device.Device
}.
Arguments mkState {B} m_application m_device.
Arguments m_application {B} s.
Arguments m_device {B} s.

Definition TAG : string := "Menu::".
Definition SPP_UUID : string := "00001101-0000-1000-8000-00805f9b34fb".

Section WithBus.
Context {B : Type} `{!Device1_proxy B}.

Definition set_application (a : DeviceManager.State B) (s : State B) : State B :=
  mkState a (m_device s).
Definition set_device (d : option Device.Device) (s : State B) : State B :=
  mkState (m_application s) d.

(** [m_application->GetDeviceManager()]: code of the registry, run from
    the menu. *)
Definition GetDeviceManager {A} (m : M (DeviceManager.State B) A) : M (State B) A :=
  zoom m_application set_application m.

(** Code of the devices and of the logger, run from the menu. *)
Definition io {A} (m : M (Env B) A) : M (State B) A :=
  GetDeviceManager (DeviceManager.io m).

(** [GetMAC] and [GetUUID]: [input] is the word read from [std::cin]. *)
Definition GetMAC (input : string) : M (State B) string :=
  io (Log "Enter MAC Address" []) ;; mret input.

Definition GetUUID (input : string) : M (State B) string :=
  io (Log "Enter UUID" []) ;; mret input.

Definition GetDevice (input : string) : M (State B) unit :=
  io (Log "%s%s" [LStr TAG; LStr "GetDevice"]) ;;
  mac ← GetMAC input;
  device ← GetDeviceManager (DeviceManager.GetDevice mac);
  match device with
  | None => io (Log "Device is null" [])
  | Some _ => modify (set_device device)
  end.

(** [GetDevicesMac], for a menu whose [m_application] is not null. *)
Definition GetDevicesMac : M (State B) (list string) :=
  GetDeviceManager DeviceManager.GetDevicesMAC.

Definition ListDevices : M (State B) unit :=
  io (Log "%s%s" [LStr TAG; LStr "ListDevices"]) ;;
  devices ← GetDevicesMac;
  for_each devices (λ device,
    io (Log "%s%s Device - %s" [LStr TAG; LStr "ListDevices"; LStr device])).

Definition Connect : M (State B) unit :=
  io (Log "%s%s" [LStr TAG; LStr "Connect"]) ;;
  device ← gets m_device;
  match device with
  | None => io (Log "Device is null" [])
  | Some device => io (Device.Connect device)
  end.

Definition Disconnect : M (State B) unit :=
  io (Log "%s%s" [LStr TAG; LStr "Disconnect"]) ;;
  device ← gets m_device;
  match device with
  | None => io (Log "Device is null" [])
  | Some device => io (Device.Disconnect device)
  end.

Definition DisconnectProfile (input : string) : M (State B) unit :=
  io (Log "%s%s" [LStr TAG; LStr "DisconnectProfile"]) ;;
  uuid ← GetUUID input;
  if StdString.empty uuid then io (Log "UUID is empty" [])
  else
    device ← gets m_device;
    match device with
    | None => io (Log "Device is null" [])
    | Some device => io (Device.DisconnectProfile uuid device)
    end.

Definition DisconnectSPP : M (State B) unit :=
  io (Log "%s%s" [LStr TAG; LStr "DisconnectSPP"]) ;;
  device ← gets m_device;
  match device with
  | None => io (Log "Device is null" [])
  | Some device => io (Device.DisconnectProfile SPP_UUID device)
  end.

Definition Pair : M (State B) unit :=
  io (Log "%s%s" [LStr TAG; LStr "Pair"]) ;;
  device ← gets m_device;
  match device with
  | None => io (Log "Device is null" [])
  | Some device => io (Device.Pair device)
  end.

Definition CancelPairing : M (State B) unit :=
  io (Log "%s%s" [LStr TAG; LStr "CancelPairing"]) ;;
  device ← gets m_device;
  match device with
  | None => io (Log "Device is null" [])
  | Some device => io (Device.CancelPairing device)
  end.

End WithBus.
End Menu.

(* ================================================================== *)
(** ** Src/SPPHandler/SPPHandler.cpp *)

Module SPPHandler.

Definition TAG : string := "SPPHandler::".

(** [std::numeric_limits<uint64_t>::max()]. *)
Definition max_value : Z := 2 ^ 64 - 1.

(** What the writer thread reads and writes: the descriptor of the
    connection, its running flag, the calls of [write] it has made
    (descriptor and data) and the lines it has logged. *)
Record State : Type := mkState {
  m_fd : Z;
  m_writeRunning : bool;
  writes : list (Z * string);
  lines : list LogLine
}.

Definition Log (fmt : string) (args : list LogArg) (s : State) : State :=
  mkState (m_fd s) (m_writeRunning s) (writes s) (lines s ++ [mkLog fmt args]).

Definition set_writeRunning (r : bool) (s : State) : State :=
  mkState (m_fd s) r (writes s) (lines s).

(** [write(fd, data, size)], answered by the operating system with the
    number of bytes written and, on failure, [errno]. *)
Definition write (fd : Z) (data : string) (s : State) : State :=
  mkState (m_fd s) (m_writeRunning s) (writes s ++ [(fd, data)]) (lines s).

(** One turn of the loop of [WriteBuffer] from the test of the counter
    on, when the operating system answers the call of [write] with
    [answer]; [count] is a 64-bit unsigned counter. *)
Definition WriteBuffer_body (fd : Z) (count : Z) (answer : Z * Z) (s : State)
  : Z * State :=
  let count := if count =? max_value then 0 else count in
  let data := "Ping " +:+ pretty count in
  let count := (count + 1) mod 2 ^ 64 in
  let s := write fd data s in
  let bytes_written := answer.1 in
  let s :=
    if bytes_written <? 0 then
      set_writeRunning false
        (Log "%s%s Error: Writing to FD - %d, Error - %d"
             [LStr TAG; LStr "WriteBuffer"; LNum fd; LNum answer.2] s)
    else if bytes_written =? 0 then
      set_writeRunning false
        (Log "%s%s Error: No data written to FD - %d"
             [LStr TAG; LStr "WriteBuffer"; LNum fd] s)
    else s in
  let s := Log "%s%s Data - %s" [LStr TAG; LStr "WriteBuffer"; LStr data] s in
  (count, s).

(** The loop of [WriteBuffer] on the answers the operating system gives
    to the successive calls of [write]; when they are used up the thread
    is in its next turn.  The flag is the thread's own here: the
    destructor has not cleared it. *)
Fixpoint WriteBuffer_loop (count : Z) (answers : list (Z * Z)) (s : State) : State :=
  if m_writeRunning s then
    if m_fd s <? 0 then
      Log "%s%s Error: Invalid FD - %d" [LStr TAG; LStr "WriteBuffer"; LNum (m_fd s)] s
    else
      match answers with
      | [] => s
      | answer :: rest =>
          let '(count, s) := WriteBuffer_body (m_fd s) count answer s in
          if negb (m_writeRunning s) then s else WriteBuffer_loop count rest s
      end
  else s.

Definition WriteBuffer (answers : list (Z * Z)) (s : State) : State :=
  WriteBuffer_loop 0 answers (Log "%s%s" [LStr TAG; LStr "WriteBuffer"] s).

End SPPHandler.

(* ================================================================== *)
(** ** The states the registry can be in *)

Section Reachable.
Context {B : Type} `{!Device1_proxy B}.

(** The entry points through which the registry is driven: bus signals,
    agent requests, wake-ups of the consumer thread, queries. *)
Inductive Op : Type :=
  | OpInterfacesAdded (signal : ObjectManagerProxy.InterfaceAddedStruct)
  | OpInterfacesRemoved (objectPath : string) (interfaces : list string)
  | OpRequestConfirmation (path : string)
  | OpDeviceAdded (devicePath : string) (enableLoop : bool)
  | OpDeviceRemoved (devicePath : string)
  | OpWakeup
  | OpGetDevice (mac : string)
  | OpGetDevicesMAC.

Definition run_op (op : Op) : M (DeviceManager.State B) unit :=
  match op with
  | OpInterfacesAdded signal => ObjectManagerProxy.RunEventLoop_signal signal
  | OpInterfacesRemoved objectPath interfaces =>
      ObjectManagerProxy.onInterfacesRemoved objectPath interfaces
  | OpRequestConfirmation path => Agent.RequestConfirmation path
  | OpDeviceAdded devicePath enableLoop =>
      DeviceManager.DeviceAdded devicePath enableLoop
  | OpDeviceRemoved devicePath => DeviceManager.DeviceRemoved devicePath
  | OpWakeup => DeviceManager.RunEventLoop_wakeup
  | OpGetDevice mac => _ ← DeviceManager.GetDevice mac; mret tt
  | OpGetDevicesMAC => _ ← DeviceManager.GetDevicesMAC; mret tt
  end.

(** The state after an operation, whether it returned or threw. *)
Definition after {A} (m : M (DeviceManager.State B) A) (s : DeviceManager.State B)
  : DeviceManager.State B := (m s).2.

Inductive reachable : DeviceManager.State B → Prop :=
  | reachable_ctor (e : Env B) : reachable (DeviceManager.DeviceManager_ctor e)
  | reachable_op (op : Op) (s : DeviceManager.State B) :
      reachable s → reachable (after (run_op op) s).

End Reachable.

(* ================================================================== *)
(** ** A small bus to run the program on *)

Module SimpleBus.

(** The daemon's side: which objects are connected and paired, the
    objects whose [Disconnect] the daemon refuses, and the objects whose
    properties it has not published yet: the first read of a property of
    such an object fails, and the daemon publishes them. *)
Record Daemon : Type := mkDaemon {
  connected : gset string;
  paired : gset string;
  refusing : gset string;
  unpublished : gset string
}.

Definition answer {A} (a : A) (d : Daemon) : reply A * Daemon := (Ok a, d).

Definition read {A} (p : string) (a : A) (d : Daemon) : reply A * Daemon :=
  if bool_decide (p ∈ unpublished d)
  then (Failed "org.freedesktop.DBus.Error.UnknownProperty",
        mkDaemon (connected d) (paired d) (refusing d) (unpublished d ∖ {[p]}))
  else (Ok a, d).

Definition invoke (p : string) (m : Method) (d : Daemon) : reply unit * Daemon :=
  match m with
  | mConnect =>
      (Ok tt, mkDaemon ({[p]} ∪ connected d) (paired d) (refusing d) (unpublished d))
  | mDisconnect =>
      if bool_decide (p ∈ refusing d) then (Failed "org.bluez.Error.Failed", d)
      else (Ok tt, mkDaemon (connected d ∖ {[p]}) (paired d) (refusing d)
                            (unpublished d))
  | mPair =>
      (Ok tt, mkDaemon (connected d) ({[p]} ∪ paired d) (refusing d) (unpublished d))
  | mCancelPairing => (Ok tt, d)
  | mConnectProfile _ | mDisconnectProfile _ => (Ok tt, d)
  end.

(** An object path starts with a slash; the library refuses others. *)
Definition ProxyInterfaces (p : string) (d : Daemon) : reply unit * Daemon :=
  if StdString.starts_with "/" p then (Ok tt, d)
  else (Failed "Invalid object path", d).

Global Instance proxy : Device1_proxy Daemon := {|
  org_bluez.ProxyInterfaces := ProxyInterfaces;
  org_bluez.registerProxy := λ _, answer tt;
  org_bluez.Address := λ p, read p "";
  org_bluez.AddressType := λ p, read p "public";
  org_bluez.Name := λ p, read p "";
  org_bluez.Icon := λ p, read p "";
  org_bluez.Class := λ p, read p 0x000204;
  org_bluez.UUIDs := λ p, read p [];
  org_bluez.Paired := λ p d, read p (bool_decide (p ∈ paired d)) d;
  org_bluez.Connected := λ p d, read p (bool_decide (p ∈ connected d)) d;
  org_bluez.Trusted := λ p, read p false;
  org_bluez.Blocked := λ p, read p false;
  org_bluez.Alias := λ p, read p "";
  org_bluez.Adapter := λ p, read p "/org/bluez/hci0";
  org_bluez.LegacyPairing := λ p, read p false;
  org_bluez.ServicesResolved := λ p, read p false;
  org_bluez.invoke := invoke
|}.

(** Every object published, none connected or paired. *)
Definition quiet : Daemon := mkDaemon ∅ ∅ ∅ ∅.

(** The daemon when it has just announced the objects [new]. *)
Definition announcing (new : gset string) (d : Daemon) : Daemon :=
  mkDaemon (connected d) (paired d) (refusing d) (new ∪ unpublished d).

Definition boot (d : Daemon) : Env Daemon := mkEnv d [] [].

End SimpleBus.


(* ================================================================== *)
(** ** Vocabulary of the statements *)

(** [needle] occurs in [s] at offset [pos]. *)
Definition occurs_at (needle s : string) (pos : nat) : Prop :=
  ∃ pre post, s = pre +:+ needle +:+ post ∧ String.length pre = pos.

(** [needle] is a substring of [s]. *)
Definition contains (needle s : string) : Prop :=
  ∃ pre post, s = pre +:+ needle +:+ post.

(** Bits [lo .. lo + width - 1] of [v]. *)
Definition bits (lo width : Z) (v : Z) : Z :=
  Z.land (Z.shiftr v lo) (Z.ones width).

(** An uppercase hexadecimal digit: [0-9A-F]. *)
Definition is_upper_hex (c : ascii) : bool :=
  let n := nat_of_ascii c in
  ((48 <=? n) && (n <=? 57) || (65 <=? n) && (n <=? 70))%nat.

(** [n] groups of two uppercase hexadecimal digits, separated by [sep]. *)
Fixpoint mac_groups (sep : ascii) (n : nat) (s : string) : bool :=
  match n, s with
  | S n', String a (String b rest) =>
      is_upper_hex a && is_upper_hex b &&
      match n', rest with
      | O, EmptyString => true
      | S _, String c rest' => Ascii.eqb c sep && mac_groups sep n' rest'
      | _, _ => false
      end
  | _, _ => false
  end.

(** The canonical form [XX:XX:XX:XX:XX:XX]. *)
Definition canonical_MAC (s : string) : bool := mac_groups ":" 6 s.

(** The form of the last component of a device path of the daemon,
    after its marker: [XX_XX_XX_XX_XX_XX]. *)
Definition device_suffix (s : string) : bool := mac_groups "_" 6 s.

(** A computation that throws nothing but [sdbus::Error]. *)
Definition throws_only_sdbus {σ A} (m : M σ A) : Prop :=
  ∀ s e s', m s = (Throw e, s') → ∃ w, e = sdbus_Error w.

(** The console after one more line. *)
Definition logged {B} (fmt : string) (args : list LogArg) (e : Env B) : Env B :=
  mkEnv (bus e) (trace e) (console e ++ [mkLog fmt args]).

(** What of the registry the add requests can change: the map and the
    world; the queue is only consumed. *)
Definition view {B} (s : DeviceManager.State B)
  : gmap string (option Device.Device) * Env B :=
  (DeviceManager.m_devicesMap s, DeviceManager.env s).

(** The world when the proxy of [devicePath] has been created on the bus
    and its constructor has written its line. *)
Definition proxy_created {B} (devicePath : string) (b' : B) (e : Env B) : Env B :=
  mkEnv b' (trace e ++ [ProxyCreated devicePath])
    (console e ++ [mkLog "%s%s" [LStr DeviceProxy.TAG; LStr "DeviceProxy"]]).

(** The properties of the object at [p] cannot all be read on the bus
    [b]: whatever the program has done before, [GetProperties] ends with
    a bus failure. *)
Definition unreadable {B} `{!Device1_proxy B} (p : string) (b : B) : Prop :=
  ∀ tr co, ∃ w e',
    DeviceProxy.GetProperties p (mkEnv b tr co) = (Throw (sdbus_Error w), e').

(** The device a successful construction yields. *)
Definition fresh_device (devicePath : string) : Device.Device :=
  Device.mkDevice devicePath DeviceHelper.DeviceProperties_zero true false.

(** Every record of the registry is a device, filed under the
    non-empty identity derived from its own path. *)
Definition well_keyed {B} (s : DeviceManager.State B) : Prop :=
  ∀ k v, DeviceManager.m_devicesMap s !! k = Some v →
    k ≠ "" ∧ ∃ d, v = Some d ∧ k = DeviceManager.GetMACFromPath (Device.m_devicePath d).

(** A computation that keeps a property of the state, whether it
    returns or throws. *)
Definition preserves {σ A} (I : σ → Prop) (m : M σ A) : Prop :=
  ∀ s, I s → I (m s).2.

(** The two lines [DeviceRemoved] writes when the identity it derives is
    not registered: the call, with its argument and the identity, and
    the failed lookup. *)
Definition DeviceRemoved_absent_lines (devicePath : string) : list LogLine :=
  [ mkLog "%s%s Device - %s MAC - %s"
          [LStr DeviceManager.TAG; LStr "DeviceRemoved"; LStr devicePath;
           LStr (DeviceManager.GetMACFromPath devicePath)];
    mkLog "%s%s Device - %s Seleting %s, Error - %s"
          [LStr DeviceManager.TAG; LStr "DeviceRemoved"; LStr devicePath;
           LStr (DeviceManager.GetMACFromPath devicePath); LStr "map::at"] ].

(** The state with more lines on the console and nothing else changed. *)
Definition with_lines {B} (lines : list LogLine) (s : DeviceManager.State B)
  : DeviceManager.State B :=
  DeviceManager.mkState (DeviceManager.m_devicesMap s) (DeviceManager.m_deviceQueue s)
    (DeviceManager.m_running s)
    (mkEnv (bus (DeviceManager.env s)) (trace (DeviceManager.env s))
           (console (DeviceManager.env s) ++ lines)).

(** What [onInterfacesRemoved] writes when no removal finds its
    identity: its own line, with the object path, and for every name
    equal to the device interface the two lines of a removal that was
    given that name. *)
Definition onInterfacesRemoved_lines (objectPath : string) (interfaces : list string)
  : list LogLine :=
  mkLog "%s%s Object Path - %s"
        [LStr ObjectManagerProxy.TAG; LStr "onInterfacesRemoved"; LStr objectPath]
  :: flat_map (λ interface,
       if bool_decide (ObjectManagerProxy.DEVICE_INTERFACE = interface)
       then DeviceRemoved_absent_lines ObjectManagerProxy.DEVICE_INTERFACE
       else []) interfaces.

(** A phone the daemon of the small bus has just announced: its
    properties are not published yet. *)
Definition phone_path : string := "/org/bluez/hci0/dev_AA_BB_CC_DD_EE_FF".

Definition phone_announced : SimpleBus.Daemon :=
  SimpleBus.announcing {[phone_path]} SimpleBus.quiet.

(** A registry on the small bus: the phone requested twice, once by the
    agent and once by the object manager, and the consumer woken up. *)
Definition phone_registered : DeviceManager.State SimpleBus.Daemon :=
  after (run_op OpWakeup)
    (after (run_op (OpDeviceAdded phone_path false))
       (after (run_op (OpRequestConfirmation phone_path))
          (DeviceManager.DeviceManager_ctor (SimpleBus.boot phone_announced)))).

(** The line [RemoveDevices] writes when it catches a bus failure. *)
Definition RemoveDevices_error_line (w : string) : LogLine :=
  mkLog "%s%s Error - %s" [LStr DeviceManager.TAG; LStr "RemoveDevices"; LStr w].

(** The registry when [RemoveDevices] has logged its entry. *)
Definition RemoveDevices_started {B} (s : DeviceManager.State B)
  : DeviceManager.State B :=
  with_lines [mkLog "%s%s" [LStr DeviceManager.TAG; LStr "RemoveDevices"]] s.

(** The line [Device::StartLooping] writes when it is called. *)
Definition StartLooping_line : LogLine :=
  mkLog "%s%s" [LStr Device.TAG; LStr "StartLooping"].

(** The object a request is about. *)
Definition event_path (ev : BusEvent) : string :=
  match ev with
  | PropertyGet p _ | MethodCall p _ | ProxyCreated p | ProxyRegistered p
  | ProxyUnregistered p | UndefinedBehaviour p => p
  end.

(** A computation that only appends to the list [tr] of its state --
    the requests, or the lines of the console -- and appends nothing but
    elements that satisfy [P]. *)
Definition extends_by {σ A X} (tr : σ → list X) (P : X → Prop) (m : M σ A) : Prop :=
  ∀ s, ∃ new, tr (m s).2 = tr s ++ new ∧ Forall P new.

(** Two phones on the small bus, both connected; the daemon refuses to
    disconnect the first. *)
Definition second_path : string := "/org/bluez/hci0/dev_BB_BB_CC_DD_EE_FF".

Definition stubborn : SimpleBus.Daemon :=
  SimpleBus.mkDaemon {[phone_path; second_path]} ∅ {[phone_path]} ∅.

(** The registry after the daemon [d] has announced the two phones and
    the consumer has constructed them. *)
Definition two_phones (d : SimpleBus.Daemon) : DeviceManager.State SimpleBus.Daemon :=
  after (run_op OpWakeup)
    (after (run_op (OpDeviceAdded second_path false))
       (after (run_op (OpDeviceAdded phone_path false))
          (DeviceManager.DeviceManager_ctor
             (SimpleBus.boot
                (SimpleBus.announcing {[phone_path; second_path]} d))))).

(* ------------------------------------------------------------------ *)
(** *** Vocabulary of the further properties *)

(** What a request returns to the program for a reply of the bus: the
    value, or the [sdbus::Error] thrown by the library. *)
Definition thrown {A} (r : reply A) : outcome A :=
  match r with
  | Ok a => Ret a
  | Failed w => Throw (sdbus_Error w)
  end.

(** The lines [PrintUUID] writes for the cached UUIDs: the [n]-th one,
    counted from zero, carries the number [i + n]. *)
Definition PrintUUID_lines (i : Z) (uuids : list string) : list LogLine :=
  imap (λ n uuid, mkLog "%s%s %d UUID - %s"
                        [LStr Device.TAG; LStr "PrintUUID"; LNum (i + Z.of_nat n);
                         LStr uuid]) uuids.

(** What [ConnectProfile] writes when the proxy reports [uuids] and the
    bus answers the invocation with [r]. *)
Definition ConnectProfile_lines (uuid : string) (uuids : list string)
    (r : reply unit) : list LogLine :=
  [mkLog "%s%s UUID - %s" [LStr Device.TAG; LStr "ConnectProfile"; LStr uuid]]
  ++ (if bool_decide (uuids = [])
      then [mkLog "%s%s Error: UUIDs is empty" [LStr Device.TAG; LStr "ConnectProfile"]]
      else [])
  ++ [mkLog "%s%s" [LStr Device.TAG; LStr "PrintUUID"]]
  ++ PrintUUID_lines 1 uuids
  ++ match r with
     | Ok _ => []
     | Failed w =>
         [mkLog "%s%s Error: Couldn't connect UUID - %s %s"
                [LStr Device.TAG; LStr "ConnectProfile"; LStr uuid; LStr w]]
     end.

(** The device with its UUID cache replaced. *)
Definition with_UUIDs (uuids : list string) (this : Device.Device) : Device.Device :=
  Device.set_m_properties
    (DeviceHelper.set_UUIDs uuids (Device.m_properties this)) this.

(** What the bus reports for a property: the reply of its getter, the
    value read as the change of the cache it amounts to. *)
Definition reported {A B} (change : A → Device.PropertyChange) (r : reply A * B)
  : reply Device.PropertyChange * B :=
  match r with
  | (Ok v, b') => (Ok (change v), b')
  | (Failed w, b') => (Failed w, b')
  end.

(** The properties the generated proxy reads for [GetProperties], in the
    order of their names, each with its getter. *)
Definition property_getters {B} `{!Device1_proxy B}
  : list (string * (string → B → reply Device.PropertyChange * B)) :=
  [ ("Adapter", λ p b, reported Device.ChAdapter (org_bluez.Adapter p b));
    ("Address", λ p b, reported Device.ChAddress (org_bluez.Address p b));
    ("AddressType", λ p b, reported Device.ChAddressType (org_bluez.AddressType p b));
    ("Alias", λ p b, reported Device.ChAlias (org_bluez.Alias p b));
    ("Blocked", λ p b, reported Device.ChBlocked (org_bluez.Blocked p b));
    ("Class", λ p b, reported Device.ChClass (org_bluez.Class p b));
    ("Connected", λ p b, reported Device.ChConnected (org_bluez.Connected p b));
    ("Icon", λ p b, reported Device.ChIcon (org_bluez.Icon p b));
    ("LegacyPairing",
       λ p b, reported Device.ChLegacyPairing (org_bluez.LegacyPairing p b));
    ("Name", λ p b, reported Device.ChName (org_bluez.Name p b));
    ("Paired", λ p b, reported Device.ChPaired (org_bluez.Paired p b));
    ("ServicesResolved",
       λ p b, reported Device.ChServicesResolved (org_bluez.ServicesResolved p b));
    ("Trusted", λ p b, reported Device.ChTrusted (org_bluez.Trusted p b));
    ("UUIDs", λ p b, reported Device.ChUUIDs (org_bluez.UUIDs p b)) ].

(** A run of reads on the bus: the properties asked for, the values
    reported, the error of the read that failed, if one did, and the bus
    afterwards. *)
Record Reading (B : Type) : Type := mkReading {
  asked : list string; got : list Device.PropertyChange;
  failure : option string; bus_after : B
}.
Arguments mkReading {B} asked got failure bus_after.
Arguments asked {B} r.
Arguments got {B} r.
Arguments failure {B} r.
Arguments bus_after {B} r.

Definition read_more {B} (name : string) (c : Device.PropertyChange) (r : Reading B)
  : Reading B :=
  mkReading (name :: asked r) (c :: got r) (failure r) (bus_after r).

(** The getters asked in turn, each on the bus as the one before has
    left it, until one fails. *)
Fixpoint read_in_order {B}
    (getters : list (string * (string → B → reply Device.PropertyChange * B)))
    (p : string) (b : B) : Reading B :=
  match getters with
  | [] => mkReading [] [] None b
  | getter :: rest =>
      match getter.2 p b with
      | (Ok c, b') => read_more getter.1 c (read_in_order rest p b')
      | (Failed w, b') => mkReading [getter.1] [] (Some w) b'
      end
  end.

(** The name of the property a change is about. *)
Definition property_of (c : Device.PropertyChange) : string :=
  match c with
  | Device.ChAddress _ => "Address"
  | Device.ChAddressType _ => "AddressType"
  | Device.ChName _ => "Name"
  | Device.ChIcon _ => "Icon"
  | Device.ChClass _ => "Class"
  | Device.ChUUIDs _ => "UUIDs"
  | Device.ChPaired _ => "Paired"
  | Device.ChConnected _ => "Connected"
  | Device.ChTrusted _ => "Trusted"
  | Device.ChBlocked _ => "Blocked"
  | Device.ChAlias _ => "Alias"
  | Device.ChAdapter _ => "Adapter"
  | Device.ChLegacyPairing _ => "LegacyPairing"
  | Device.ChManufacturerData _ => "ManufacturerData"
  | Device.ChServiceData _ => "ServiceData"
  | Device.ChServicesResolved _ => "ServicesResolved"
  end.

(** The value of a property-changed signal from which the dispatch table
    extracts a change: a value of the type the table asks for under the
    property's name.  The table extracts nothing for the two data
    properties. *)
Definition carried_by (c : Device.PropertyChange) : option Variant :=
  match c with
  | Device.ChAddress v | Device.ChAddressType v | Device.ChName v
  | Device.ChIcon v | Device.ChAlias v | Device.ChAdapter v => Some (VString v)
  | Device.ChClass v => Some (VUint32 v)
  | Device.ChUUIDs v => Some (VStrings v)
  | Device.ChPaired v | Device.ChConnected v | Device.ChTrusted v
  | Device.ChBlocked v | Device.ChLegacyPairing v
  | Device.ChServicesResolved v => Some (VBool v)
  | Device.ChManufacturerData _ | Device.ChServiceData _ => None
  end.

(** A property for which the dispatch table extracts a value. *)
Definition extracted_property (name : string) : Prop :=
  ∃ c v, property_of c = name ∧ carried_by c = Some v.

(** A value of the type the dispatch table extracts for the property. *)
Definition extracted_value (name : string) (value : Variant) : Prop :=
  ∃ c, property_of c = name ∧ carried_by c = Some value.

(** The three things the handler can do with one changed property. *)
Inductive entry_outcome {B : Type} (name : string) (value : Variant)
    (s : DeviceProxySignal.State B)
  : outcome unit * DeviceProxySignal.State B → Prop :=
  | entry_applied (c : Device.PropertyChange) (device : Device.Device)
      (lines : list LogLine) :
      property_of c = name → carried_by c = Some value →
      Device.cached c (Device.m_properties device) →
      (∀ c', Device.same_member c c' = false →
         Device.cached c' (Device.m_properties device)
         ↔ Device.cached c' (Device.m_properties (DeviceProxySignal.m_device s))) →
      Device.m_devicePath device = Device.m_devicePath (DeviceProxySignal.m_device s) →
      Device.m_running device = Device.m_running (DeviceProxySignal.m_device s) →
      Device.m_eventLoopThread device = Device.m_eventLoopThread (DeviceProxySignal.m_device s) →
      entry_outcome name value s
        (Ret tt, DeviceProxySignal.mkState device
                   (mkEnv (bus (DeviceProxySignal.env s)) (trace (DeviceProxySignal.env s)) (console (DeviceProxySignal.env s) ++ lines))
                   (DeviceProxySignal.cerr s))
  | entry_ignored (lines : list LogLine) :
      ¬ extracted_property name →
      entry_outcome name value s
        (Ret tt, DeviceProxySignal.mkState (DeviceProxySignal.m_device s)
                   (mkEnv (bus (DeviceProxySignal.env s)) (trace (DeviceProxySignal.env s)) (console (DeviceProxySignal.env s) ++ lines))
                   (DeviceProxySignal.cerr s))
  | entry_mistyped (w : string) (lines : list LogLine) :
      extracted_property name → ¬ extracted_value name value →
      entry_outcome name value s
        (Throw (sdbus_Error w),
         DeviceProxySignal.mkState (DeviceProxySignal.m_device s)
           (mkEnv (bus (DeviceProxySignal.env s)) (trace (DeviceProxySignal.env s)) (console (DeviceProxySignal.env s) ++ lines))
           (DeviceProxySignal.cerr s ++ [w])).

(** The data of the [i]-th call of [write] made by the writer thread,
    counted from zero: the counter never reaches the largest 64-bit
    value. *)
Definition ping (i : nat) : string :=
  "Ping " +:+ pretty (Z.of_nat i mod SPPHandler.max_value).

Definition pings (fd : Z) (n : nat) : list (Z * string) :=
  (λ i, (fd, ping i)) <$> seq 0 n.

(** A bus on which the object is gone: a proxy for it can still be
    created, and every request to it fails. *)
Module GoneBus.

Definition gone {A} (b : unit) : reply A * unit :=
  (Failed "org.freedesktop.DBus.Error.UnknownObject", b).

Global Instance proxy : Device1_proxy unit := {|
  org_bluez.ProxyInterfaces := λ _ b, (Ok tt, b);
  org_bluez.registerProxy := λ _, gone;
  org_bluez.Address := λ _, gone;
  org_bluez.AddressType := λ _, gone;
  org_bluez.Name := λ _, gone;
  org_bluez.Icon := λ _, gone;
  org_bluez.Class := λ _, gone;
  org_bluez.UUIDs := λ _, gone;
  org_bluez.Paired := λ _, gone;
  org_bluez.Connected := λ _, gone;
  org_bluez.Trusted := λ _, gone;
  org_bluez.Blocked := λ _, gone;
  org_bluez.Alias := λ _, gone;
  org_bluez.Adapter := λ _, gone;
  org_bluez.LegacyPairing := λ _, gone;
  org_bluez.ServicesResolved := λ _, gone;
  org_bluez.invoke := λ _ _, gone
|}.

Definition boot : Env unit := mkEnv tt [] [].

End GoneBus.

(** A path the library refuses to build a proxy for, with an identity
    all the same. *)
Definition relative_path : string := "dev_AA_BB_CC_DD_EE_FF".

(** The phone seen through a second adapter. *)
Definition phone_path_hci1 : string := "/org/bluez/hci1/dev_AA_BB_CC_DD_EE_FF".

(** The registry as it is constructed on the small bus, the phone just
    announced. *)
Definition empty_registry : DeviceManager.State SimpleBus.Daemon :=
  DeviceManager.DeviceManager_ctor (SimpleBus.boot phone_announced).

(** The proxy of the phone, listening on the small bus. *)
Definition phone_listener : DeviceProxySignal.State SimpleBus.Daemon :=
  DeviceProxySignal.mkState (fresh_device phone_path)
    (SimpleBus.boot SimpleBus.quiet) [].

(** A property-changed signal: a name, a pairing state, and a property
    the dispatch table does not know. *)
Definition phone_changes : gmap string Variant :=
  <["Name" := VString "Pixel"]>
    (<["Paired" := VBool true]> (<["RSSI" := VOther]> ∅)).

(** The object manager as it is started on the small bus. *)
Definition idle_object_manager : ObjectManagerProxy.State SimpleBus.Daemon :=
  ObjectManagerProxy.mkState empty_registry [] true.

(** What the daemon announces for a phone. *)
Definition phone_interfaces : gmap string (gmap string Variant) :=
  {[ "org.bluez.Device1" := {[ "Class" := VUint32 0x5A020C ]} ]}.

(** The menu over the registry with the phone, nothing selected. *)
Definition menu_started : Menu.State SimpleBus.Daemon :=
  Menu.mkState phone_registered None.

(** A serial port connection on descriptor 7, its writer running. *)
Definition port : SPPHandler.State := SPPHandler.mkState 7 true [] [].

(** The menu with the phone selected. *)
Definition menu_selected : Menu.State SimpleBus.Daemon :=
  Menu.mkState phone_registered (Some (fresh_device phone_path)).

(** The small bus with the phone paired, and with the phone connected and
    the daemon refusing to disconnect it. *)
Definition paired_phone : Env SimpleBus.Daemon :=
  SimpleBus.boot (SimpleBus.mkDaemon ∅ {[phone_path]} ∅ ∅).

Definition held_phone : Env SimpleBus.Daemon :=
  SimpleBus.boot (SimpleBus.mkDaemon {[phone_path]} ∅ {[phone_path]} ∅).

(* ================================================================== *)
(** ** std::string: searching and cutting *)

Section StdStringFacts.
Import StdString.

Lemma append_cons (c : ascii) (s t : string) :
  String c s +:+ t = String c (s +:+ t).
Proof. reflexivity. Qed.

Lemma append_empty_l (t : string) : "" +:+ t = t.
Proof. reflexivity. Qed.

Lemma starts_with_append (needle post : string) :
  starts_with needle (needle +:+ post) = true.
Proof.
  induction needle as [|c needle IH]; [done|].
  rewrite append_cons. simpl. by rewrite Ascii.eqb_refl.
Qed.

Lemma starts_with_split (needle s : string) :
  starts_with needle s = true → ∃ post, s = needle +:+ post.
Proof.
  revert s. induction needle as [|c needle IH]; intros s Hs.
  - by exists s.
  - destruct s as [|b s]; [done|]. simpl in Hs.
    destruct (Ascii.eqb c b) eqn:Hcb; [|done].
    apply Ascii.eqb_eq in Hcb as ->.
    destruct (IH _ Hs) as [post ->]. by exists post.
Qed.

Lemma occurs_at_O (needle s : string) :
  occurs_at needle s 0 ↔ starts_with needle s = true.
Proof.
  split.
  - intros (pre & post & -> & Hlen). destruct pre; [|done].
    rewrite append_empty_l. apply starts_with_append.
  - intros [post ->]%starts_with_split. by exists "", post.
Qed.

Lemma occurs_at_S (needle : string) (c : ascii) (s : string) (pos : nat) :
  occurs_at needle (String c s) (S pos) ↔ occurs_at needle s pos.
Proof.
  split.
  - intros (pre & post & Heq & Hlen). destruct pre as [|a pre]; [done|].
    rewrite append_cons in Heq. injection Heq as -> ->.
    exists pre, post. split; [done|]. by injection Hlen.
  - intros (pre & post & -> & <-). by exists (String c pre), post.
Qed.

Lemma occurs_at_empty (needle : string) (pos : nat) :
  occurs_at needle "" pos → pos = 0%nat.
Proof. intros (pre & post & Heq & <-). by destruct pre. Qed.

(** [find] returns the least offset at which the needle occurs. *)
Lemma find_Some (needle s : string) (pos : nat) :
  find needle s = Some pos ↔
  occurs_at needle s pos ∧ ∀ pos', occurs_at needle s pos' → (pos ≤ pos')%nat.
Proof.
  revert pos. induction s as [|c s IH]; intros pos.
  - simpl. destruct (starts_with needle "") eqn:Hst.
    + split.
      * intros [= <-]. split; [by apply occurs_at_O|]. lia.
      * intros [Hocc _]. by apply occurs_at_empty in Hocc as ->.
    + split; [done|]. intros [Hocc _].
      pose proof (occurs_at_empty _ _ Hocc) as ->.
      apply occurs_at_O in Hocc. congruence.
  - cbn [find]. destruct (starts_with needle (String c s)) eqn:Hst.
    + split.
      * intros [= <-]. split; [by apply occurs_at_O|]. lia.
      * intros [_ Hmin]. apply occurs_at_O in Hst.
        specialize (Hmin _ Hst). f_equal. lia.
    + split.
      * intros (q & Hq & ->)%fmap_Some. apply IH in Hq as [Hocc Hmin]. split.
        -- by apply occurs_at_S.
        -- intros [|pos'] Hocc'.
           ++ apply occurs_at_O in Hocc'. congruence.
           ++ apply occurs_at_S in Hocc'. specialize (Hmin _ Hocc'). lia.
      * intros [Hocc Hmin]. destruct pos as [|pos].
        { apply occurs_at_O in Hocc. congruence. }
        apply occurs_at_S in Hocc.
        assert (find needle s = Some pos) as ->; [|done].
        apply IH. split; [done|]. intros pos' Hocc'.
        apply occurs_at_S with (c := c) in Hocc'.
        specialize (Hmin _ Hocc'). lia.
Qed.

Lemma occurs_at_find (needle s : string) (pos : nat) :
  occurs_at needle s pos → is_Some (find needle s).
Proof.
  revert pos. induction s as [|c s IH]; intros pos Hocc.
  - pose proof (occurs_at_empty _ _ Hocc) as ->.
    apply occurs_at_O in Hocc. simpl. by rewrite Hocc.
  - cbn [find]. destruct (starts_with needle (String c s)) eqn:Hst; [done|].
    destruct pos as [|pos].
    + apply occurs_at_O in Hocc. congruence.
    + apply occurs_at_S, IH in Hocc as [q ->]. done.
Qed.

(** [find] answers [npos] exactly when the needle is no substring. *)
Lemma find_None (needle s : string) :
  find needle s = None ↔ ¬ contains needle s.
Proof.
  split.
  - intros Hf (pre & post & ->).
    assert (occurs_at needle (pre +:+ needle +:+ post) (String.length pre)) as Hocc
      by by exists pre, post.
    apply occurs_at_find in Hocc as [q Hq]. congruence.
  - intros Hnc. destruct (find needle s) as [pos|] eqn:Hf; [|done].
    apply find_Some in Hf as [(pre & post & -> & _) _].
    exfalso. apply Hnc. by exists pre, post.
Qed.

Lemma substr_append (pre t : string) :
  substr (pre +:+ t) (String.length pre) = t.
Proof.
  induction pre as [|c pre IH]; [by destruct t|].
  by rewrite append_cons.
Qed.

Lemma length_append (s t : string) :
  String.length (s +:+ t) = (String.length s + String.length t)%nat.
Proof. induction s as [|c s IH]; [done|]. rewrite append_cons. simpl. by rewrite IH. Qed.

Lemma append_assoc (s t u : string) : (s +:+ t) +:+ u = s +:+ t +:+ u.
Proof. induction s as [|c s IH]; [done|]. rewrite !append_cons. by rewrite IH. Qed.

(** The offset [find] returns leaves room for the needle, so the
    [substr] of [GetMACFromPath] is within the string. *)
Lemma find_Some_bound (needle s : string) (pos : nat) :
  find needle s = Some pos → (pos + String.length needle ≤ String.length s)%nat.
Proof.
  intros [(pre & post & -> & <-) _]%find_Some.
  rewrite !length_append. lia.
Qed.

End StdStringFacts.

(* ================================================================== *)
(** ** Identity derivation *)

Section Identity.
Import StdString DeviceManager.

Lemma GetMACFromPath_no_marker (path : string) :
  ¬ contains "dev_" path → GetMACFromPath path = "".
Proof. intros Hnc%find_None. unfold GetMACFromPath. by rewrite Hnc. Qed.

Lemma GetMACFromPath_marker (pre post : string) :
  (∀ pos, occurs_at "dev_" (pre +:+ "dev_" +:+ post) pos → (String.length pre ≤ pos)%nat) →
  GetMACFromPath (pre +:+ "dev_" +:+ post) = replace "_" ":" post.
Proof.
  intros Hmin. unfold GetMACFromPath.
  assert (find "dev_" (pre +:+ "dev_" +:+ post) = Some (String.length pre)) as ->.
  { apply find_Some. split; [by exists pre, post | done]. }
  cbv zeta. f_equal.
  rewrite <- append_assoc.
  replace (String.length pre + String.length "dev_")%nat
    with (String.length (pre +:+ "dev_")) by apply length_append.
  apply substr_append.
Qed.

(** The identity is empty exactly for a path without the marker or with
    nothing after its first marker. *)
Lemma GetMACFromPath_empty (path : string) :
  GetMACFromPath path = "" →
  ¬ contains "dev_" path ∨ ∃ pre, path = pre +:+ "dev_".
Proof.
  unfold GetMACFromPath. destruct (find "dev_" path) as [pos|] eqn:Hf.
  - intros Hrep. right.
    pose proof Hf as [(pre & post & -> & <-) _]%find_Some.
    exists pre. cbv zeta in Hrep. rewrite <- append_assoc in Hrep.
    replace (String.length pre + String.length "dev_")%nat
      with (String.length (pre +:+ "dev_")) in Hrep by apply length_append.
    rewrite substr_append in Hrep. destruct post; [|done].
    clear. induction pre as [|c pre IH]; [done|]. rewrite !append_cons. by f_equal.
  - intros _. left. by apply find_None.
Qed.

Lemma is_upper_hex_not_underscore (c : ascii) :
  is_upper_hex c = true → Ascii.eqb c "_" = false.
Proof. destruct c as [[] [] [] [] [] [] [] []]; vm_compute; congruence. Qed.

(** No case is changed and nothing is checked: the identity has the
    canonical form when the suffix has the daemon's form. *)
Lemma replace_mac_groups (n : nat) (s : string) :
  mac_groups "_" n s = true → mac_groups ":" n (replace "_" ":" s) = true.
Proof.
  revert s. induction n as [|n IH]; intros s; [done|].
  destruct s as [|a [|b rest]]; [done..|].
  cbn [mac_groups replace].
  intros [[Ha Hb]%andb_prop Hrest]%andb_prop.
  rewrite (is_upper_hex_not_underscore _ Ha), (is_upper_hex_not_underscore _ Hb).
  rewrite Ha, Hb. cbn [andb].
  destruct n as [|n], rest as [|c rest']; try done.
  apply andb_prop in Hrest as [Hc Hrest'].
  cbn [replace]. rewrite Hc. apply Ascii.eqb_eq in Hc as ->.
  rewrite Ascii.eqb_refl. cbn [andb]. by apply IH.
Qed.

End Identity.

(* ================================================================== *)
(** ** The class filter *)

Section ClassFilter.
Import DeviceHelper ObjectManagerProxy.

(** The five-bit member keeps bits 8 to 12 of the class value, whatever
    the eight-bit mask let through. *)
Lemma major_device_class_bits (value : Z) :
  major_device_class (from_uint32_t value) = bits 8 5 value.
Proof.
  unfold from_uint32_t, store_bitfield, bits. cbn [major_device_class].
  rewrite <- Z.land_assoc. f_equal.
Qed.

Lemma ValidateClass_bits (device_class : Z) :
  ValidateClass device_class = true ↔
  bits 8 5 device_class = 0x02 ∨ bits 8 5 device_class = 0x04.
Proof.
  unfold ValidateClass. cbv zeta. rewrite major_device_class_bits.
  rewrite orb_true_iff, !Z.eqb_eq. done.
Qed.

Lemma GetAndValidateClass_absent {σ} (interfaces : gmap string Variant) (s : σ) :
  interfaces !! "Class" = None →
  GetAndValidateClass interfaces s = (Ret false, s).
Proof.
  intros Hno. unfold GetAndValidateClass, GetClass. cbv zeta. by rewrite Hno.
Qed.

Lemma GetAndValidateClass_uint32 {σ} (interfaces : gmap string Variant) (s : σ)
    (device_class : Z) :
  interfaces !! "Class" = Some (VUint32 device_class) →
  GetAndValidateClass interfaces s = (Ret (ValidateClass device_class), s).
Proof.
  intros Hc. unfold GetAndValidateClass, GetClass. cbv zeta. by rewrite Hc.
Qed.

End ClassFilter.

(* ================================================================== *)
(** ** Running computations *)

Section Running.
Context {σ : Type}.

Lemma run_bind {A C} (m : M σ A) (k : A → M σ C) (s : σ) :
  (m ≫= k) s =
  match m s with
  | (Ret a, s') => k a s'
  | (Throw e, s') => (Throw e, s')
  end.
Proof. reflexivity. Qed.

Lemma run_bind_Ret {A C} (m : M σ A) (k : A → M σ C) (s s' : σ) (a : A) :
  m s = (Ret a, s') → (m ≫= k) s = k a s'.
Proof. intros Hm. by rewrite run_bind, Hm. Qed.

Lemma run_bind_Throw {A C} (m : M σ A) (k : A → M σ C) (s s' : σ) (e : exn) :
  m s = (Throw e, s') → (m ≫= k) s = (Throw e, s').
Proof. intros Hm. by rewrite run_bind, Hm. Qed.

Lemma run_try_catch {A} (body : M σ A) (handler : exn → M σ A) (s : σ) :
  try_catch body handler s =
  match body s with
  | (Ret a, s') => (Ret a, s')
  | (Throw e, s') => handler e s'
  end.
Proof. reflexivity. Qed.

Lemma throws_only_sdbus_ret {A} (a : A) : throws_only_sdbus (mret a : M σ A).
Proof. intros s e s' [=]. Qed.

Lemma throws_only_sdbus_modify (f : σ → σ) : throws_only_sdbus (modify f).
Proof. intros s e s' [=]. Qed.

Lemma throws_only_sdbus_gets {A} (f : σ → A) : throws_only_sdbus (gets f).
Proof. intros s e s' [=]. Qed.

Lemma throws_only_sdbus_bind {A C} (m : M σ A) (k : A → M σ C) :
  throws_only_sdbus m → (∀ a, throws_only_sdbus (k a)) → throws_only_sdbus (m ≫= k).
Proof.
  intros Hm Hk s e s'. rewrite run_bind.
  destruct (m s) as [[a|e0] s0] eqn:Hms.
  - apply Hk.
  - intros [= <- <-]. by eapply Hm.
Qed.

Lemma throws_only_sdbus_when (b : bool) (m : M σ unit) :
  throws_only_sdbus m → throws_only_sdbus (when b m).
Proof. destruct b; [done|]. intros _. apply throws_only_sdbus_ret. Qed.

Lemma throws_only_sdbus_try_catch {A} (body : M σ A) (handler : exn → M σ A) :
  (∀ e, throws_only_sdbus (handler e)) → throws_only_sdbus (try_catch body handler).
Proof.
  intros Hh s e s'. rewrite run_try_catch.
  destruct (body s) as [[a|e0] s0]; [done|]. apply Hh.
Qed.

End Running.

Lemma throws_only_sdbus_zoom {σ τ A} (get : τ → σ) (set : σ → τ → τ) (m : M σ A) :
  throws_only_sdbus m → throws_only_sdbus (zoom get set m).
Proof.
  intros Hm t e t'. unfold zoom.
  destruct (m (get t)) as [r s'] eqn:Hms. intros [= -> <-]. by eapply Hm.
Qed.

Section RunningOnTheBus.
Context {B : Type} `{!Device1_proxy B}.

Lemma run_Log (fmt : string) (args : list LogArg) (e : Env B) :
  Log fmt args e = (Ret tt, mkEnv (bus e) (trace e) (console e ++ [mkLog fmt args])).
Proof. reflexivity. Qed.

Lemma throws_only_sdbus_Log (fmt : string) (args : list LogArg) :
  throws_only_sdbus (Log (B:=B) fmt args).
Proof. intros s e s' [=]. Qed.

Lemma throws_only_sdbus_request {A} (ev : BusEvent) (op : B → reply A * B) :
  throws_only_sdbus (request ev op).
Proof.
  intros s e s'. unfold request. destruct (op (bus s)) as [[a|w] b'].
  - intros [=].
  - intros [= <- _]. by exists w.
Qed.

Lemma run_request_Ok {A} (ev : BusEvent) (op : B → reply A * B) (e : Env B)
    (a : A) (b' : B) :
  op (bus e) = (Ok a, b') →
  request ev op e = (Ret a, mkEnv b' (trace e ++ [ev]) (console e)).
Proof. intros Hop. unfold request. by rewrite Hop. Qed.

Lemma run_request_Failed {A} (ev : BusEvent) (op : B → reply A * B) (e : Env B)
    (w : string) (b' : B) :
  op (bus e) = (Failed w, b') →
  request ev op e = (Throw (sdbus_Error w), mkEnv b' (trace e ++ [ev]) (console e)).
Proof. intros Hop. unfold request. by rewrite Hop. Qed.

(** What a request leaves behind, answered or refused. *)
Lemma run_request {A} (ev : BusEvent) (op : B → reply A * B) (e : Env B) :
  ∃ r b', request ev op e = (r, mkEnv b' (trace e ++ [ev]) (console e)).
Proof.
  unfold request. destruct (op (bus e)) as [[a|w] b']; by eexists _, _.
Qed.

End RunningOnTheBus.


(* ================================================================== *)
(** ** Construction of a device *)

Section Construction.
Context {B : Type} `{!Device1_proxy B}.

(** The proxy's constructor throws only when the base cannot be built;
    whatever goes wrong afterwards is caught and logged. *)
Lemma DeviceProxy_ctor_cases
    (changed : DeviceHelper.DeviceProperties → M (Env B) unit)
    (devicePath : string) (e : Env B) :
  (∃ e', DeviceProxy.DeviceProxy_ctor changed devicePath e = (Ret tt, e'))
  ∨ (∃ w e', DeviceProxy.DeviceProxy_ctor changed devicePath e
             = (Throw (sdbus_Error w), e')).
Proof.
  unfold DeviceProxy.DeviceProxy_ctor. rewrite run_bind.
  destruct (org_bluez.ProxyInterfaces devicePath (bus e)) as [[[]|w] b'] eqn:Hbase.
  - left. rewrite (run_request_Ok _ _ _ _ _ Hbase).
    rewrite run_bind, run_Log, run_try_catch.
    match goal with |- context [match ?body ?s with _ => _ end] =>
      destruct (body s) as [[[]|e0] s0] end.
    + eexists; reflexivity.
    + unfold catch_exception. rewrite run_Log. eexists; reflexivity.
  - right. rewrite (run_request_Failed _ _ _ _ _ Hbase). eexists _, _; reflexivity.
Qed.

Lemma Device_ctor_cases (devicePath : string) (e : Env B) :
  (∃ e', Device.Device_ctor devicePath e = (Ret (fresh_device devicePath), e'))
  ∨ (∃ w e', Device.Device_ctor devicePath e = (Throw (sdbus_Error w), e')).
Proof.
  unfold Device.Device_ctor. rewrite run_bind.
  destruct (DeviceProxy_ctor_cases (Device.PropertiesChanged_in_ctor devicePath)
              devicePath e) as [[e' ->]|(w & e' & ->)].
  - left. rewrite run_bind, run_Log. eexists; reflexivity.
  - right. eexists _, _; reflexivity.
Qed.

End Construction.

(* ================================================================== *)
(** ** The consumer loop *)

Section ConsumerLoop.
Context {B : Type} `{!Device1_proxy B}.
Import DeviceManager.

Lemma run_io {A} (m : M (Env B) A) (s : State B) (r : outcome A) (e' : Env B) :
  m (env s) = (r, e') → io m s = (r, set_env e' s).
Proof. intros Hm. unfold io, zoom. by rewrite Hm. Qed.

Lemma run_io_Log (fmt : string) (args : list LogArg) (s : State B) :
  io (Log fmt args) s = (Ret tt, set_env (logged fmt args (env s)) s).
Proof. reflexivity. Qed.

Lemma StdString_empty_true (s : string) : StdString.empty s = true ↔ s = "".
Proof. by destruct s. Qed.

(** A request with an empty path or an empty identity is logged and
    skipped. *)
Lemma process_skipped (r : DeviceStruct) (s : State B) :
  path r = "" ∨ GetMACFromPath (path r) = "" →
  ∃ l1 l2, process r s =
    (Ret tt, set_env (mkEnv (bus (env s)) (trace (env s))
                            (console (env s) ++ [l1; l2])) s).
Proof.
  intros Hempty. unfold process. cbv zeta.
  rewrite run_bind, run_io_Log.
  assert (StdString.empty (path r)
          || StdString.empty (GetMACFromPath (path r)) = true) as ->.
  { apply orb_true_iff. by rewrite !StdString_empty_true. }
  rewrite run_io_Log. eexists _, _. unfold logged, set_env. cbn.
  by rewrite <- app_assoc.
Qed.

(** A request whose identity is registered is logged and skipped: no
    device is constructed and the bus is not asked anything. *)
Lemma process_registered (r : DeviceStruct) (s : State B) :
  is_Some (m_devicesMap s !! GetMACFromPath (path r)) →
  ∃ l1 l2, process r s =
    (Ret tt, set_env (mkEnv (bus (env s)) (trace (env s))
                            (console (env s) ++ [l1; l2])) s).
Proof.
  intros Hreg.
  destruct (decide (path r = "" ∨ GetMACFromPath (path r) = "")) as [He|Hne].
  { by apply process_skipped. }
  unfold process. cbv zeta. rewrite run_bind, run_io_Log.
  assert (StdString.empty (path r)
          || StdString.empty (GetMACFromPath (path r)) = false) as ->.
  { apply not_true_iff_false. rewrite orb_true_iff, !StdString_empty_true. done. }
  rewrite run_bind. unfold gets at 1. cbn [m_devicesMap set_env].
  rewrite decide_True by done.
  rewrite run_io_Log. eexists _, _. unfold logged, set_env. cbn.
  by rewrite <- app_assoc.
Qed.

(** What one request does to the registry: nothing, or one new record
    under an identity that was free. *)
Lemma process_summary (r : DeviceStruct) (s : State B) :
  ∃ e', process r s = (Ret tt, mkState (m_devicesMap s) (m_deviceQueue s)
                                       (m_running s) e')
  ∨ (path r ≠ "" ∧ GetMACFromPath (path r) ≠ ""
     ∧ m_devicesMap s !! GetMACFromPath (path r) = None
     ∧ process r s =
         (Ret tt, mkState (<[GetMACFromPath (path r) := Some (fresh_device (path r))]>
                             (m_devicesMap s))
                          (m_deviceQueue s) (m_running s) e')).
Proof.
  destruct (decide (path r = "" ∨ GetMACFromPath (path r) = "")) as [He|Hne].
  { destruct (process_skipped r s He) as (l1 & l2 & ->). eexists. by left. }
  destruct (m_devicesMap s !! GetMACFromPath (path r)) as [v|] eqn:Hlook.
  { destruct (process_registered r s) as (l1 & l2 & ->); [by rewrite Hlook|].
    eexists. by left. }
  assert (path r ≠ "" ∧ GetMACFromPath (path r) ≠ "") as [Hp Hm] by tauto.
  destruct (process r s) as [res s'] eqn:Hrun.
  unfold process in Hrun. cbv zeta in Hrun. rewrite run_bind, run_io_Log in Hrun.
  assert (StdString.empty (path r)
          || StdString.empty (GetMACFromPath (path r)) = false) as Hfull.
  { apply not_true_iff_false. rewrite orb_true_iff, !StdString_empty_true. tauto. }
  rewrite Hfull, run_bind in Hrun. unfold gets at 1 in Hrun.
  cbn [m_devicesMap set_env] in Hrun.
  rewrite decide_False in Hrun by (rewrite Hlook; by intros [? ?]).
  rewrite run_try_catch, run_bind in Hrun.
  set (e1 := logged _ _ (env s)) in Hrun.
  destruct (Device_ctor_cases (path r) e1) as [[e2 Hc]|(w & e2 & Hc)].
  - rewrite (run_io _ _ _ e2) in Hrun by exact Hc.
    injection Hrun as <- <-. eexists. right. repeat split; done.
  - rewrite (run_io _ _ _ e2) in Hrun by exact Hc.
    cbn [catch_sdbus_Error] in Hrun. rewrite run_io_Log in Hrun.
    injection Hrun as <- <-. eexists. by left.
Qed.

(** A request reads and writes the map and the world only. *)
Lemma process_frame (r : DeviceStruct) (m : gmap string (option Device.Device))
    (q1 q2 : list DeviceStruct) (b1 b2 : bool) (e : Env B) :
  process r (mkState m q2 b2 e) =
  ((process r (mkState m q1 b1 e)).1,
   mkState (m_devicesMap (process r (mkState m q1 b1 e)).2) q2 b2
           (env (process r (mkState m q1 b1 e)).2)).
Proof.
  unfold process, io, zoom, Log, try_catch, gets, modify, mbind, M_bind, mret,
    M_ret, catch_sdbus_Error, mthrow, M_throw, set_env, set_devicesMap.
  cbn [m_devicesMap m_deviceQueue m_running env].
  destruct (StdString.empty (path r) || StdString.empty (GetMACFromPath (path r)));
    cbn [m_devicesMap m_deviceQueue m_running env]; [reflexivity|].
  destruct (decide (is_Some (m !! GetMACFromPath (path r))));
    cbn [m_devicesMap m_deviceQueue m_running env]; [reflexivity|].
  destruct (Device.Device_ctor (path r) _) as [[d|[]] e2]; reflexivity.
Qed.

Lemma process_view (r : DeviceStruct) (s1 s2 : State B) :
  view s1 = view s2 →
  (process r s1).1 = (process r s2).1
  ∧ view (process r s1).2 = view (process r s2).2.
Proof.
  destruct s1 as [m1 q1 b1 e1], s2 as [m2 q2 b2 e2]. intros [= -> ->].
  by rewrite (process_frame r m2 q2 q1 b2 b1 e2).
Qed.

Lemma process_Ret (r : DeviceStruct) (s : State B) : (process r s).1 = Ret tt.
Proof. by destruct (process_summary r s) as [e' [-> | (_ & _ & _ & ->)]]. Qed.

Lemma drain_Ret (q : list DeviceStruct) (s : State B) : (drain q s).1 = Ret tt.
Proof.
  revert s. induction q as [|r q IH]; intros s; [done|].
  cbn [drain]. rewrite run_bind. cbn [modify]. rewrite run_bind.
  destruct (process r (set_deviceQueue q s)) as [res s1] eqn:Hp.
  pose proof (process_Ret r (set_deviceQueue q s)) as Hres.
  rewrite Hp in Hres. cbn in Hres. subst res. apply IH.
Qed.

(** The state after the first request of a queue, and after the rest. *)
Lemma after_drain_cons (r : DeviceStruct) (q : list DeviceStruct) (s : State B) :
  after (drain (r :: q)) s = after (drain q) (after (process r) (set_deviceQueue q s)).
Proof.
  unfold after. cbn [drain]. rewrite run_bind. cbn [modify]. rewrite run_bind.
  destruct (process r (set_deviceQueue q s)) as [res s1] eqn:Hp.
  pose proof (process_Ret r (set_deviceQueue q s)) as Hres.
  rewrite Hp in Hres. cbn in Hres. by subst res.
Qed.

Lemma drain_view (q : list DeviceStruct) (s1 s2 : State B) :
  view s1 = view s2 → view (after (drain q) s1) = view (after (drain q) s2).
Proof.
  revert s1 s2. induction q as [|r q IH]; intros s1 s2 Hv; [done|].
  rewrite !after_drain_cons. apply IH. unfold after.
  apply process_view. by destruct s1, s2.
Qed.

(** Draining a queue is draining its front, then its back. *)
Lemma drain_app (q1 q2 : list DeviceStruct) (s : State B) :
  view (after (drain (q1 ++ q2)) s) = view (after (drain q2) (after (drain q1) s)).
Proof.
  revert s. induction q1 as [|r q1 IH]; intros s; [done|].
  cbn [app]. rewrite !after_drain_cons, IH.
  apply drain_view, drain_view. unfold after.
  apply process_view. by destruct s.
Qed.

(** The state in which a later request of the queue is processed, seen
    from an earlier one. *)
Lemma drain_take_later (q : list DeviceStruct) (i j : nat) (r : DeviceStruct)
    (s : State B) :
  q !! i = Some r → (i < j)%nat →
  view (after (drain (take j q)) s)
  = view (after (drain (take (j - S i) (drop (S i) q)))
            (after (process r) (after (drain (take i q)) s))).
Proof.
  intros Hi Hij.
  assert (take j q = take i q ++ r :: take (j - S i) (drop (S i) q)) as ->.
  { rewrite <- (take_drop_middle q i r Hi) at 1.
    rewrite take_app, take_take.
    rewrite length_take_le by (apply lookup_lt_Some in Hi; lia).
    replace (j `min` i)%nat with i by lia.
    by replace (j - i)%nat with (S (j - S i)) by lia. }
  rewrite drain_app, after_drain_cons.
  apply drain_view. unfold after. apply process_view. reflexivity.
Qed.

(** Add requests never replace or remove a record. *)
Lemma process_keeps (r : DeviceStruct) (s : State B) (k : string)
    (v : option Device.Device) :
  m_devicesMap s !! k = Some v → m_devicesMap (after (process r) s) !! k = Some v.
Proof.
  intros Hk. unfold after.
  destruct (process_summary r s) as [e' [-> | (_ & _ & Hfree & ->)]]; [done|].
  cbn. rewrite lookup_insert_ne; [done|]. congruence.
Qed.

Lemma drain_keeps (q : list DeviceStruct) (s : State B) (k : string)
    (v : option Device.Device) :
  m_devicesMap s !! k = Some v → m_devicesMap (after (drain q) s) !! k = Some v.
Proof.
  revert s. induction q as [|r q IH]; intros s Hk; [done|].
  rewrite after_drain_cons. apply IH, process_keeps. by destruct s.
Qed.

End ConsumerLoop.

(* ================================================================== *)
(** ** Properties kept by every step *)

Section Preservation.
Context {σ : Type} (I : σ → Prop).

Lemma preserves_ret {A} (a : A) : preserves I (mret a : M σ A).
Proof. by intros s. Qed.

Lemma preserves_throw {A} (e : exn) : preserves I (mthrow e : M σ A).
Proof. by intros s. Qed.

Lemma preserves_gets {A} (f : σ → A) : preserves I (gets f).
Proof. by intros s. Qed.

Lemma preserves_modify (f : σ → σ) : (∀ s, I s → I (f s)) → preserves I (modify f).
Proof. intros Hf s. apply Hf. Qed.

Lemma preserves_bind {A C} (m : M σ A) (k : A → M σ C) :
  preserves I m → (∀ a, preserves I (k a)) → preserves I (m ≫= k).
Proof.
  intros Hm Hk s Hs. rewrite run_bind. specialize (Hm s Hs).
  destruct (m s) as [[a|e] s']; [by apply Hk | done].
Qed.

Lemma preserves_try_catch {A} (body : M σ A) (handler : exn → M σ A) :
  preserves I body → (∀ e, preserves I (handler e)) →
  preserves I (try_catch body handler).
Proof.
  intros Hb Hh s Hs. rewrite run_try_catch. specialize (Hb s Hs).
  destruct (body s) as [[a|e] s']; [done | by apply Hh].
Qed.

Lemma preserves_when (b : bool) (m : M σ unit) :
  preserves I m → preserves I (when b m).
Proof. destruct b; [done|]. intros _. apply preserves_ret. Qed.

Lemma preserves_for_each {X} (l : list X) (body : X → M σ unit) :
  (∀ x, preserves I (body x)) → preserves I (for_each l body).
Proof.
  intros Hb. induction l as [|x l IH]; [apply preserves_ret|].
  cbn [for_each]. apply preserves_bind; [apply Hb | by intros _].
Qed.

End Preservation.

Section Invariant.
Context {B : Type} `{!Device1_proxy B}.
Import DeviceManager.

Lemma well_keyed_set_env (e : Env B) (s : State B) :
  well_keyed s → well_keyed (set_env e s).
Proof. done. Qed.

Lemma preserves_io {A} (m : M (Env B) A) : preserves (@well_keyed B) (io m).
Proof.
  intros s Hs. unfold io, zoom. destruct (m (env s)) as [r e'].
  by apply well_keyed_set_env.
Qed.

Lemma well_keyed_delete (k : string) (s : State B) :
  well_keyed s → well_keyed (set_devicesMap (delete k (m_devicesMap s)) s).
Proof.
  intros Hs k' v. cbn. intros [_ Hk']%lookup_delete_Some. by apply Hs.
Qed.

Lemma preserves_process (r : DeviceStruct) : preserves (@well_keyed B) (process r).
Proof.
  intros s Hs.
  destruct (process_summary r s) as [e' [-> | (Hp & Hm & Hfree & ->)]]; [done|].
  intros k v. cbn. intros [[<- <-]|[_ Hk]]%lookup_insert_Some.
  - split; [done|]. by eexists.
  - by apply Hs.
Qed.

Lemma preserves_drain (q : list DeviceStruct) : preserves (@well_keyed B) (drain q).
Proof.
  induction q as [|r q IH]; [apply preserves_ret|].
  cbn [drain]. apply preserves_bind; [by apply preserves_modify|]. intros _.
  apply preserves_bind; [apply preserves_process | by intros _].
Qed.

Lemma preserves_DeviceAdded (devicePath : string) (enableLoop : bool) :
  preserves (@well_keyed B) (DeviceAdded devicePath enableLoop).
Proof.
  apply preserves_bind; [by apply preserves_modify|]. intros _. apply preserves_io.
Qed.

Lemma preserves_at (key : string) : preserves (@well_keyed B) (at_ (B:=B) key).
Proof.
  apply preserves_bind; [apply preserves_gets|]. intros m.
  destruct (m !! key); [apply preserves_ret | apply preserves_throw].
Qed.

Lemma preserves_DeviceRemoved (devicePath : string) :
  preserves (@well_keyed B) (DeviceRemoved devicePath).
Proof.
  unfold DeviceRemoved. cbv zeta.
  apply preserves_bind; [apply preserves_io|]. intros _.
  apply preserves_try_catch.
  - apply preserves_bind; [apply preserves_at|]. intros _.
    apply preserves_modify, well_keyed_delete.
  - intros e. apply preserves_io.
Qed.

Lemma preserves_run_op (op : Op) : preserves (@well_keyed B) (run_op op).
Proof.
  destruct op; cbn [run_op].
  - apply preserves_for_each. intros x.
    apply preserves_bind; [apply preserves_io|]. intros _.
    case_bool_decide; [|apply preserves_ret].
    apply preserves_bind.
    + unfold ObjectManagerProxy.GetAndValidateClass, ObjectManagerProxy.GetClass.
      cbv zeta. apply preserves_bind; [|intros ?; apply preserves_ret].
      destruct (x.2 !! "Class") as [[]|];
        first [apply preserves_ret | apply preserves_throw].
    + intros acc. apply preserves_when, preserves_DeviceAdded.
  - apply preserves_bind; [apply preserves_io|]. intros _.
    apply preserves_for_each. intros x. apply preserves_when, preserves_DeviceRemoved.
  - apply preserves_DeviceAdded.
  - apply preserves_DeviceAdded.
  - apply preserves_DeviceRemoved.
  - apply preserves_bind; [apply preserves_gets|]. intros running.
    destruct (negb running); [apply preserves_io|].
    apply preserves_bind; [apply preserves_gets|]. intros q. apply preserves_drain.
  - apply preserves_bind; [|intros ?; apply preserves_ret].
    apply preserves_try_catch; [apply preserves_at|].
    intros [w|w|w]; cbn [catch_out_of_range]; try apply preserves_throw.
    apply preserves_bind; [apply preserves_io | intros _; apply preserves_ret].
  - apply preserves_bind; [apply preserves_gets | intros ?; apply preserves_ret].
Qed.

(** Every state the registry reaches is well keyed. *)
Lemma reachable_well_keyed (s : State B) : reachable s → well_keyed s.
Proof.
  induction 1 as [e|op s Hs IH].
  - intros k v. cbn. by rewrite lookup_empty.
  - by apply preserves_run_op.
Qed.

Lemma reachable_no_empty_key (s : State B) :
  reachable s → m_devicesMap s !! "" = None.
Proof.
  intros Hs%reachable_well_keyed.
  destruct (m_devicesMap s !! "") as [v|] eqn:Hk; [|done].
  by destruct (Hs _ _ Hk) as [? _].
Qed.

End Invariant.

(* ================================================================== *)
(** ** Removal *)

Section Removal.
Context {B : Type} `{!Device1_proxy B}.
Import DeviceManager.

Lemma DeviceRemoved_absent (devicePath : string) (s : State B) :
  m_devicesMap s !! GetMACFromPath devicePath = None →
  DeviceRemoved devicePath s =
  (Ret tt, with_lines (DeviceRemoved_absent_lines devicePath) s).
Proof.
  intros Habs.
  unfold DeviceRemoved, at_, io, zoom, Log, try_catch, gets, modify, mbind, M_bind,
    mret, M_ret, mthrow, M_throw, catch_exception.
  cbn. rewrite Habs. cbn.
  unfold with_lines, DeviceRemoved_absent_lines. cbn.
  by rewrite <- app_assoc.
Qed.

(** [DeviceRemoved] returns to its caller whatever it is given. *)
Lemma DeviceRemoved_Ret (devicePath : string) (s : State B) :
  (DeviceRemoved devicePath s).1 = Ret tt.
Proof.
  destruct (m_devicesMap s !! GetMACFromPath devicePath) as [v|] eqn:Hk.
  - unfold DeviceRemoved, at_, io, zoom, Log, try_catch, gets, modify, mbind,
      M_bind, mret, M_ret, mthrow, M_throw, catch_exception.
    cbn. by rewrite Hk.
  - by rewrite DeviceRemoved_absent.
Qed.

End Removal.

Section ObjectRemoved.
Context {B : Type} `{!Device1_proxy B}.
Import DeviceManager.

Lemma with_lines_app (l1 l2 : list LogLine) (s : State B) :
  with_lines l2 (with_lines l1 s) = with_lines (l1 ++ l2) s.
Proof. unfold with_lines. cbn. by rewrite <- app_assoc. Qed.

Lemma with_lines_nil (s : State B) : with_lines [] s = s.
Proof. destruct s as [m q b [bs tr c]]. unfold with_lines. cbn. by rewrite app_nil_r. Qed.

(** The loop of [onInterfacesRemoved] in a registry without the empty
    key: every removal is handed the interface name and finds nothing. *)
Lemma onInterfacesRemoved_loop (interfaces : list string) (s : State B) :
  m_devicesMap s !! "" = None →
  for_each interfaces (λ interface,
    when (bool_decide (ObjectManagerProxy.DEVICE_INTERFACE = interface))
         (DeviceRemoved interface)) s =
  (Ret tt, with_lines (flat_map (λ interface,
       if bool_decide (ObjectManagerProxy.DEVICE_INTERFACE = interface)
       then DeviceRemoved_absent_lines ObjectManagerProxy.DEVICE_INTERFACE
       else []) interfaces) s).
Proof.
  revert s. induction interfaces as [|interface interfaces IH]; intros s Hs.
  - cbn. by rewrite with_lines_nil.
  - cbn [for_each flat_map]. case_bool_decide as Hi.
    + subst interface. cbn [when].
      erewrite run_bind_Ret by (by apply DeviceRemoved_absent).
      rewrite IH by exact Hs. by rewrite with_lines_app.
    + erewrite run_bind_Ret by reflexivity. by rewrite IH.
Qed.

End ObjectRemoved.

(* ================================================================== *)
(** ** The class filter of the object manager *)

(** C1 (as amended).  For every property map delivered with an
    object-added signal: when the ["Class"] key is absent the class value
    defaults to the enumerator [Uncategorized] (0x1F) and the device is
    rejected; when it holds a 32-bit unsigned value, the filter accepts the
    device if and only if bits 8 to 12 of that value -- the five-bit
    major-class member, which drops bits 13 to 15 of what the eight-bit
    mask let through -- are Phone (0x02) or AudioVideo (0x04).  Class
    0x000204 is accepted and class 0x000100 is rejected. *)
Theorem class_filter_accepts_phone_and_audio {σ : Type}
    (interfaces : gmap string Variant) (s : σ) :
  (interfaces !! "Class" = None →
     ObjectManagerProxy.GetClass interfaces s
       = (Ret (DeviceHelper.major_value DeviceHelper.Uncategorized), s)
     ∧ ObjectManagerProxy.GetAndValidateClass interfaces s = (Ret false, s))
  ∧ (∀ device_class, interfaces !! "Class" = Some (VUint32 device_class) →
       ∃ accepted,
         ObjectManagerProxy.GetAndValidateClass interfaces s = (Ret accepted, s)
         ∧ (accepted = true ↔
            bits 8 5 device_class = DeviceHelper.major_value DeviceHelper.Phone
            ∨ bits 8 5 device_class
              = DeviceHelper.major_value DeviceHelper.AudioVideo))
  ∧ ObjectManagerProxy.ValidateClass 0x000204 = true
  ∧ ObjectManagerProxy.ValidateClass 0x000100 = false.
Proof.
  split; [|split; [|split]].
  - intros Hno. split; [|by apply GetAndValidateClass_absent].
    unfold ObjectManagerProxy.GetClass. cbv zeta. by rewrite Hno.
  - intros device_class Hc. exists (ObjectManagerProxy.ValidateClass device_class).
    split; [by apply GetAndValidateClass_uint32 | apply ValidateClass_bits].
  - reflexivity.
  - reflexivity.
Qed.

Lemma class_filter_accepts_phone_and_audio_witness :
  ({["Class" := VUint32 0x000204]} : gmap string Variant) !! "Class"
    = Some (VUint32 0x000204)
  ∧ ObjectManagerProxy.GetAndValidateClass
      ({["Class" := VUint32 0x000204]} : gmap string Variant) tt = (Ret true, tt)
  ∧ (∅ : gmap string Variant) !! "Class" = None
  ∧ ObjectManagerProxy.GetAndValidateClass (∅ : gmap string Variant) tt
    = (Ret false, tt).
Proof.
  assert (({["Class" := VUint32 0x000204]} : gmap string Variant) !! "Class"
          = Some (VUint32 0x000204)) as Hin by (vm_compute; reflexivity).
  assert ((∅ : gmap string Variant) !! "Class" = None) as Hout
    by (vm_compute; reflexivity).
  split; [exact Hin|]. split.
  - destruct (class_filter_accepts_phone_and_audio
                ({["Class" := VUint32 0x000204]} : gmap string Variant) tt)
      as (_ & Hpresent & _).
    destruct (Hpresent _ Hin) as (accepted & Hrun & Hiff).
    rewrite Hrun. f_equal. f_equal. apply Hiff. left. vm_compute. reflexivity.
  - split; [exact Hout|].
    destruct (class_filter_accepts_phone_and_audio (∅ : gmap string Variant) tt)
      as (Habsent & _).
    exact (proj2 (Habsent Hout)).
Defined.

(** C1, as stated, fails: in class 0x002204 bits 8 to 15 are 0x22, which
    is neither Phone nor AudioVideo, and the filter accepts the device. *)
Lemma class_filter_bits_8_to_15_counterexample :
  ¬ (ObjectManagerProxy.GetAndValidateClass
       ({["Class" := VUint32 0x002204]} : gmap string Variant) tt = (Ret true, tt)
     ↔ (bits 8 8 0x002204 = DeviceHelper.major_value DeviceHelper.Phone
        ∨ bits 8 8 0x002204 = DeviceHelper.major_value DeviceHelper.AudioVideo)).
Proof.
  intros [Hacc _].
  assert (ObjectManagerProxy.GetAndValidateClass
            ({["Class" := VUint32 0x002204]} : gmap string Variant) tt
          = (Ret true, tt)) as Hrun by (vm_compute; reflexivity).
  destruct (Hacc Hrun) as [H|H]; vm_compute in H; discriminate H.
Qed.

(* ================================================================== *)
(** ** Identity derivation and registration *)

Section IdentityClaims.
Context {B : Type} `{!Device1_proxy B}.
Import DeviceManager.

(** C3 (as amended).  For every bus path: if the path does not contain
    the marker ["dev_"], identity derivation returns the empty string and
    no reachable registry holds a record for the path; if it does, the
    derived identity is what follows the first occurrence of the marker,
    with every underscore replaced by a colon.  No case is converted and
    nothing is validated: the identity has the canonical uppercase form
    [XX:XX:XX:XX:XX:XX] when that suffix has the form
    [XX_XX_XX_XX_XX_XX] with uppercase hexadecimal digits. *)
Theorem GetMACFromPath_derives_identity (path : string) :
  (¬ contains "dev_" path →
     GetMACFromPath path = ""
     ∧ ∀ (s : State B) k d,
         reachable s → m_devicesMap s !! k = Some (Some d) →
         Device.m_devicePath d ≠ path)
  ∧ (∀ pre post,
       path = pre +:+ "dev_" +:+ post →
       (∀ pos, occurs_at "dev_" path pos → (String.length pre ≤ pos)%nat) →
       GetMACFromPath path = StdString.replace "_" ":" post
       ∧ (device_suffix post = true →
          canonical_MAC (GetMACFromPath path) = true)).
Proof.
  split.
  - intros Hnc. split; [by apply GetMACFromPath_no_marker|].
    intros s k d Hs Hk <-.
    destruct (reachable_well_keyed s Hs _ _ Hk) as (Hne & d' & [= <-] & ->).
    by apply Hne, GetMACFromPath_no_marker.
  - intros pre post -> Hmin.
    rewrite GetMACFromPath_marker by exact Hmin. split; [done|].
    apply replace_mac_groups.
Qed.

End IdentityClaims.

Lemma GetMACFromPath_derives_identity_witness :
  ¬ contains "dev_" "org.bluez.Device1"
  ∧ DeviceManager.GetMACFromPath "org.bluez.Device1" = ""
  ∧ device_suffix "AA_BB_CC_DD_EE_FF" = true
  ∧ DeviceManager.GetMACFromPath phone_path = "AA:BB:CC:DD:EE:FF"
  ∧ canonical_MAC (DeviceManager.GetMACFromPath phone_path) = true.
Proof.
  assert (¬ contains "dev_" "org.bluez.Device1") as Hnc
    by (apply find_None; vm_compute; reflexivity).
  assert (device_suffix "AA_BB_CC_DD_EE_FF" = true) as Hform
    by (vm_compute; reflexivity).
  split; [exact Hnc|]. split.
  - exact (proj1 (proj1 (GetMACFromPath_derives_identity
                           (B:=SimpleBus.Daemon) "org.bluez.Device1") Hnc)).
  - split; [exact Hform|].
    destruct (proj2 (GetMACFromPath_derives_identity (B:=SimpleBus.Daemon) phone_path)
                "/org/bluez/hci0/" "AA_BB_CC_DD_EE_FF" eq_refl) as [Hmac Hcanon].
    + apply (find_Some "dev_" phone_path 16). vm_compute. reflexivity.
    + split; [exact Hmac | exact (Hcanon Hform)].
Defined.

(** C3, as stated, fails: the path [/org/bluez/hci0/dev_aa_bb] contains
    the marker, and its identity [aa:bb] is not in the canonical
    uppercase form. *)
Lemma identity_canonical_form_counterexample :
  contains "dev_" "/org/bluez/hci0/dev_aa_bb"
  ∧ DeviceManager.GetMACFromPath "/org/bluez/hci0/dev_aa_bb" = "aa:bb"
  ∧ canonical_MAC (DeviceManager.GetMACFromPath "/org/bluez/hci0/dev_aa_bb") = false.
Proof.
  split; [by exists "/org/bluez/hci0/", "aa_bb"|].
  split; vm_compute; reflexivity.
Qed.

(* ================================================================== *)
(** ** The registry: add requests and removals *)

Section RegistryClaims.
Context {B : Type} `{!Device1_proxy B}.
Import DeviceManager.

(** C2.  For every queue of add requests drained by the consumer loop and
    every request [r] in it: if the identity of [r] is registered when its
    turn comes, the request is a no-op -- the map, the queue, the bus and
    the requests sent to it are as before, two lines are logged; a request
    that changes the map creates exactly one record, under an identity
    that was free; once the identity of [r] is registered, every later
    request of the queue for the same identity leaves the map as it finds
    it and sends nothing to the bus; and no record is replaced or removed
    by the requests that follow.  So only the first request that finds an
    identity free creates its record. *)
Theorem RunEventLoop_first_writer_wins (s : State B) (q : list DeviceStruct)
    (i : nat) (r : DeviceStruct) :
  q !! i = Some r →
  let before := after (drain (take i q)) s in
  let here := after (process r) before in
  let identity := GetMACFromPath (path r) in
  (is_Some (m_devicesMap before !! identity) →
     ∃ l1 l2, process r before = (Ret tt, with_lines [l1; l2] before))
  ∧ (m_devicesMap here ≠ m_devicesMap before →
       m_devicesMap before !! identity = None
       ∧ m_devicesMap here
         = <[identity := Some (fresh_device (path r))]> (m_devicesMap before))
  ∧ (∀ j r',
       (i < j)%nat → q !! j = Some r' → GetMACFromPath (path r') = identity →
       is_Some (m_devicesMap here !! identity) →
       let before' := after (drain (take j q)) s in
       m_devicesMap (after (process r') before') = m_devicesMap before'
       ∧ trace (env (after (process r') before')) = trace (env before'))
  ∧ (∀ k v, m_devicesMap here !! k = Some v →
       m_devicesMap (after (drain (drop (S i) q)) here) !! k = Some v)
  ∧ view (after (drain q) s) = view (after (drain (drop (S i) q)) here).
Proof.
  intros Hi before here identity. split; [|split; [|split; [|split]]].
  - intros Hreg. destruct (process_registered r before Hreg) as (l1 & l2 & ->).
    by exists l1, l2.
  - intros Hchanged. subst here. unfold after in *.
    destruct (process_summary r before) as [e' [Hp | (_ & _ & Hfree & Hp)]];
      rewrite Hp in Hchanged |- *; cbn in *;
      [ exfalso; apply Hchanged; reflexivity | split; [exact Hfree | reflexivity] ].
  - intros j r' Hij Hj Hsame [v Hv] before'.
    assert (is_Some (m_devicesMap before' !! GetMACFromPath (path r'))) as Hreg.
    { rewrite Hsame. exists v.
      pose proof (drain_take_later q i j r s Hi Hij) as Hview.
      apply (f_equal fst) in Hview. cbn in Hview. fold before' in Hview.
      rewrite Hview. by apply drain_keeps. }
    unfold after. destruct (process_registered r' before' Hreg) as (l1 & l2 & ->).
    done.
  - intros k v Hk. exact (drain_keeps _ _ _ _ Hk).
  - rewrite <- (take_drop_middle q i r Hi) at 1.
    rewrite drain_app, after_drain_cons.
    apply drain_view. unfold after. apply process_view. reflexivity.
Qed.

(** C7.  For every identity that is not in the registry map, the removal
    of a path with that identity returns to its caller, leaves the map
    unchanged and logs: the call and the failed lookup. *)
Theorem DeviceRemoved_absent_is_logged_noop (s : State B)
    (devicePath identity : string) :
  GetMACFromPath devicePath = identity →
  m_devicesMap s !! identity = None →
  DeviceRemoved devicePath s
    = (Ret tt, with_lines (DeviceRemoved_absent_lines devicePath) s)
  ∧ m_devicesMap (after (DeviceRemoved devicePath) s) = m_devicesMap s.
Proof.
  intros <- Habs. unfold after. by rewrite DeviceRemoved_absent.
Qed.

(** C10.  For every object-removed signal, the registry removal is called
    once for each name equal to the device interface, and its argument is
    that name, not the object path.  The identity derived from the name is
    empty, which no reachable registry has as a key: the handler returns,
    every removal logs a failed lookup, and the map is as it was. *)
Theorem onInterfacesRemoved_erases_nothing (s : State B) (objectPath : string)
    (interfaces : list string) :
  reachable s →
  GetMACFromPath ObjectManagerProxy.DEVICE_INTERFACE = ""
  ∧ ObjectManagerProxy.onInterfacesRemoved objectPath interfaces s
    = (Ret tt, with_lines (onInterfacesRemoved_lines objectPath interfaces) s)
  ∧ m_devicesMap (after (ObjectManagerProxy.onInterfacesRemoved objectPath interfaces) s)
    = m_devicesMap s.
Proof.
  intros Hs%reachable_no_empty_key.
  assert (ObjectManagerProxy.onInterfacesRemoved objectPath interfaces s
          = (Ret tt, with_lines (onInterfacesRemoved_lines objectPath interfaces) s))
    as Hrun.
  { unfold ObjectManagerProxy.onInterfacesRemoved.
    erewrite run_bind_Ret by apply run_io_Log.
    rewrite onInterfacesRemoved_loop by exact Hs.
    unfold onInterfacesRemoved_lines, with_lines, logged, set_env. cbn.
    by rewrite <- app_assoc. }
  split; [reflexivity|]. split; [exact Hrun|].
  unfold after. by rewrite Hrun.
Qed.

End RegistryClaims.

Lemma phone_registered_reachable : reachable phone_registered.
Proof. unfold phone_registered. do 3 apply reachable_op. apply reachable_ctor. Qed.

(** The run that registers the phone is defined: the first read of the
    proxy's constructor fails. *)
Lemma phone_registered_defined : defined (trace (DeviceManager.env phone_registered)).
Proof. apply (bool_decide_unpack _). vm_compute. exact I. Qed.

Lemma RunEventLoop_first_writer_wins_witness :
  let s := DeviceManager.DeviceManager_ctor (SimpleBus.boot phone_announced) in
  let first := DeviceManager.mkDeviceStruct phone_path true in
  let second := DeviceManager.mkDeviceStruct phone_path false in
  let q := [first; second] in
  let identity := DeviceManager.GetMACFromPath phone_path in
  let before := after (DeviceManager.drain (take 0 q)) s in
  let here := after (DeviceManager.process first) before in
  let before' := after (DeviceManager.drain (take 1 q)) s in
  q !! 0%nat = Some first
  ∧ DeviceManager.m_devicesMap here ≠ DeviceManager.m_devicesMap before
  ∧ DeviceManager.m_devicesMap before !! identity = None
  ∧ is_Some (DeviceManager.m_devicesMap here !! identity)
  ∧ DeviceManager.m_devicesMap (after (DeviceManager.process second) before')
    = DeviceManager.m_devicesMap before'
  ∧ ∃ l1 l2,
      DeviceManager.process second before' = (Ret tt, with_lines [l1; l2] before').
Proof.
  intros s first second q identity before here before'.
  assert (q !! 0%nat = Some first) as Hfirst by reflexivity.
  assert (q !! 1%nat = Some second) as Hsecond by reflexivity.
  assert (DeviceManager.m_devicesMap before !! identity = None) as Hfree
    by (vm_compute; reflexivity).
  assert (is_Some (DeviceManager.m_devicesMap here !! identity)) as Hreg
    by (vm_compute; eexists; reflexivity).
  assert (is_Some (DeviceManager.m_devicesMap before' !! identity)) as Hreg'
    by (vm_compute; eexists; reflexivity).
  assert (DeviceManager.m_devicesMap here ≠ DeviceManager.m_devicesMap before)
    as Hchanged.
  { intros Heq. rewrite Heq, Hfree in Hreg. destruct Hreg as [d Hd]. discriminate Hd. }
  destruct (RunEventLoop_first_writer_wins s q 0 first Hfirst)
    as (_ & Hcreates & Hlater & _).
  destruct (RunEventLoop_first_writer_wins s q 1 second Hsecond) as (Hnoop & _).
  split; [exact Hfirst|]. split; [exact Hchanged|].
  split; [exact Hfree|]. split; [exact Hreg|]. split.
  - exact (proj1 (Hlater 1%nat second (Nat.lt_0_succ 0) Hsecond eq_refl Hreg)).
  - exact (Hnoop Hreg').
Defined.

Lemma DeviceRemoved_absent_is_logged_noop_witness :
  DeviceManager.GetMACFromPath "/org/bluez/hci0/dev_11_22_33_44_55_66"
    = "11:22:33:44:55:66"
  ∧ DeviceManager.m_devicesMap phone_registered !! "11:22:33:44:55:66" = None
  ∧ DeviceManager.m_devicesMap
      (after (DeviceManager.DeviceRemoved "/org/bluez/hci0/dev_11_22_33_44_55_66")
             phone_registered)
    = DeviceManager.m_devicesMap phone_registered.
Proof.
  assert (DeviceManager.GetMACFromPath "/org/bluez/hci0/dev_11_22_33_44_55_66"
          = "11:22:33:44:55:66") as Hid by (vm_compute; reflexivity).
  assert (DeviceManager.m_devicesMap phone_registered !! "11:22:33:44:55:66" = None)
    as Habs by (vm_compute; reflexivity).
  split; [exact Hid|]. split; [exact Habs|].
  exact (proj2 (DeviceRemoved_absent_is_logged_noop phone_registered _ _ Hid Habs)).
Defined.

Lemma onInterfacesRemoved_erases_nothing_witness :
  reachable phone_registered
  ∧ is_Some (DeviceManager.m_devicesMap phone_registered !! "AA:BB:CC:DD:EE:FF")
  ∧ DeviceManager.m_devicesMap
      (after (ObjectManagerProxy.onInterfacesRemoved phone_path ["org.bluez.Device1"])
             phone_registered)
    = DeviceManager.m_devicesMap phone_registered.
Proof.
  split; [exact phone_registered_reachable|]. split.
  - vm_compute. eexists. reflexivity.
  - exact (proj2 (proj2 (onInterfacesRemoved_erases_nothing phone_registered
                           phone_path ["org.bluez.Device1"]
                           phone_registered_reachable))).
Defined.

(* ================================================================== *)
(** ** The device: guarded operations and the property cache *)

Ltac unfold_callbacks :=
  unfold Device.AddressChanged, Device.AddressTypeChanged, Device.NameChanged,
    Device.IconChanged, Device.ClassChanged, Device.UUIDsChanged,
    Device.PairedChanged, Device.ConnectedChanged, Device.TrustedChanged,
    Device.BlockedChanged, Device.AliasChanged, Device.AdapterChanged,
    Device.LegacyPairingChanged, Device.ManufacturerDataChanged,
    Device.ServiceDataChanged, Device.ServicesResolvedChanged.

Section DeviceClaims.
Context {B : Type} `{!Device1_proxy B}.

Lemma method_calls_property_read (tr : list BusEvent) (p name : string) :
  method_calls (tr ++ [PropertyGet p name]) = method_calls tr.
Proof. unfold method_calls. rewrite List.filter_app. cbn. by rewrite app_nil_r. Qed.

(** C4 (as amended).  For every device the bus reports as connected,
    [Connect] sends one request to the bus -- the read of the property
    ["Connected"] that gives this report --, invokes no method, logs that
    the device is already connected and returns.  Likewise [Disconnect]
    for every device reported as not connected.  The guard is itself a
    request to the bus. *)
Theorem Connect_Disconnect_guarded (this : Device.Device) (e : Env B) :
  let p := Device.m_devicePath this in
  (∀ b', org_bluez.Connected p (bus e) = (Ok true, b') →
     Device.Connect this e
     = (Ret tt,
        mkEnv b' (trace e ++ [PropertyGet p "Connected"])
          (console e ++ [mkLog "%s%s" [LStr Device.TAG; LStr "Connect"];
                         mkLog "%s%s Device is already connected"
                               [LStr Device.TAG; LStr "Connect"]]))
     ∧ method_calls (trace (Device.Connect this e).2) = method_calls (trace e))
  ∧ (∀ b', org_bluez.Connected p (bus e) = (Ok false, b') →
       Device.Disconnect this e
       = (Ret tt,
          mkEnv b' (trace e ++ [PropertyGet p "Connected"])
            (console e ++ [mkLog "%s%s" [LStr Device.TAG; LStr "Disconnect"];
                           mkLog "%s%s Device is not connected"
                                 [LStr Device.TAG; LStr "Disconnect"]]))
       ∧ method_calls (trace (Device.Disconnect this e).2) = method_calls (trace e)).
Proof.
  intros p. split; intros b' Hreport.
  - assert (Device.Connect this e
      = (Ret tt, mkEnv b' (trace e ++ [PropertyGet p "Connected"])
           (console e ++ [mkLog "%s%s" [LStr Device.TAG; LStr "Connect"];
                          mkLog "%s%s Device is already connected"
                                [LStr Device.TAG; LStr "Connect"]]))) as Hrun.
    { unfold Device.Connect. erewrite run_bind_Ret by apply run_Log.
      unfold DeviceProxy.GetConnected.
      erewrite run_bind_Ret by (apply run_request_Ok; exact Hreport).
      cbv beta iota. rewrite run_Log. cbn. by rewrite <- app_assoc. }
    split; [exact Hrun|].
    rewrite Hrun. cbn. apply method_calls_property_read.
  - assert (Device.Disconnect this e
      = (Ret tt, mkEnv b' (trace e ++ [PropertyGet p "Connected"])
           (console e ++ [mkLog "%s%s" [LStr Device.TAG; LStr "Disconnect"];
                          mkLog "%s%s Device is not connected"
                                [LStr Device.TAG; LStr "Disconnect"]]))) as Hrun.
    { unfold Device.Disconnect. erewrite run_bind_Ret by apply run_Log.
      unfold DeviceProxy.GetConnected.
      erewrite run_bind_Ret by (apply run_request_Ok; exact Hreport).
      cbn [negb]. cbv beta iota. rewrite run_Log. cbn. by rewrite <- app_assoc. }
    split; [exact Hrun|].
    rewrite Hrun. cbn. apply method_calls_property_read.
Qed.

(** C8.  For each of the sixteen property-changed callbacks: delivering
    the value the cache holds leaves the device and the console as they
    are; delivering another value stores it in the member the callback is
    about, leaves every other member and the rest of the device as they
    were, and writes exactly one line. *)
Theorem property_changed_equality_guarded (c : Device.PropertyChange)
    (this : Device.Device) (e : Env B) :
  (Device.cached c (Device.m_properties this) →
     Device.deliver c this e = (Ret this, e))
  ∧ (¬ Device.cached c (Device.m_properties this) →
       ∃ this' line,
         Device.deliver c this e
         = (Ret this', mkEnv (bus e) (trace e) (console e ++ [line]))
         ∧ Device.cached c (Device.m_properties this')
         ∧ (∀ c', Device.same_member c c' = false →
              Device.cached c' (Device.m_properties this')
              ↔ Device.cached c' (Device.m_properties this))
         ∧ Device.m_devicePath this' = Device.m_devicePath this
         ∧ Device.m_running this' = Device.m_running this
         ∧ Device.m_eventLoopThread this' = Device.m_eventLoopThread this).
Proof.
  destruct this as [p q running thread].
  split.
  - intros Hc.
    destruct c; cbn [Device.deliver Device.cached Device.m_properties] in *;
      unfold_callbacks; cbn [Device.m_properties];
      rewrite decide_False by (intros Hne; by apply Hne); reflexivity.
  - intros Hc.
    destruct c; cbn [Device.deliver Device.cached Device.m_properties] in *;
      unfold_callbacks; cbn [Device.m_properties];
      rewrite decide_True by exact Hc;
      erewrite run_bind_Ret by apply run_Log;
      (eexists _, _; split; [reflexivity|]);
      (split; [reflexivity|]);
      (split; [|by repeat split]);
      intros c' Hc'; destruct c'; cbn in Hc'; try discriminate Hc'; reflexivity.
Qed.

End DeviceClaims.

Lemma Connect_Disconnect_guarded_witness :
  let this := fresh_device phone_path in
  let up := SimpleBus.boot (SimpleBus.mkDaemon {[phone_path]} ∅ ∅ ∅) in
  let down := SimpleBus.boot SimpleBus.quiet in
  org_bluez.Connected phone_path (bus up) = (Ok true, bus up)
  ∧ (Device.Connect this up).1 = Ret tt
  ∧ method_calls (trace (Device.Connect this up).2) = []
  ∧ org_bluez.Connected phone_path (bus down) = (Ok false, bus down)
  ∧ (Device.Disconnect this down).1 = Ret tt
  ∧ method_calls (trace (Device.Disconnect this down).2) = [].
Proof.
  intros this up down.
  assert (org_bluez.Connected phone_path (bus up) = (Ok true, bus up)) as Hup
    by (vm_compute; reflexivity).
  assert (org_bluez.Connected phone_path (bus down) = (Ok false, bus down)) as Hdown
    by (vm_compute; reflexivity).
  destruct (proj1 (Connect_Disconnect_guarded this up) _ Hup) as [Hrun Hcalls].
  destruct (proj2 (Connect_Disconnect_guarded this down) _ Hdown) as [Hrun' Hcalls'].
  split; [exact Hup|]. split; [rewrite Hrun; reflexivity|]. split; [exact Hcalls|].
  split; [exact Hdown|]. split; [rewrite Hrun'; reflexivity|]. exact Hcalls'.
Defined.

(** C4, as stated, fails: [Connect] on a device the bus reports as
    connected does send a request to the bus, the read of that report,
    and so does [Disconnect] on a device reported as not connected. *)
Lemma guarded_operations_read_the_bus_counterexample :
  let this := fresh_device phone_path in
  let up := SimpleBus.boot (SimpleBus.mkDaemon {[phone_path]} ∅ ∅ ∅) in
  let down := SimpleBus.boot SimpleBus.quiet in
  org_bluez.Connected phone_path (bus up) = (Ok true, bus up)
  ∧ trace up = []
  ∧ trace (Device.Connect this up).2 = [PropertyGet phone_path "Connected"]
  ∧ org_bluez.Connected phone_path (bus down) = (Ok false, bus down)
  ∧ trace down = []
  ∧ trace (Device.Disconnect this down).2 = [PropertyGet phone_path "Connected"].
Proof.
  intros this up down. repeat split; vm_compute; reflexivity.
Qed.

Lemma property_changed_equality_guarded_witness :
  let this := fresh_device phone_path in
  let e := SimpleBus.boot SimpleBus.quiet in
  Device.cached (Device.ChConnected false) (Device.m_properties this)
  ∧ Device.deliver (Device.ChConnected false) this e = (Ret this, e)
  ∧ ¬ Device.cached (Device.ChName "Pixel") (Device.m_properties this)
  ∧ ∃ this' line,
      Device.deliver (Device.ChName "Pixel") this e
      = (Ret this', mkEnv (bus e) (trace e) (console e ++ [line]))
      ∧ DeviceHelper.Name (Device.m_properties this') = "Pixel".
Proof.
  intros this e.
  assert (Device.cached (Device.ChConnected false) (Device.m_properties this)) as Hsame
    by reflexivity.
  assert (¬ Device.cached (Device.ChName "Pixel") (Device.m_properties this)) as Hnew
    by (cbn; discriminate).
  split; [exact Hsame|]. split.
  - exact (proj1 (property_changed_equality_guarded
                    (Device.ChConnected false) this e) Hsame).
  - split; [exact Hnew|].
    destruct (proj2 (property_changed_equality_guarded (Device.ChName "Pixel") this e)
                Hnew) as (this' & line & Hrun & Hcached & _).
    exists this', line. split; [exact Hrun | exact Hcached].
Defined.

(* ================================================================== *)
(** ** Teardown *)

Section Loops.
Context {σ X : Type}.

Lemma for_each_app (l1 l2 : list X) (body : X → M σ unit) (s : σ) :
  for_each (l1 ++ l2) body s =
  match for_each l1 body s with
  | (Ret _, s1) => for_each l2 body s1
  | (Throw e, s1) => (Throw e, s1)
  end.
Proof.
  revert s. induction l1 as [|x l1 IH]; intros s; [done|].
  cbn [app for_each]. rewrite !run_bind.
  destruct (body x s) as [[[]|e] s']; [apply IH | done].
Qed.

(** A loop returns, or there is a first element at which its body
    throws. *)
Lemma for_each_cases (l : list X) (body : X → M σ unit) (s : σ) :
  (∃ s', for_each l body s = (Ret tt, s'))
  ∨ (∃ done it rest s1 ex s2,
       l = done ++ it :: rest
       ∧ for_each done body s = (Ret tt, s1)
       ∧ body it s1 = (Throw ex, s2)).
Proof.
  revert s. induction l as [|x l IH]; intros s.
  - left. by eexists.
  - destruct (body x s) as [[[]|ex] s'] eqn:Hx.
    + destruct (IH s') as [[s'' Hl] | (done & it & rest & s1 & ex & s2 & -> & Hd & Hit)].
      * left. exists s''. cbn [for_each]. by erewrite run_bind_Ret.
      * right. exists (x :: done), it, rest, s1, ex, s2.
        split; [done|]. split; [|done].
        cbn [for_each]. by erewrite run_bind_Ret.
    + right. by exists [], x, l, s, ex, s'.
Qed.

End Loops.

Section Extending.
Context {σ X : Type} (tr : σ → list X) (P : X → Prop).

Lemma extends_by_ret {A} (a : A) : extends_by tr P (mret a : M σ A).
Proof. intros s. exists []. by rewrite app_nil_r. Qed.

Lemma extends_by_throw {A} (e : exn) : extends_by tr P (mthrow e : M σ A).
Proof. intros s. exists []. by rewrite app_nil_r. Qed.

Lemma extends_by_gets {A} (f : σ → A) : extends_by tr P (gets f).
Proof. intros s. exists []. by rewrite app_nil_r. Qed.

Lemma extends_by_modify (f : σ → σ) :
  (∀ s, tr (f s) = tr s) → extends_by tr P (modify f).
Proof. intros Hf s. exists []. cbn. by rewrite Hf, app_nil_r. Qed.

Lemma extends_by_bind {A C} (m : M σ A) (k : A → M σ C) :
  extends_by tr P m → (∀ a, extends_by tr P (k a)) → extends_by tr P (m ≫= k).
Proof.
  intros Hm Hk s. rewrite run_bind. destruct (Hm s) as (n1 & H1 & F1).
  destruct (m s) as [[a|e] s']; cbn [snd] in H1.
  - destruct (Hk a s') as (n2 & H2 & F2). exists (n1 ++ n2).
    split; [by rewrite H2, H1, app_assoc | by apply Forall_app].
  - by exists n1.
Qed.

Lemma extends_by_try_catch {A} (body : M σ A) (handler : exn → M σ A) :
  extends_by tr P body → (∀ e, extends_by tr P (handler e)) →
  extends_by tr P (try_catch body handler).
Proof.
  intros Hb Hh s. rewrite run_try_catch. destruct (Hb s) as (n1 & H1 & F1).
  destruct (body s) as [[a|e] s']; cbn [snd] in H1.
  - by exists n1.
  - destruct (Hh e s') as (n2 & H2 & F2). exists (n1 ++ n2).
    split; [by rewrite H2, H1, app_assoc | by apply Forall_app].
Qed.

Lemma extends_by_when (b : bool) (m : M σ unit) :
  extends_by tr P m → extends_by tr P (when b m).
Proof. destruct b; [done|]. intros _. apply extends_by_ret. Qed.

Lemma extends_by_for_each {Y} (l : list Y) (body : Y → M σ unit) :
  (∀ x, x ∈ l → extends_by tr P (body x)) → extends_by tr P (for_each l body).
Proof.
  induction l as [|x l IH]; intros Hb; [apply extends_by_ret|].
  cbn [for_each]. apply extends_by_bind.
  - apply Hb. by left.
  - intros _. apply IH. intros y Hy. apply Hb. by right.
Qed.

End Extending.

Lemma extends_by_mono {σ A X} (tr : σ → list X) (P Q : X → Prop) (m : M σ A) :
  (∀ ev, P ev → Q ev) → extends_by tr P m → extends_by tr Q m.
Proof.
  intros HPQ Hm s. destruct (Hm s) as (new & Hnew & Hall).
  exists new. split; [done|]. eapply Forall_impl; eauto.
Qed.

Section Teardown.
Context {B : Type} `{!Device1_proxy B}.
Import DeviceManager.

Lemma throws_only_sdbus_GetProperties_loop
    (table : list (string * (DeviceHelper.DeviceProperties → string →
                             M (Env B) DeviceHelper.DeviceProperties)))
    (q : DeviceHelper.DeviceProperties) (p : string) :
  Forall (λ prop, ∀ q p, throws_only_sdbus (prop.2 q p)) table →
  throws_only_sdbus (DeviceProxy.GetProperties_loop table q p).
Proof.
  intros Htable. revert q. induction Htable as [|prop table Hprop _ IH]; intros q.
  - apply throws_only_sdbus_ret.
  - cbn [DeviceProxy.GetProperties_loop]. apply throws_only_sdbus_bind; [|done].
    intros s e s'. rewrite run_try_catch.
    destruct (prop.2 q p s) as [[a|e0] s0] eqn:Hrun; [done|].
    destruct (Hprop _ _ _ _ _ Hrun) as [w ->]. cbn [catch_out_of_range].
    intros [= <- <-]. by exists w.
Qed.

Lemma throws_only_sdbus_GetProperties (p : string) :
  throws_only_sdbus (DeviceProxy.GetProperties (B:=B) p).
Proof.
  apply throws_only_sdbus_GetProperties_loop.
  unfold DeviceProxy.dispatchDeviceProperties.
  repeat (apply Forall_cons; split;
          [ intros q' p'; cbn [snd];
            first [ apply throws_only_sdbus_ret
                  | apply throws_only_sdbus_bind;
                    [ apply throws_only_sdbus_request
                    | intros ?; apply throws_only_sdbus_ret ] ] | ]).
  apply Forall_nil_2.
Qed.

Lemma throws_only_sdbus_Disconnect (device : Device.Device) :
  throws_only_sdbus (Device.Disconnect (B:=B) device).
Proof.
  apply throws_only_sdbus_bind; [apply throws_only_sdbus_Log|]. intros _.
  apply throws_only_sdbus_bind; [apply throws_only_sdbus_request|]. intros c.
  destruct (negb c); [apply throws_only_sdbus_Log | apply throws_only_sdbus_request].
Qed.

Lemma throws_only_sdbus_CancelPairing (device : Device.Device) :
  throws_only_sdbus (Device.CancelPairing (B:=B) device).
Proof.
  apply throws_only_sdbus_bind; [apply throws_only_sdbus_Log|]. intros _.
  apply throws_only_sdbus_bind; [apply throws_only_sdbus_request|]. intros c.
  destruct (negb c); [apply throws_only_sdbus_Log | apply throws_only_sdbus_request].
Qed.

(** The destructor of a device returns. *)
Lemma run_Device_dtor (device : Device.Device) (e : Env B) :
  Device.Device_dtor device e
  = (Ret tt,
     mkEnv (bus e) (trace e ++ [ProxyUnregistered (Device.m_devicePath device)])
       (console e ++ [mkLog "%s%s" [LStr Device.TAG; LStr "~Device"];
                      mkLog "%s%s" [LStr DeviceProxy.TAG; LStr "~DeviceProxy"]])).
Proof.
  unfold Device.Device_dtor, DeviceProxy.DeviceProxy_dtor.
  rewrite run_bind, run_Log, run_bind, run_Log. cbn. by rewrite <- app_assoc.
Qed.

Lemma throws_only_sdbus_Device_dtor (device : Device.Device) :
  throws_only_sdbus (Device.Device_dtor (B:=B) device).
Proof. intros e ex e'. rewrite run_Device_dtor. intros [=]. Qed.

(** The only exception a teardown step can throw is a bus failure. *)
Lemma throws_only_sdbus_RemoveDevices_entry (it : string * option Device.Device) :
  throws_only_sdbus (RemoveDevices_entry (B:=B) it).
Proof.
  unfold RemoveDevices_entry. destruct it.2 as [device|];
    [|apply throws_only_sdbus_ret].
  apply throws_only_sdbus_bind.
  { apply throws_only_sdbus_zoom, throws_only_sdbus_GetProperties. }
  intros properties. apply throws_only_sdbus_bind.
  { apply throws_only_sdbus_when, throws_only_sdbus_zoom, throws_only_sdbus_Disconnect. }
  intros _. apply throws_only_sdbus_bind.
  { apply throws_only_sdbus_when, throws_only_sdbus_zoom,
      throws_only_sdbus_CancelPairing. }
  intros _. apply throws_only_sdbus_bind.
  { apply throws_only_sdbus_zoom, throws_only_sdbus_Device_dtor. }
  intros _. apply throws_only_sdbus_modify.
Qed.

Lemma in_order_elem_of {V} (m : gmap string V) (x : string * V) :
  x ∈ in_order String.le m ↔ m !! x.1 = Some x.2.
Proof.
  unfold in_order. rewrite merge_sort_Permutation.
  destruct x as [k v]. apply elem_of_map_to_list.
Qed.

Lemma in_order_NoDup {V} (m : gmap string V) : NoDup (in_order String.le m).*1.
Proof.
  unfold in_order. rewrite merge_sort_Permutation. apply NoDup_fst_map_to_list.
Qed.

Lemma io_map {A} (m : M (Env B) A) (s : State B) :
  m_devicesMap (io m s).2 = m_devicesMap s.
Proof. unfold io, zoom. by destruct (m (env s)). Qed.

Lemma when_io_map (b : bool) (m : M (Env B) unit) (s : State B) :
  m_devicesMap (when b (io m) s).2 = m_devicesMap s.
Proof. destruct b; [apply io_map | done]. Qed.

(** A teardown step that returns has erased its record, if it is not
    null; a step that throws has left the map as it was. *)
Lemma RemoveDevices_entry_map (it : string * option Device.Device) (s1 : State B) :
  match RemoveDevices_entry it s1 with
  | (Ret _, s2) =>
      m_devicesMap s2
      = match it.2 with
        | None => m_devicesMap s1
        | Some _ => delete it.1 (m_devicesMap s1)
        end
  | (Throw _, s2) => m_devicesMap s2 = m_devicesMap s1
  end.
Proof.
  unfold RemoveDevices_entry. destruct it.2 as [device|]; [|done].
  rewrite run_bind.
  pose proof (io_map (Device.GetProperties device) s1) as H1.
  destruct (io (Device.GetProperties device) s1) as [[properties|e] s1a];
    cbn [snd] in H1; [|done].
  rewrite run_bind.
  pose proof (when_io_map (DeviceHelper.Connected properties)
                (Device.Disconnect device) s1a) as H2.
  destruct (when _ _ s1a) as [[[]|e] s1b]; cbn [snd] in H2; [|congruence].
  rewrite run_bind.
  pose proof (when_io_map (DeviceHelper.Paired properties)
                (Device.CancelPairing device) s1b) as H3.
  destruct (when _ _ s1b) as [[[]|e] s1c]; cbn [snd] in H3; [|congruence].
  rewrite run_bind.
  pose proof (io_map (Device.Device_dtor device) s1c) as H4.
  destruct (io (Device.Device_dtor device) s1c) as [[[]|e] s1d];
    cbn [snd] in H4; [|congruence].
  cbn. congruence.
Qed.

(** The steps that have returned have not touched the records after
    them. *)
Lemma RemoveDevices_entries_later (done : list (string * option Device.Device))
    (s0 s1 : State B) (k : string) :
  for_each done RemoveDevices_entry s0 = (Ret tt, s1) →
  k ∉ done.*1 →
  m_devicesMap s1 !! k = m_devicesMap s0 !! k.
Proof.
  revert s0. induction done as [|it done IH]; intros s0 Hrun Hk.
  - by injection Hrun as <-.
  - cbn [for_each] in Hrun. rewrite run_bind in Hrun.
    pose proof (RemoveDevices_entry_map it s0) as Hmap.
    destruct (RemoveDevices_entry it s0) as [[[]|e] s'] eqn:Hit; [|done].
    apply not_elem_of_cons in Hk as [Hne Hk].
    rewrite (IH _ Hrun Hk), Hmap.
    destruct it.2; [by rewrite lookup_delete_ne | done].
Qed.

(** A teardown step adds no record. *)
Lemma RemoveDevices_entry_absent (it : string * option Device.Device)
    (s1 : State B) (k : string) :
  m_devicesMap s1 !! k = None →
  m_devicesMap (RemoveDevices_entry it s1).2 !! k = None.
Proof.
  intros Hk. pose proof (RemoveDevices_entry_map it s1) as Hmap.
  destruct (RemoveDevices_entry it s1) as [[[]|e] s2]; cbn [snd]; rewrite Hmap.
  - destruct it.2; [|done]. apply lookup_delete_None. by right.
  - done.
Qed.

(** The steps that have returned have erased the records that were not
    null. *)
Lemma RemoveDevices_entries_erased (done : list (string * option Device.Device))
    (s0 s1 : State B) (k : string) (d : Device.Device) :
  for_each done RemoveDevices_entry s0 = (Ret tt, s1) →
  (k, Some d) ∈ done →
  m_devicesMap s1 !! k = None.
Proof.
  revert s0. induction done as [|it done IH]; intros s0 Hrun Hin.
  - by apply elem_of_nil in Hin.
  - cbn [for_each] in Hrun. rewrite run_bind in Hrun.
    pose proof (RemoveDevices_entry_map it s0) as Hmap.
    destruct (RemoveDevices_entry it s0) as [[[]|e] s'] eqn:Hit; [|done].
    apply elem_of_cons in Hin as [<-|Hin]; [|by eapply IH].
    cbn [fst snd] in Hmap.
    assert (m_devicesMap s' !! k = None) as Hgone
      by (rewrite Hmap; apply lookup_delete_eq).
    clear IH Hmap Hit. revert s' Hrun Hgone.
    induction done as [|it' done IH']; intros s' Hrun Hgone.
    + by injection Hrun as <-.
    + cbn [for_each] in Hrun. rewrite run_bind in Hrun.
      pose proof (RemoveDevices_entry_absent it' s' k Hgone) as Habs.
      destruct (RemoveDevices_entry it' s') as [[[]|e] s''] eqn:Hit'; [|done].
      by eapply IH'.
Qed.

Lemma RemoveDevices_started_eq (s : State B) :
  io (Log "%s%s" [LStr TAG; LStr "RemoveDevices"]) s
  = (Ret tt, RemoveDevices_started s).
Proof. reflexivity. Qed.

(** Teardown when the sweep returns: the map is cleared and nothing more
    is written. *)
Lemma RemoveDevices_complete (s s1 : State B) :
  for_each (in_order String.le (m_devicesMap s)) RemoveDevices_entry
           (RemoveDevices_started s) = (Ret tt, s1) →
  ∃ s', RemoveDevices s = (Ret tt, s')
        ∧ m_devicesMap s' = ∅ ∧ env s' = env s1.
Proof.
  intros Hsweep. unfold RemoveDevices.
  erewrite run_bind_Ret by apply RemoveDevices_started_eq.
  rewrite run_try_catch, run_bind. unfold gets at 1.
  cbn [RemoveDevices_started with_lines m_devicesMap].
  erewrite run_bind_Ret by exact Hsweep.
  rewrite run_bind. unfold gets at 1.
  case_bool_decide as Hempty; cbn.
  - exists s1. by repeat split.
  - eexists. repeat split; reflexivity.
Qed.

(** Teardown when a step throws: the failure is logged and the sweep is
    over. *)
Lemma RemoveDevices_aborted (s s1 s2 : State B)
    (done rest : list (string * option Device.Device))
    (it : string * option Device.Device) (ex : exn) :
  in_order String.le (m_devicesMap s) = done ++ it :: rest →
  for_each done RemoveDevices_entry (RemoveDevices_started s) = (Ret tt, s1) →
  RemoveDevices_entry it s1 = (Throw ex, s2) →
  ∃ w, ex = sdbus_Error w
       ∧ RemoveDevices s = (Ret tt, with_lines [RemoveDevices_error_line w] s2)
       ∧ ∀ x, x ∈ it :: rest → m_devicesMap s2 !! x.1 = Some x.2.
Proof.
  intros Hentries Hdone Hit.
  destruct (throws_only_sdbus_RemoveDevices_entry it _ _ _ Hit) as [w ->].
  exists w. split; [done|]. split.
  - unfold RemoveDevices.
    erewrite run_bind_Ret by apply RemoveDevices_started_eq.
    rewrite run_try_catch.
    match goal with |- context [match ?body ?st with _ => _ end] =>
      assert (body st = (Throw (sdbus_Error w), s2)) as ->
    end.
    { rewrite run_bind. unfold gets at 1.
      cbn [RemoveDevices_started with_lines m_devicesMap].
      erewrite run_bind_Throw; [reflexivity|].
      rewrite Hentries, for_each_app.
      fold (RemoveDevices_started s). rewrite Hdone.
      cbn [for_each]. by erewrite run_bind_Throw. }
    cbn [catch_sdbus_Error]. by rewrite run_io_Log.
  - intros x Hx.
    pose proof (RemoveDevices_entry_map it s1) as Hmap. rewrite Hit in Hmap.
    rewrite Hmap.
    rewrite (RemoveDevices_entries_later done _ _ _ Hdone).
    + change (m_devicesMap (RemoveDevices_started s)) with (m_devicesMap s).
      apply in_order_elem_of. rewrite Hentries. apply elem_of_app. by right.
    + pose proof (in_order_NoDup (m_devicesMap s)) as Hnd.
      rewrite Hentries, fmap_app in Hnd.
      apply NoDup_app in Hnd as (_ & Hdisjoint & _).
      intros Hin. apply (Hdisjoint _ Hin). by apply list_elem_of_fmap_2.
Qed.

(** *** What a teardown step asks of the bus *)

Lemma extends_trace_Log (P : BusEvent → Prop) (fmt : string) (args : list LogArg) :
  extends_by trace P (Log (B:=B) fmt args).
Proof. intros e. exists []. cbn. by rewrite app_nil_r. Qed.

Lemma extends_trace_request {A} (P : BusEvent → Prop) (ev : BusEvent)
    (op : B → reply A * B) :
  P ev → extends_by trace P (request ev op).
Proof.
  intros Hev e. destruct (run_request ev op e) as (r & b' & ->).
  exists [ev]. split; [done|]. by apply Forall_singleton.
Qed.

Lemma extends_trace_io {A} (P : BusEvent → Prop) (m : M (Env B) A) :
  extends_by trace P m → extends_by (λ s : State B, trace (env s)) P (io m).
Proof.
  intros Hm s. destruct (Hm (env s)) as (new & Hnew & Hall).
  exists new. split; [|done]. unfold io, zoom.
  by destruct (m (env s)) as [r e'].
Qed.

Lemma extends_trace_GetProperties_loop (P : BusEvent → Prop)
    (table : list (string * (DeviceHelper.DeviceProperties → string →
                             M (Env B) DeviceHelper.DeviceProperties)))
    (q : DeviceHelper.DeviceProperties) (p : string) :
  Forall (λ prop, ∀ q, extends_by trace P (prop.2 q p)) table →
  extends_by trace P (DeviceProxy.GetProperties_loop table q p).
Proof.
  intros Htable. revert q. induction Htable as [|prop table Hprop _ IH]; intros q.
  - apply extends_by_ret.
  - cbn [DeviceProxy.GetProperties_loop]. apply extends_by_bind; [|done].
    apply extends_by_try_catch; [apply Hprop|].
    intros [w|w|w]; cbn [catch_out_of_range]; try apply extends_by_throw.
    apply extends_by_bind; [apply extends_trace_Log | intros _; apply extends_by_ret].
Qed.

(** The requests of [GetProperties] are reads of properties of the
    object of the proxy. *)
Lemma extends_trace_GetProperties (P : BusEvent → Prop) (p : string) :
  (∀ name, P (PropertyGet p name)) →
  extends_by trace P (DeviceProxy.GetProperties (B:=B) p).
Proof.
  intros HP. apply extends_trace_GetProperties_loop.
  unfold DeviceProxy.dispatchDeviceProperties.
  repeat (apply Forall_cons; split;
          [ intros q'; cbn [snd];
            first [ apply extends_by_ret
                  | apply extends_by_bind;
                    [ apply extends_trace_request, HP
                    | intros ?; apply extends_by_ret ] ] | ]).
  apply Forall_nil_2.
Qed.

Lemma extends_trace_Disconnect (device : Device.Device) :
  extends_by trace (λ ev, event_path ev = Device.m_devicePath device)
    (Device.Disconnect (B:=B) device).
Proof.
  apply extends_by_bind; [apply extends_trace_Log|]. intros _.
  apply extends_by_bind; [by apply extends_trace_request|]. intros c.
  destruct (negb c); [apply extends_trace_Log | by apply extends_trace_request].
Qed.

Lemma extends_trace_CancelPairing (device : Device.Device) :
  extends_by trace (λ ev, event_path ev = Device.m_devicePath device)
    (Device.CancelPairing (B:=B) device).
Proof.
  apply extends_by_bind; [apply extends_trace_Log|]. intros _.
  apply extends_by_bind; [by apply extends_trace_request|]. intros c.
  destruct (negb c); [apply extends_trace_Log | by apply extends_trace_request].
Qed.

Lemma extends_trace_Device_dtor (device : Device.Device) :
  extends_by trace (λ ev, event_path ev = Device.m_devicePath device)
    (Device.Device_dtor (B:=B) device).
Proof.
  intros e. rewrite run_Device_dtor. eexists. split; [reflexivity|].
  by apply Forall_singleton.
Qed.

(** A teardown step asks the bus about the device of its record, and
    about nothing else. *)
Lemma extends_trace_RemoveDevices_entry (it : string * option Device.Device) :
  extends_by (λ s : State B, trace (env s))
    (λ ev, ∃ d, it.2 = Some d ∧ event_path ev = Device.m_devicePath d)
    (RemoveDevices_entry it).
Proof.
  unfold RemoveDevices_entry. destruct it.2 as [device|]; [|apply extends_by_ret].
  eapply extends_by_mono; [intros ev Hev; exists device; split; [done|exact Hev]|].
  apply extends_by_bind.
  { apply extends_trace_io, extends_trace_GetProperties. by intros name. }
  intros properties. apply extends_by_bind.
  { apply extends_by_when, extends_trace_io, extends_trace_Disconnect. }
  intros _. apply extends_by_bind.
  { apply extends_by_when, extends_trace_io, extends_trace_CancelPairing. }
  intros _. apply extends_by_bind.
  { apply extends_trace_io, extends_trace_Device_dtor. }
  intros _. by apply extends_by_modify.
Qed.

Lemma extends_trace_RemoveDevices_entries (l : list (string * option Device.Device)) :
  extends_by (λ s : State B, trace (env s))
    (λ ev, ∃ x d, x ∈ l ∧ x.2 = Some d ∧ event_path ev = Device.m_devicePath d)
    (for_each l RemoveDevices_entry).
Proof.
  apply extends_by_for_each. intros x Hx.
  eapply extends_by_mono; [|apply extends_trace_RemoveDevices_entry].
  intros ev (d & Hd & Hev). by exists x, d.
Qed.

End Teardown.

Section TeardownClaims.
Context {B : Type} `{!Device1_proxy B}.
Import DeviceManager.

(** C5 (the code where the claim fails).  Registry teardown runs its
    step on the records in the order of their keys: the step re-reads the
    device's properties, disconnects the device if they report it
    connected, cancels its pairing if they report it paired, destroys it
    and erases the record.  The [try] is around the whole loop.  So when
    the step of one record ends with a bus failure -- a property that
    cannot be read, a disconnect or a cancel-pairing that is refused --
    teardown logs the failure once and returns: the records before it are
    erased, but that record and every record after it are still in the
    map, which is not empty, and the bus has been asked nothing about the
    devices of the later records: they are neither disconnected nor
    unpaired. *)
Theorem teardown_failure_ends_sweep (s : State B)
    (done rest : list (string * option Device.Device)) (k : string)
    (device : Device.Device) (s1 s2 : State B) (w : string) :
  in_order String.le (m_devicesMap s) = done ++ (k, Some device) :: rest →
  for_each done RemoveDevices_entry (RemoveDevices_started s) = (Ret tt, s1) →
  RemoveDevices_entry (k, Some device) s1 = (Throw (sdbus_Error w), s2) →
  let s' := after RemoveDevices s in
  RemoveDevices s = (Ret tt, with_lines [RemoveDevices_error_line w] s2)
  ∧ (∀ x, x ∈ (k, Some device) :: rest → m_devicesMap s' !! x.1 = Some x.2)
  ∧ m_devicesMap s' ≠ ∅
  ∧ (∀ k' d', (k', Some d') ∈ done → m_devicesMap s' !! k' = None)
  ∧ ∃ new,
      trace (env s') = trace (env s) ++ new
      ∧ Forall (λ ev, ∃ x d', x ∈ done ++ [(k, Some device)] ∧ x.2 = Some d'
                        ∧ event_path ev = Device.m_devicePath d') new.
Proof.
  intros Hentries Hdone Hit s'.
  destruct (RemoveDevices_aborted s s1 s2 done rest _ _ Hentries Hdone Hit)
    as (w' & [= <-] & Hrun & Hkept).
  assert (s' = with_lines [RemoveDevices_error_line w] s2) as Hs'
    by (subst s'; unfold after; by rewrite Hrun).
  assert (∀ x, x ∈ (k, Some device) :: rest → m_devicesMap s' !! x.1 = Some x.2)
    as Hkept' by (intros x Hx; rewrite Hs'; by apply Hkept).
  split; [exact Hrun|]. split; [exact Hkept'|]. split.
  { intros Hempty. specialize (Hkept' (k, Some device)).
    rewrite Hempty, lookup_empty in Hkept'. discriminate Hkept'. by left. }
  split.
  { intros k' d' Hin. rewrite Hs'. cbn [with_lines m_devicesMap].
    pose proof (RemoveDevices_entry_absent (k, Some device) s1 k') as Habs.
    rewrite Hit in Habs. apply Habs.
    by eapply RemoveDevices_entries_erased. }
  destruct (extends_trace_RemoveDevices_entries (done ++ [(k, Some device)])
              (RemoveDevices_started s)) as (new & Hnew & Hall).
  exists new. split; [|exact Hall].
  rewrite Hs'. cbn [with_lines env trace].
  rewrite for_each_app, Hdone in Hnew. cbn [for_each] in Hnew.
  erewrite run_bind_Throw in Hnew by exact Hit. exact Hnew.
Qed.

End TeardownClaims.

Lemma teardown_failure_ends_sweep_witness :
  let s := two_phones stubborn in
  let s' := after DeviceManager.RemoveDevices s in
  let first := ("AA:BB:CC:DD:EE:FF", Some (fresh_device phone_path)) in
  let second := ("BB:BB:CC:DD:EE:FF", Some (fresh_device second_path)) in
  defined (trace (DeviceManager.env s))
  ∧ in_order String.le (DeviceManager.m_devicesMap s) = [] ++ first :: [second]
  ∧ (DeviceManager.RemoveDevices_entry first (RemoveDevices_started s)).1
    = Throw (sdbus_Error "org.bluez.Error.Failed")
  ∧ (DeviceManager.RemoveDevices s).1 = Ret tt
  ∧ DeviceManager.m_devicesMap s' !! "BB:BB:CC:DD:EE:FF"
    = Some (Some (fresh_device second_path))
  ∧ org_bluez.Connected second_path (bus (DeviceManager.env s'))
    = (Ok true, bus (DeviceManager.env s'))
  ∧ method_calls (trace (DeviceManager.env s')) = [MethodCall phone_path mDisconnect].
Proof.
  intros s s' first second.
  assert (defined (trace (DeviceManager.env s))) as Hdefined
    by (apply (bool_decide_unpack _); vm_compute; exact I).
  assert (in_order String.le (DeviceManager.m_devicesMap s) = [] ++ first :: [second])
    as Hentries by (vm_compute; reflexivity).
  assert (DeviceManager.RemoveDevices_entry first (RemoveDevices_started s)
          = (Throw (sdbus_Error "org.bluez.Error.Failed"),
             (DeviceManager.RemoveDevices_entry first (RemoveDevices_started s)).2))
    as Hthrow by (vm_compute; reflexivity).
  destruct (teardown_failure_ends_sweep s [] [second] "AA:BB:CC:DD:EE:FF"
              (fresh_device phone_path) (RemoveDevices_started s) _
              "org.bluez.Error.Failed" Hentries eq_refl Hthrow)
    as (Hrun & Hkept & _).
  split; [exact Hdefined|]. split; [exact Hentries|].
  split; [rewrite Hthrow; reflexivity|]. split; [rewrite Hrun; reflexivity|].
  split.
  - apply (Hkept second). apply elem_of_cons. right. apply elem_of_cons. by left.
  - split; vm_compute; reflexivity.
Defined.

(* ================================================================== *)
(** ** The loop-enable flag *)

Section EnableLoop.
Context {B : Type} `{!Device1_proxy B}.
Import DeviceManager.

(** The consumer never reads the flag of a request. *)
Lemma process_ignores_enableLoop (devicePath : string) (flag flag' : bool)
    (s : State B) :
  process (mkDeviceStruct devicePath flag) s
  = process (mkDeviceStruct devicePath flag') s.
Proof. reflexivity. Qed.

Lemma extends_console_Log (P : LogLine → Prop) (fmt : string) (args : list LogArg) :
  P (mkLog fmt args) → extends_by console P (Log (B:=B) fmt args).
Proof. intros HP e. exists [mkLog fmt args]. split; [done|]. by apply Forall_singleton. Qed.

Lemma extends_console_request {A} (P : LogLine → Prop) (ev : BusEvent)
    (op : B → reply A * B) :
  extends_by console P (request ev op).
Proof.
  intros e. destruct (run_request ev op e) as (r & b' & ->).
  exists []. by rewrite app_nil_r.
Qed.

Lemma extends_console_io {A} (P : LogLine → Prop) (m : M (Env B) A) :
  extends_by console P m → extends_by (λ s : State B, console (env s)) P (io m).
Proof.
  intros Hm s. destruct (Hm (env s)) as (new & Hnew & Hall).
  exists new. split; [|done]. unfold io, zoom.
  by destruct (m (env s)) as [r e'].
Qed.

Lemma extends_console_GetProperties_loop (P : LogLine → Prop)
    (table : list (string * (DeviceHelper.DeviceProperties → string →
                             M (Env B) DeviceHelper.DeviceProperties)))
    (q : DeviceHelper.DeviceProperties) (p : string) :
  (∀ name, P (mkLog "%s%s %s Not Available in List"
                    [LStr DeviceProxy.TAG; LStr "GetProperties"; LStr name])) →
  Forall (λ prop, ∀ q, extends_by console P (prop.2 q p)) table →
  extends_by console P (DeviceProxy.GetProperties_loop table q p).
Proof.
  intros HP Htable. revert q. induction Htable as [|prop table Hprop _ IH]; intros q.
  - apply extends_by_ret.
  - cbn [DeviceProxy.GetProperties_loop]. apply extends_by_bind; [|done].
    apply extends_by_try_catch; [apply Hprop|].
    intros [w|w|w]; cbn [catch_out_of_range]; try apply extends_by_throw.
    apply extends_by_bind; [by apply extends_console_Log | intros _; apply extends_by_ret].
Qed.

Lemma extends_console_GetProperties (P : LogLine → Prop) (p : string) :
  (∀ name, P (mkLog "%s%s %s Not Available in List"
                    [LStr DeviceProxy.TAG; LStr "GetProperties"; LStr name])) →
  extends_by console P (DeviceProxy.GetProperties (B:=B) p).
Proof.
  intros HP. apply extends_console_GetProperties_loop; [exact HP|].
  unfold DeviceProxy.dispatchDeviceProperties.
  repeat (apply Forall_cons; split;
          [ intros q'; cbn [snd];
            first [ apply extends_by_ret
                  | apply extends_by_bind;
                    [ apply extends_console_request
                    | intros ?; apply extends_by_ret ] ] | ]).
  apply Forall_nil_2.
Qed.

(** The constructor of a device never writes the line of
    [StartLooping]. *)
Lemma Device_ctor_no_StartLooping (devicePath : string) :
  extends_by console (λ line, line ≠ StartLooping_line)
    (Device.Device_ctor (B:=B) devicePath).
Proof.
  unfold Device.Device_ctor, DeviceProxy.DeviceProxy_ctor.
  apply extends_by_bind.
  { apply extends_by_bind; [apply extends_console_request|]. intros _.
    apply extends_by_bind; [by apply extends_console_Log|]. intros _.
    apply extends_by_try_catch.
    - apply extends_by_bind; [by apply extends_console_GetProperties|].
      intros properties. apply extends_by_bind.
      { unfold Device.PropertiesChanged_in_ctor, undefined_behaviour.
        by apply extends_by_modify. }
      intros _. apply extends_console_request.
    - intros ex. by apply extends_console_Log. }
  intros _. apply extends_by_bind; [by apply extends_console_Log|]. intros _.
  apply extends_by_ret.
Qed.

Lemma process_no_StartLooping (r : DeviceStruct) :
  extends_by (λ s : State B, console (env s)) (λ line, line ≠ StartLooping_line)
    (process r).
Proof.
  unfold process. cbv zeta.
  apply extends_by_bind; [by apply extends_console_io, extends_console_Log|].
  intros _.
  destruct (StdString.empty (path r) || StdString.empty (GetMACFromPath (path r))).
  { by apply extends_console_io, extends_console_Log. }
  apply extends_by_bind; [apply extends_by_gets|]. intros m.
  destruct (decide (is_Some (m !! GetMACFromPath (path r)))).
  { by apply extends_console_io, extends_console_Log. }
  apply extends_by_try_catch.
  - apply extends_by_bind; [apply extends_console_io, Device_ctor_no_StartLooping|].
    intros device. apply extends_by_bind; [by apply extends_by_modify|]. intros _.
    apply extends_by_bind; [apply extends_by_gets|]. intros count.
    by apply extends_console_io, extends_console_Log.
  - intros [w|w|w]; cbn [catch_sdbus_Error]; try apply extends_by_throw.
    by apply extends_console_io, extends_console_Log.
Qed.

(** C6 (the code where the claim fails).  For every add request with the
    loop-enable flag set that the consumer, in a run whose behaviour is
    defined, processes by inserting a record: the record is a device for
    the path of the request, and the monitoring thread of that device is
    not started -- [StartLooping], which writes a line before anything
    else, has written none.  The consumer does with the request what it
    does with the same request without the flag. *)
Theorem enableLoop_request_starts_no_loop (s : State B) (devicePath : string) :
  let r := mkDeviceStruct devicePath true in
  let s' := after (process r) s in
  defined (trace (env s')) →
  m_devicesMap s' ≠ m_devicesMap s →
  (∃ device,
     m_devicesMap s' = <[GetMACFromPath devicePath := Some device]> (m_devicesMap s)
     ∧ m_devicesMap s !! GetMACFromPath devicePath = None
     ∧ Device.m_devicePath device = devicePath
     ∧ Device.m_eventLoopThread device = false)
  ∧ (∃ new, console (env s') = console (env s) ++ new ∧ StartLooping_line ∉ new)
  ∧ process r s = process (mkDeviceStruct devicePath false) s.
Proof.
  intros r s' _ Hchanged. split; [|split; [|reflexivity]].
  - subst s'. unfold after in *.
    destruct (process_summary r s) as [e' [Hp | (_ & _ & Hfree & Hp)]];
      rewrite Hp in Hchanged |- *; cbn [snd m_devicesMap] in *.
    + exfalso. by apply Hchanged.
    + exists (fresh_device devicePath). by repeat split.
  - destruct (process_no_StartLooping r s) as (new & Hnew & Hall).
    exists new. split; [exact Hnew|].
    intros Hin. rewrite Forall_forall in Hall. by apply (Hall _ Hin).
Qed.

End EnableLoop.

Lemma enableLoop_request_starts_no_loop_witness :
  let queued := after (Agent.RequestConfirmation phone_path) empty_registry in
  let woken := after DeviceManager.RunEventLoop_wakeup queued in
  let s := DeviceManager.set_deviceQueue [] queued in
  let s' := after (DeviceManager.process
                     (DeviceManager.mkDeviceStruct phone_path true)) s in
  DeviceManager.m_deviceQueue queued = [DeviceManager.mkDeviceStruct phone_path true]
  ∧ woken = s'
  ∧ defined (trace (DeviceManager.env woken))
  ∧ DeviceManager.m_devicesMap s' ≠ DeviceManager.m_devicesMap s
  ∧ DeviceManager.m_devicesMap woken !! "AA:BB:CC:DD:EE:FF"
    = Some (Some (fresh_device phone_path))
  ∧ Device.m_eventLoopThread (fresh_device phone_path) = false
  ∧ StartLooping_line ∉ console (DeviceManager.env woken).
Proof.
  intros queued woken s s'.
  assert (DeviceManager.m_devicesMap s !! "AA:BB:CC:DD:EE:FF" = None) as Hfree
    by (vm_compute; reflexivity).
  assert (DeviceManager.m_devicesMap s' !! "AA:BB:CC:DD:EE:FF"
          = Some (Some (fresh_device phone_path))) as Hreg
    by (vm_compute; reflexivity).
  assert (DeviceManager.m_devicesMap s' ≠ DeviceManager.m_devicesMap s) as Hchanged.
  { intros Heq. rewrite Heq, Hfree in Hreg. discriminate Hreg. }
  assert (woken = s') as Hwoken by (vm_compute; reflexivity).
  assert (defined (trace (DeviceManager.env s'))) as Hdefined
    by (apply (bool_decide_unpack _); vm_compute; exact I).
  assert (console (DeviceManager.env s)
          = [mkLog "%s%s" [LStr DeviceManager.TAG; LStr "DeviceManager"];
             mkLog "%s%s Device - %s added to queue"
                   [LStr DeviceManager.TAG; LStr "DeviceAdded"; LStr phone_path]])
    as Hconsole by (vm_compute; reflexivity).
  destruct (enableLoop_request_starts_no_loop s phone_path Hdefined Hchanged)
    as (_ & (new & Hnew & Hnone) & _).
  split; [vm_compute; reflexivity|]. split; [exact Hwoken|].
  split; [rewrite Hwoken; exact Hdefined|]. split; [exact Hchanged|].
  split; [rewrite Hwoken; exact Hreg|]. split; [reflexivity|].
  rewrite Hwoken. fold s' in Hnew. rewrite Hnew, Hconsole.
  intros [Hin|Hin]%elem_of_app; [|by apply Hnone].
  apply elem_of_cons in Hin as [Heq|Hin]; [discriminate Heq|].
  apply elem_of_cons in Hin as [Heq|Hin]; [discriminate Heq|].
  by apply elem_of_nil in Hin.
Defined.

(* ================================================================== *)
(** * Further properties of the code *)

(* ================================================================== *)
(** ** The fields of a class value *)

Section ClassFields.
Import DeviceHelper.

(** X1.  [from_uint32_t] cuts a 32-bit class value into the bit slices
    0-1, 2-7, 8-12, 16-26 and 27-31; bits 13 to 15 are in no member, and
    the value is the sum of the members at their positions and of those
    three bits.  The reserved member, eight bits wide, never holds more
    than the five bits 27-31. *)
Theorem from_uint32_t_slices (value : Z) :
  0 ≤ value < 2 ^ 32 →
  let c := from_uint32_t value in
  format_byte c = bits 0 2 value
  ∧ minor_device_class c = bits 2 6 value
  ∧ major_device_class c = bits 8 5 value
  ∧ service_class c = bits 16 11 value
  ∧ reserved c = bits 27 5 value
  ∧ value = format_byte c + 2 ^ 2 * minor_device_class c
            + 2 ^ 8 * major_device_class c + 2 ^ 13 * bits 13 3 value
            + 2 ^ 16 * service_class c + 2 ^ 27 * reserved c.
Proof.
  intros Hv c. subst c.
  unfold from_uint32_t, store_bitfield.
  cbn [format_byte minor_device_class major_device_class service_class reserved].
  change (Z.land value 0x3) with (Z.land value (Z.ones 2)).
  change 0x3F with (Z.ones 6).
  change 0xFF with (Z.ones 8). change 0x7FF with (Z.ones 11).
  change 0x1F with (Z.ones 5). unfold bits.
  rewrite !Z.land_ones, !Z.shiftr_div_pow2 by lia.
  change (2 ^ 0) with 1. rewrite Z.div_1_r.
  change (2 ^ 2) with 4. change (2 ^ 5) with 32. change (2 ^ 6) with 64.
  change (2 ^ 8) with 256. change (2 ^ 11) with 2048. change (2 ^ 13) with 8192.
  change (2 ^ 16) with 65536. change (2 ^ 27) with 134217728.
  change (2 ^ 3) with 8. change (2 ^ 32) with 4294967296 in Hv.
  replace (value / 256) with ((value / 4) / 64)
    by (rewrite Z.div_div by lia; reflexivity).
  replace (value / 8192) with (((value / 4) / 64) / 32)
    by (rewrite !Z.div_div by lia; reflexivity).
  replace (value / 65536) with ((((value / 4) / 64) / 32) / 8)
    by (rewrite !Z.div_div by lia; reflexivity).
  replace (value / 134217728) with (((((value / 4) / 64) / 32) / 8) / 2048)
    by (rewrite !Z.div_div by lia; reflexivity).
  repeat split; Z.div_mod_to_equations; lia.
Qed.

End ClassFields.

Lemma from_uint32_t_slices_witness :
  DeviceHelper.service_class (DeviceHelper.from_uint32_t 0x5A020C) = 0x5A
  ∧ DeviceHelper.major_device_class (DeviceHelper.from_uint32_t 0x5A020C) = 0x02
  ∧ DeviceHelper.minor_device_class (DeviceHelper.from_uint32_t 0x5A020C) = 0x03
  ∧ 0x5A020C
    = DeviceHelper.format_byte (DeviceHelper.from_uint32_t 0x5A020C)
      + 2 ^ 2 * DeviceHelper.minor_device_class (DeviceHelper.from_uint32_t 0x5A020C)
      + 2 ^ 8 * DeviceHelper.major_device_class (DeviceHelper.from_uint32_t 0x5A020C)
      + 2 ^ 13 * bits 13 3 0x5A020C
      + 2 ^ 16 * DeviceHelper.service_class (DeviceHelper.from_uint32_t 0x5A020C)
      + 2 ^ 27 * DeviceHelper.reserved (DeviceHelper.from_uint32_t 0x5A020C).
Proof.
  assert (0 ≤ 0x5A020C < 2 ^ 32) as Hv by lia.
  destruct (from_uint32_t_slices 0x5A020C Hv) as (_ & _ & _ & _ & _ & Hsum).
  split; [reflexivity|]. split; [reflexivity|]. split; [reflexivity|].
  exact Hsum.
Defined.

(* ================================================================== *)
(** ** The shape of an identity *)

Section IdentityShape.
Import StdString DeviceManager.

Lemma contains_cons (needle : string) (c : ascii) (s : string) :
  contains needle s → contains needle (String c s).
Proof. intros (pre & post & ->). by exists (String c pre), post. Qed.

Lemma starts_with_cons (a b : ascii) (needle s : string) :
  starts_with (String a needle) (String b s)
  = if Ascii.eqb a b then starts_with needle s else false.
Proof. reflexivity. Qed.

(** An occurrence of the marker that starts inside [pre] lies inside
    [pre]: the marker that follows cannot complete it, because its last
    character is none of the first three. *)
Lemma marker_not_straddling (pre post : string) (pos : nat) :
  occurs_at "dev_" (pre +:+ "dev_" +:+ post) pos →
  (pos < String.length pre)%nat →
  contains "dev_" pre.
Proof.
  revert pos. induction pre as [|c pre IH]; intros pos Hocc Hpos.
  { cbn in Hpos. lia. }
  destruct pos as [|pos].
  - apply occurs_at_O in Hocc. rewrite append_cons, starts_with_cons in Hocc.
    destruct (Ascii.eqb_spec "d" c) as [<-|]; [|discriminate].
    destruct pre as [|c2 pre]; [discriminate|].
    rewrite append_cons, starts_with_cons in Hocc.
    destruct (Ascii.eqb_spec "e" c2) as [<-|]; [|discriminate].
    destruct pre as [|c3 pre]; [discriminate|].
    rewrite append_cons, starts_with_cons in Hocc.
    destruct (Ascii.eqb_spec "v" c3) as [<-|]; [|discriminate].
    destruct pre as [|c4 pre]; [discriminate|].
    rewrite append_cons, starts_with_cons in Hocc.
    destruct (Ascii.eqb_spec "_" c4) as [<-|]; [|discriminate].
    by exists "", pre.
  - apply contains_cons. apply (IH pos).
    + rewrite append_cons in Hocc. by apply occurs_at_S in Hocc.
    + cbn in Hpos. lia.
Qed.

Lemma first_marker (pre post : string) :
  ¬ contains "dev_" pre →
  ∀ pos, occurs_at "dev_" (pre +:+ "dev_" +:+ post) pos → (String.length pre ≤ pos)%nat.
Proof.
  intros Hfree pos Hocc.
  destruct (decide (pos < String.length pre)%nat) as [Hlt|]; [|lia].
  destruct Hfree. by eapply marker_not_straddling.
Qed.

Lemma replace_empty (old new : ascii) (s : string) :
  replace old new s = "" → s = "".
Proof. by destruct s. Qed.

Lemma replace_length (old new : ascii) (s : string) :
  String.length (replace old new s) = String.length s.
Proof. induction s as [|c s IH]; cbn; congruence. Qed.

Lemma contains_one (c : ascii) (s : string) :
  contains (String c "") s ↔
  match s with
  | "" => False
  | String a s' => a = c ∨ contains (String c "") s'
  end.
Proof.
  split.
  - intros (pre & post & ->). destruct pre as [|a pre].
    + cbn. by left.
    + rewrite append_cons. right. by exists pre, post.
  - destruct s as [|a s']; [done|]. intros [->|Hin].
    + by exists "", s'.
    + by apply contains_cons.
Qed.

(** No underscore is left in what [std::replace] returns. *)
Lemma replace_no_underscore (s : string) : ¬ contains "_" (replace "_" ":" s).
Proof.
  induction s as [|c s IH]; cbn [replace].
  - intros H. by apply contains_one in H.
  - intros H. apply contains_one in H as [Heq|Hin]; [|by apply IH].
    destruct (Ascii.eqb_spec c "_"); [discriminate Heq|done].
Qed.

Lemma GetMACFromPath_no_underscore (path : string) :
  ¬ contains "_" (GetMACFromPath path).
Proof.
  unfold GetMACFromPath. cbv zeta. destruct (find "dev_" path).
  - apply replace_no_underscore.
  - intros H. by apply contains_one in H.
Qed.

(** X2.  The identity of a path is empty exactly when the path has no
    marker ["dev_"], or ends with its first marker. *)
Theorem GetMACFromPath_empty_iff (path : string) :
  GetMACFromPath path = "" ↔
  ¬ contains "dev_" path ∨ ∃ pre, path = pre +:+ "dev_" ∧ ¬ contains "dev_" pre.
Proof.
  split.
  - intros Hmac. unfold GetMACFromPath in Hmac. cbv zeta in Hmac.
    destruct (find "dev_" path) as [pos|] eqn:Hfind.
    + right. apply replace_empty in Hmac.
      apply find_Some in Hfind as [(pre & post & -> & Hlen) Hmin].
      exists pre. subst pos.
      rewrite <- append_assoc in Hmac.
      replace (String.length pre + String.length "dev_")%nat
        with (String.length (pre +:+ "dev_")) in Hmac by apply length_append.
      rewrite substr_append in Hmac. subst post. split; [reflexivity|].
      intros (a & b & ->).
      specialize (Hmin (String.length a)).
      rewrite !length_append in Hmin.
      assert (String.length a + (String.length "dev_" + String.length b)
              ≤ String.length a)%nat; [|cbn in *; lia].
      apply Hmin. exists a, (b +:+ "dev_" +:+ ""). split; [|reflexivity].
      by rewrite !append_assoc.
    + left. by apply find_None.
  - intros [Hfree|(pre & -> & Hfree)].
    + by apply GetMACFromPath_no_marker.
    + change (pre +:+ "dev_") with (pre +:+ "dev_" +:+ "").
      rewrite GetMACFromPath_marker; [reflexivity|]. by apply first_marker.
Qed.

(** X3.  What precedes the first marker of a path plays no part in its
    identity: the identity is derived from what follows the marker,
    character for character, and has no underscore. *)
Theorem GetMACFromPath_suffix_only (pre post : string) :
  ¬ contains "dev_" pre →
  GetMACFromPath (pre +:+ "dev_" +:+ post) = GetMACFromPath ("dev_" +:+ post)
  ∧ String.length (GetMACFromPath (pre +:+ "dev_" +:+ post)) = String.length post
  ∧ ¬ contains "_" (GetMACFromPath (pre +:+ "dev_" +:+ post)).
Proof.
  intros Hfree.
  assert (GetMACFromPath (pre +:+ "dev_" +:+ post) = replace "_" ":" post) as Hmac.
  { apply GetMACFromPath_marker. by apply first_marker. }
  assert (GetMACFromPath ("" +:+ "dev_" +:+ post) = replace "_" ":" post) as Hbare.
  { apply GetMACFromPath_marker. apply first_marker.
    intros (a & b & Hab). by destruct a. }
  rewrite append_empty_l in Hbare.
  split; [by rewrite Hmac, Hbare|].
  split; [by rewrite Hmac, replace_length|].
  apply GetMACFromPath_no_underscore.
Qed.

End IdentityShape.

Lemma GetMACFromPath_suffix_only_witness :
  ¬ contains "dev_" "/org/bluez/hci1/"
  ∧ DeviceManager.GetMACFromPath ("/org/bluez/hci1/" +:+ "dev_" +:+ "AA_BB_CC_DD_EE_FF")
    = DeviceManager.GetMACFromPath phone_path.
Proof.
  assert (¬ contains "dev_" "/org/bluez/hci1/") as Hfree.
  { apply find_None. reflexivity. }
  split; [exact Hfree|].
  destruct (GetMACFromPath_suffix_only "/org/bluez/hci1/" "AA_BB_CC_DD_EE_FF" Hfree)
    as (-> & _ & _).
  reflexivity.
Defined.

(* ================================================================== *)
(** ** Construction, once more *)

Section ConstructionOutcome.
Context {B : Type} `{!Device1_proxy B}.

Lemma defined_app (tr1 tr2 : list BusEvent) :
  defined (tr1 ++ tr2) ↔ defined tr1 ∧ defined tr2.
Proof. apply Forall_app. Qed.

(** [GetProperties] does nothing whose behaviour is undefined. *)
Lemma GetProperties_defined (p : string) (e : Env B) :
  defined (trace e) → defined (trace (DeviceProxy.GetProperties p e).2).
Proof.
  intros He.
  destruct (extends_trace_GetProperties (λ ev, is_undefined ev = false) p
              (λ name, eq_refl) e) as (new & -> & Hnew).
  by apply defined_app.
Qed.

(** Creating the proxy and reading its properties is defined, however
    the reads end. *)
Lemma proxy_created_defined (devicePath : string) (e e2 : Env B) (b' : B)
    (r : outcome DeviceHelper.DeviceProperties) :
  DeviceProxy.GetProperties devicePath (proxy_created devicePath b' e) = (r, e2) →
  defined (trace e) → defined (trace e2).
Proof.
  intros Hget He.
  pose proof (GetProperties_defined devicePath (proxy_created devicePath b' e))
    as Hdef.
  rewrite Hget in Hdef. apply Hdef. unfold proxy_created. cbn [trace].
  apply defined_app. split; [exact He|]. by apply Forall_singleton.
Qed.

Lemma Device_ctor_Failed (devicePath : string) (e : Env B) (w : string) (b' : B) :
  org_bluez.ProxyInterfaces devicePath (bus e) = (Failed w, b') →
  Device.Device_ctor devicePath e
  = (Throw (sdbus_Error w), mkEnv b' (trace e ++ [ProxyCreated devicePath]) (console e)).
Proof.
  intros Hbase. unfold Device.Device_ctor, DeviceProxy.DeviceProxy_ctor.
  rewrite !run_bind, (run_request_Failed _ _ _ _ _ Hbase). reflexivity.
Qed.

(** The constructor when the proxy is created and one of its reads
    fails: the failure is caught and logged, the callback is not called
    and the proxy is not registered. *)
Lemma Device_ctor_unread (devicePath : string) (e e2 : Env B) (b' : B) (ex : exn) :
  org_bluez.ProxyInterfaces devicePath (bus e) = (Ok tt, b') →
  DeviceProxy.GetProperties devicePath (proxy_created devicePath b' e) = (Throw ex, e2) →
  Device.Device_ctor devicePath e
  = (Ret (fresh_device devicePath),
     mkEnv (bus e2) (trace e2)
       (console e2
        ++ [mkLog "%s%s Error - %s"
                  [LStr DeviceProxy.TAG; LStr "DeviceProxy"; LStr (what ex)];
            mkLog "%s%s" [LStr Device.TAG; LStr "Device"]])).
Proof.
  intros Hbase Hget. unfold proxy_created in Hget.
  unfold Device.Device_ctor, DeviceProxy.DeviceProxy_ctor.
  rewrite run_bind, run_bind.
  rewrite (run_request_Ok _ _ _ _ _ Hbase), run_bind, run_Log, run_try_catch.
  cbn [bus trace console].
  erewrite run_bind_Throw by exact Hget.
  unfold catch_exception. rewrite run_Log, run_bind, run_Log. cbn.
  by rewrite <- app_assoc.
Qed.

(** The constructor when the proxy is created and every read succeeds:
    the callback assigns to the cache before the cache is constructed. *)
Lemma Device_ctor_read (devicePath : string) (e e2 : Env B) (b' : B)
    (properties : DeviceHelper.DeviceProperties) :
  org_bluez.ProxyInterfaces devicePath (bus e) = (Ok tt, b') →
  DeviceProxy.GetProperties devicePath (proxy_created devicePath b' e)
    = (Ret properties, e2) →
  UndefinedBehaviour devicePath ∈ trace (Device.Device_ctor devicePath e).2.
Proof.
  intros Hbase Hget. unfold proxy_created in Hget.
  unfold Device.Device_ctor, DeviceProxy.DeviceProxy_ctor.
  rewrite run_bind, run_bind.
  rewrite (run_request_Ok _ _ _ _ _ Hbase), run_bind, run_Log, run_try_catch.
  cbn [bus trace console].
  erewrite run_bind_Ret by exact Hget.
  unfold Device.PropertiesChanged_in_ctor, undefined_behaviour.
  rewrite run_bind. cbn [modify].
  match goal with |- context [request ?ev ?op ?e1] =>
    destruct (run_request ev op e1) as (r & b'' & ->) end.
  cbn [bus trace console].
  destruct r as [[]|ex].
  - rewrite run_bind, run_Log. cbn. set_solver.
  - unfold catch_exception. rewrite run_Log, run_bind, run_Log. cbn. set_solver.
Qed.

(** X4.  What the constructor of a device does is decided by the bus.
    When the proxy cannot be created the constructor throws that bus
    error, having written nothing.  When it can and one of the reads of
    the proxy's constructor fails, the failure is caught and logged, the
    proxy is left unregistered and the device is constructed: bound to
    the path, its cache empty, its thread not started.  When every read
    succeeds, the proxy's constructor hands the properties to the device,
    which assigns them to a cache that is not constructed yet: the
    behaviour of the program is undefined. *)
Theorem Device_ctor_outcome (devicePath : string) (e : Env B) :
  match org_bluez.ProxyInterfaces devicePath (bus e) with
  | (Failed w, b') =>
      Device.Device_ctor devicePath e
      = (Throw (sdbus_Error w),
         mkEnv b' (trace e ++ [ProxyCreated devicePath]) (console e))
  | (Ok _, b') =>
      match DeviceProxy.GetProperties devicePath (proxy_created devicePath b' e) with
      | (Throw ex, e2) =>
          Device.Device_ctor devicePath e
          = (Ret (Device.mkDevice devicePath DeviceHelper.DeviceProperties_zero
                    true false),
             mkEnv (bus e2) (trace e2)
               (console e2
                ++ [mkLog "%s%s Error - %s"
                          [LStr DeviceProxy.TAG; LStr "DeviceProxy"; LStr (what ex)];
                    mkLog "%s%s" [LStr Device.TAG; LStr "Device"]]))
          ∧ (defined (trace e) → defined (trace e2))
      | (Ret _, e2) =>
          ¬ defined (trace (Device.Device_ctor devicePath e).2)
      end
  end.
Proof.
  destruct (org_bluez.ProxyInterfaces devicePath (bus e)) as [[[]|w] b'] eqn:Hbase.
  - destruct (DeviceProxy.GetProperties devicePath (proxy_created devicePath b' e))
      as [[properties|ex] e2] eqn:Hget.
    + intros Hdef. unfold defined in Hdef. rewrite Forall_forall in Hdef.
      by specialize (Hdef _ (Device_ctor_read devicePath e e2 b' properties Hbase Hget)).
    + split; [by apply (Device_ctor_unread devicePath e e2 b' ex)|].
      exact (proxy_created_defined devicePath e e2 b' _ Hget).
  - by apply Device_ctor_Failed.
Qed.

(** The constructor on a bus that lets the proxy be created and on which
    the properties of the object cannot all be read. *)
Lemma Device_ctor_unreadable (devicePath : string) (e : Env B) (b' : B) :
  org_bluez.ProxyInterfaces devicePath (bus e) = (Ok tt, b') →
  unreadable devicePath b' →
  ∃ e', Device.Device_ctor devicePath e = (Ret (fresh_device devicePath), e')
        ∧ (defined (trace e) → defined (trace e')).
Proof.
  intros Hbase Hunread.
  destruct (Hunread (trace e ++ [ProxyCreated devicePath])
              (console e ++ [mkLog "%s%s" [LStr DeviceProxy.TAG; LStr "DeviceProxy"]]))
    as (w & e2 & Hget).
  eexists. split.
  - exact (Device_ctor_unread devicePath e e2 b' _ Hbase Hget).
  - cbn [trace]. exact (proxy_created_defined devicePath e e2 b' _ Hget).
Qed.

End ConstructionOutcome.

(* ================================================================== *)
(** ** The registry: lookups, additions and removals *)

Section RegistryExtras.
Context {B : Type} `{!Device1_proxy B}.
Import DeviceManager.

Lemma GetDevice_registered (mac : string) (s : State B) (v : option Device.Device) :
  m_devicesMap s !! mac = Some v → GetDevice mac s = (Ret v, s).
Proof.
  intros Hlook. unfold GetDevice, at_. rewrite run_try_catch, run_bind.
  unfold gets. by rewrite Hlook.
Qed.

Lemma GetDevice_absent (mac : string) (s : State B) :
  m_devicesMap s !! mac = None →
  GetDevice mac s
  = (Ret None,
     with_lines [mkLog "%s%s Out of Range Error"
                       [LStr TAG; LStr "GetDevice"; LStr "map::at"]] s).
Proof.
  intros Hlook. unfold GetDevice, at_. rewrite run_try_catch, run_bind.
  unfold gets. rewrite Hlook. cbn [catch_out_of_range mthrow M_throw].
  rewrite run_bind, run_io_Log. reflexivity.
Qed.

(** X5.  In every state the registry can reach, a lookup returns to its
    caller and never throws: for a registered identity it returns the
    device filed under it -- never null, and the identity derived from
    that device's path is the one asked for -- and changes nothing; for
    any other identity it returns null and writes one line. *)
Theorem GetDevice_lookup (s : State B) (mac : string) :
  reachable s →
  match m_devicesMap s !! mac with
  | Some _ =>
      ∃ device, GetDevice mac s = (Ret (Some device), s)
                ∧ GetMACFromPath (Device.GetPath device) = mac
  | None => ∃ line, GetDevice mac s = (Ret None, with_lines [line] s)
  end.
Proof.
  intros Hreach. destruct (m_devicesMap s !! mac) as [v|] eqn:Hlook.
  - destruct (reachable_well_keyed s Hreach mac v Hlook) as (_ & d & -> & Hkey).
    exists d. split; [by apply GetDevice_registered|done].
  - eexists. by apply GetDevice_absent.
Qed.

Lemma key_le_total {V} : Total (key_le (V:=V) String.le).
Proof. intros a b. apply (total String.le). Qed.

Lemma key_le_trans {V} : Transitive (key_le (V:=V) String.le).
Proof. intros a b c. apply (transitivity (R:=String.le)). Qed.

Lemma in_order_sorted {V} (m : gmap string V) :
  StronglySorted String.le (in_order String.le m).*1.
Proof.
  unfold in_order.
  assert (StronglySorted (key_le String.le) (merge_sort (key_le String.le) (map_to_list m)))
    as Hsorted
    by apply (@StronglySorted_merge_sort _ _ _ key_le_trans key_le_total).
  induction Hsorted as [|x l Hl IH Hall]; [constructor|].
  cbn. constructor; [exact IH|].
  apply Forall_fmap. eapply Forall_impl; [exact Hall|]. done.
Qed.

Lemma in_order_length {V} (m : gmap string V) :
  length (in_order String.le m) = size m.
Proof.
  unfold in_order. rewrite merge_sort_Permutation. by rewrite length_map_to_list.
Qed.

(** X6.  The list of identities is the set of keys of the registry, in
    ascending order and without repetition; asking for it changes
    nothing. *)
Theorem GetDevicesMAC_sorted_keys (s : State B) :
  ∃ macs, GetDevicesMAC s = (Ret macs, s)
    ∧ StronglySorted String.le macs
    ∧ NoDup macs
    ∧ length macs = size (m_devicesMap s)
    ∧ ∀ mac, mac ∈ macs ↔ is_Some (m_devicesMap s !! mac).
Proof.
  eexists. split; [reflexivity|].
  split; [apply in_order_sorted|].
  split; [apply in_order_NoDup|].
  split; [by rewrite length_fmap, in_order_length|].
  intros mac. rewrite list_elem_of_fmap. split.
  - intros ([k v] & -> & Hin). apply in_order_elem_of in Hin. by exists v.
  - intros [v Hlook]. exists (mac, v). split; [done|]. by apply in_order_elem_of.
Qed.

(** A request whose device can be constructed, for an identity that is
    not empty and not registered, files the device under that
    identity. *)
Lemma process_constructs (r : DeviceStruct) (s : State B) (b' : B) :
  GetMACFromPath (path r) ≠ "" →
  m_devicesMap s !! GetMACFromPath (path r) = None →
  org_bluez.ProxyInterfaces (path r) (bus (env s)) = (Ok tt, b') →
  unreadable (path r) b' →
  ∃ e', process r s =
    (Ret tt, mkState (<[GetMACFromPath (path r) := Some (fresh_device (path r))]>
                        (m_devicesMap s))
                     (m_deviceQueue s) (m_running s) e')
    ∧ (defined (trace (env s)) → defined (trace e')).
Proof.
  intros Hmac Hlook Hbase Hunread.
  assert (path r ≠ "") as Hpath.
  { intros Hp. apply Hmac. by rewrite Hp. }
  unfold process. cbv zeta. rewrite run_bind, run_io_Log.
  assert (StdString.empty (path r)
          || StdString.empty (GetMACFromPath (path r)) = false) as ->.
  { apply not_true_iff_false. rewrite orb_true_iff, !StdString_empty_true. tauto. }
  rewrite run_bind. unfold gets at 1. cbn [m_devicesMap set_env].
  rewrite decide_False by (rewrite Hlook; by intros [? ?]).
  rewrite run_try_catch, run_bind.
  match goal with |- context [io (Device.Device_ctor _) ?st] =>
    destruct (Device_ctor_unreadable (path r) (env st) b' Hbase Hunread)
      as (e2 & Hc & Hdef) end.
  rewrite (run_io _ _ _ e2) by exact Hc.
  eexists. split; [reflexivity|]. exact Hdef.
Qed.

(** The same request when the proxy cannot be created. *)
Lemma process_construction_fails (r : DeviceStruct) (s : State B) (w : string) (b' : B) :
  GetMACFromPath (path r) ≠ "" →
  m_devicesMap s !! GetMACFromPath (path r) = None →
  org_bluez.ProxyInterfaces (path r) (bus (env s)) = (Failed w, b') →
  process r s =
    (Ret tt,
     set_env (mkEnv b' (trace (env s) ++ [ProxyCreated (path r)])
                (console (env s)
                 ++ [mkLog "%s%s Processing Device - %s MAC - %s"
                           [LStr TAG; LStr "RunEventLoop"; LStr (path r);
                            LStr (GetMACFromPath (path r))];
                     mkLog "%s%s Error creating device for devicePath - %s, Error - %s"
                           [LStr TAG; LStr "RunEventLoop"; LStr (path r); LStr w]])) s).
Proof.
  intros Hmac Hlook Hbase.
  assert (path r ≠ "") as Hpath.
  { intros Hp. apply Hmac. by rewrite Hp. }
  unfold process. cbv zeta. rewrite run_bind, run_io_Log.
  assert (StdString.empty (path r)
          || StdString.empty (GetMACFromPath (path r)) = false) as ->.
  { apply not_true_iff_false. rewrite orb_true_iff, !StdString_empty_true. tauto. }
  rewrite run_bind. unfold gets at 1. cbn [m_devicesMap set_env].
  rewrite decide_False by (rewrite Hlook; by intros [? ?]).
  rewrite run_try_catch, run_bind.
  erewrite run_io by (apply Device_ctor_Failed; exact Hbase).
  cbn [catch_sdbus_Error]. rewrite run_io_Log.
  unfold logged, set_env. cbn. by rewrite <- app_assoc.
Qed.

(** X7.  When the proxy of a requested device cannot be created, the
    request is dropped: the failure is logged, the map and the queue are
    as before, and the identity is still free, so that a later request
    for it is not taken for a duplicate. *)
Theorem failed_construction_registers_nothing (r : DeviceStruct) (s : State B)
    (w : string) (b' : B) :
  GetMACFromPath (path r) ≠ "" →
  m_devicesMap s !! GetMACFromPath (path r) = None →
  org_bluez.ProxyInterfaces (path r) (bus (env s)) = (Failed w, b') →
  let s' := after (process r) s in
  (process r s).1 = Ret tt
  ∧ m_devicesMap s' = m_devicesMap s
  ∧ m_deviceQueue s' = m_deviceQueue s
  ∧ m_devicesMap s' !! GetMACFromPath (path r) = None
  ∧ trace (env s') = trace (env s) ++ [ProxyCreated (path r)]
  ∧ mkLog "%s%s Error creating device for devicePath - %s, Error - %s"
          [LStr TAG; LStr "RunEventLoop"; LStr (path r); LStr w]
    ∈ console (env s').
Proof.
  intros Hmac Hlook Hbase s'. subst s'. unfold after.
  rewrite (process_construction_fails r s w b' Hmac Hlook Hbase).
  cbn. repeat split; try done. set_solver.
Qed.

Lemma process_queue (r : DeviceStruct) (s : State B) :
  m_deviceQueue (after (process r) s) = m_deviceQueue s
  ∧ m_running (after (process r) s) = m_running s.
Proof.
  unfold after. destruct (process_summary r s) as [e' [->|(_ & _ & _ & ->)]]; done.
Qed.

Lemma drain_queue (q : list DeviceStruct) (s : State B) :
  m_deviceQueue (after (drain q) s)
  = match q with [] => m_deviceQueue s | _ :: _ => [] end.
Proof.
  revert s. induction q as [|r q IH]; intros s; [reflexivity|].
  rewrite after_drain_cons, IH.
  destruct q; [|reflexivity].
  by rewrite (proj1 (process_queue _ _)).
Qed.

Lemma drain_running (q : list DeviceStruct) (s : State B) :
  m_running (after (drain q) s) = m_running s.
Proof.
  revert s. induction q as [|r q IH]; intros s; [reflexivity|].
  by rewrite after_drain_cons, IH, (proj2 (process_queue _ _)).
Qed.

Lemma process_new_keys (r : DeviceStruct) (s : State B) (k : string)
    (v : option Device.Device) :
  m_devicesMap (after (process r) s) !! k = Some v →
  m_devicesMap s !! k = Some v
  ∨ (k = GetMACFromPath (path r) ∧ k ≠ "" ∧ m_devicesMap s !! k = None
     ∧ v = Some (fresh_device (path r))).
Proof.
  unfold after. destruct (process_summary r s) as [e' [->|(_ & Hmac & Hfree & ->)]];
    cbn [snd m_devicesMap]; [by left|].
  destruct (decide (k = GetMACFromPath (path r))) as [->|Hne].
  - rewrite lookup_insert_eq. intros [= <-]. by right.
  - rewrite lookup_insert_ne by done. by left.
Qed.

Lemma drain_new_keys (q : list DeviceStruct) (s : State B) (k : string)
    (v : option Device.Device) :
  m_devicesMap (after (drain q) s) !! k = Some v →
  m_devicesMap s !! k = Some v
  ∨ ∃ r, r ∈ q ∧ k = GetMACFromPath (path r) ∧ k ≠ "" ∧ m_devicesMap s !! k = None
         ∧ v = Some (fresh_device (path r)).
Proof.
  revert s. induction q as [|r q IH]; intros s; [by left|].
  rewrite after_drain_cons. intros Hlook.
  apply IH in Hlook as [Hold|(r' & Hin & -> & Hne & Hfree & ->)].
  - apply process_new_keys in Hold as [Hold|(-> & Hne & Hfree & ->)]; [by left|].
    right. exists r. split; [left|done].
  - right. exists r'. split; [by right|]. split; [done|]. split; [done|]. split; [|done].
    destruct (m_devicesMap s !! GetMACFromPath (path r')) as [v0|] eqn:Hs; [|done].
    apply (process_keeps r (set_deviceQueue q s)) in Hs. congruence.
Qed.

Lemma RunEventLoop_wakeup_eq (s : State B) :
  RunEventLoop_wakeup s
  = if m_running s then drain (m_deviceQueue s) s
    else io (Log "%s%s Exiting RunEventLoop" [LStr TAG; LStr "RunEventLoop"]) s.
Proof.
  unfold RunEventLoop_wakeup. rewrite run_bind. unfold gets at 1.
  destruct (m_running s); cbn [negb]; [|done]. by rewrite run_bind.
Qed.

(** X8.  One wake-up of the consumer whose behaviour is defined -- no
    device was constructed with all its properties read, see X4 --
    returns.  While the registry is running it takes every request off the
    queue; no record is removed or replaced, and every record it adds is
    a device constructed for a queued path, filed under the non-empty
    identity of that path, which was free.  Once the registry is stopped
    it writes one line and touches nothing else. *)
Theorem RunEventLoop_wakeup_drains (s : State B) :
  let s' := after RunEventLoop_wakeup s in
  defined (trace (env s')) →
  (RunEventLoop_wakeup s).1 = Ret tt
  ∧ m_running s' = m_running s
  ∧ (m_running s = true → m_deviceQueue s' = [])
  ∧ (m_running s = false → ∃ line, s' = with_lines [line] s)
  ∧ (∀ k v, m_devicesMap s !! k = Some v → m_devicesMap s' !! k = Some v)
  ∧ (∀ k v, m_devicesMap s' !! k = Some v →
       m_devicesMap s !! k = Some v
       ∨ ∃ r device, r ∈ m_deviceQueue s ∧ k = GetMACFromPath (path r) ∧ k ≠ ""
                     ∧ m_devicesMap s !! k = None
                     ∧ v = Some device ∧ Device.GetPath device = path r).
Proof.
  intros s' _. subst s'. unfold after. rewrite RunEventLoop_wakeup_eq.
  destruct (m_running s) eqn:Hrun.
  - change ((drain (m_deviceQueue s) s).2) with (after (drain (m_deviceQueue s)) s).
    split; [apply drain_Ret|].
    split; [by rewrite drain_running|].
    split. { intros _. rewrite drain_queue. by destruct (m_deviceQueue s). }
    split; [done|].
    split; [intros k v; apply drain_keeps|].
    intros k v Hlook. apply drain_new_keys in Hlook
      as [Hold|(r & Hin & -> & Hne & Hfree & ->)]; [by left|].
    right. exists r, (fresh_device (path r)). by repeat split.
  - rewrite run_io_Log. cbn [fst snd]. split; [done|]. split; [done|].
    split; [done|]. split; [|split; [done|by left]].
    eexists. reflexivity.
Qed.

(** X9.  A wake-up after an add request for a path whose identity is
    not empty and not registered, on a bus that lets the proxy be
    created and on which the properties of the object cannot all be
    read -- so that the construction of the device is defined, see X4 --
    files the device: a lookup of the identity then returns a device
    bound to that path, the queue is empty, the records that were there
    are as before, and the run is defined if it was. *)
Theorem DeviceAdded_then_GetDevice (s : State B) (devicePath : string)
    (enableLoop : bool) (b' : B) :
  m_running s = true →
  m_deviceQueue s = [] →
  GetMACFromPath devicePath ≠ "" →
  m_devicesMap s !! GetMACFromPath devicePath = None →
  org_bluez.ProxyInterfaces devicePath (bus (env s)) = (Ok tt, b') →
  unreadable devicePath b' →
  let s' := after RunEventLoop_wakeup (after (DeviceAdded devicePath enableLoop) s) in
  (∃ device,
     GetDevice (GetMACFromPath devicePath) s' = (Ret (Some device), s')
     ∧ Device.GetPath device = devicePath)
  ∧ m_deviceQueue s' = []
  ∧ (∀ k, k ≠ GetMACFromPath devicePath → m_devicesMap s' !! k = m_devicesMap s !! k)
  ∧ (defined (trace (env s)) → defined (trace (env s'))).
Proof.
  intros Hrun Hq Hmac Hfree Hbase Hunread s'.
  assert (∃ e', s' = mkState (<[GetMACFromPath devicePath
                                := Some (fresh_device devicePath)]> (m_devicesMap s))
                        [] true e'
                ∧ (defined (trace (env s)) → defined (trace e'))) as (e' & Hs' & Hdef).
  { subst s'. unfold after at 2. unfold DeviceAdded.
    rewrite run_bind. unfold modify at 1. rewrite run_io_Log. cbn [snd].
    unfold after, RunEventLoop_wakeup. rewrite run_bind. unfold gets at 1.
    cbn [m_running set_env set_deviceQueue]. rewrite Hrun. cbn [negb].
    rewrite run_bind. unfold gets at 1. cbn [m_deviceQueue set_env set_deviceQueue].
    rewrite Hq. cbn [app drain].
    rewrite run_bind. unfold modify at 1. rewrite run_bind.
    edestruct (process_constructs (mkDeviceStruct devicePath enableLoop))
      as (e' & -> & Hdef); [exact Hmac|exact Hfree| |exact Hunread|].
    { cbn. exact Hbase. }
    cbn. rewrite Hrun. eexists. split; [reflexivity|exact Hdef]. }
  rewrite Hs'. split; [|split; [|split]].
  - exists (fresh_device devicePath). split; [|reflexivity].
    apply GetDevice_registered. cbn. by rewrite lookup_insert_eq.
  - reflexivity.
  - intros k Hk. cbn. by rewrite lookup_insert_ne.
  - exact Hdef.
Qed.

Lemma DeviceRemoved_present (s : State B) (devicePath : string)
    (record : option Device.Device) :
  m_devicesMap s !! GetMACFromPath devicePath = Some record →
  ∃ line,
    DeviceRemoved devicePath s
    = (Ret tt,
       with_lines [line]
         (set_devicesMap (delete (GetMACFromPath devicePath) (m_devicesMap s)) s)).
Proof.
  intros Hlook. unfold DeviceRemoved. cbv zeta.
  rewrite run_bind, run_io_Log, run_try_catch.
  unfold at_. rewrite !run_bind. unfold gets at 1. cbn [m_devicesMap set_env].
  rewrite Hlook. eexists. reflexivity.
Qed.

(** X10.  Removal goes by identity: for every path whose identity is
    registered -- the path the record was created for or any other with
    the same identity -- removal returns, erases exactly that record and
    leaves the queue alone; a lookup of the identity then returns null.
    What the destructor of the device does, when the registry held the
    last reference to it, is not part of the function. *)
Theorem DeviceRemoved_erases_identity (s : State B) (devicePath : string) :
  is_Some (m_devicesMap s !! GetMACFromPath devicePath) →
  let s' := after (DeviceRemoved devicePath) s in
  (DeviceRemoved devicePath s).1 = Ret tt
  ∧ m_devicesMap s' = delete (GetMACFromPath devicePath) (m_devicesMap s)
  ∧ m_deviceQueue s' = m_deviceQueue s
  ∧ m_devicesMap s' !! GetMACFromPath devicePath = None
  ∧ (∀ k, k ≠ GetMACFromPath devicePath → m_devicesMap s' !! k = m_devicesMap s !! k)
  ∧ (GetDevice (GetMACFromPath devicePath) s').1 = Ret None.
Proof.
  intros [record Hlook] s'.
  destruct (DeviceRemoved_present s devicePath record Hlook) as [line Hrun].
  subst s'. unfold after. rewrite Hrun. cbn [fst snd].
  split; [reflexivity|]. split; [reflexivity|]. split; [reflexivity|].
  split; [cbn; by rewrite lookup_delete_eq|].
  split; [intros k Hk; cbn; by rewrite lookup_delete_ne|].
  rewrite GetDevice_absent; [done|]. cbn. by rewrite lookup_delete_eq.
Qed.

(** X11.  In every state the registry can reach, every record is a
    device -- none is null -- filed under the identity derived from its
    own path; that identity is not empty and has no underscore, and the
    path has the marker. *)
Theorem registry_records_well_keyed (s : State B) (k : string)
    (v : option Device.Device) :
  reachable s →
  m_devicesMap s !! k = Some v →
  ∃ device, v = Some device
    ∧ k = GetMACFromPath (Device.GetPath device)
    ∧ k ≠ ""
    ∧ ¬ contains "_" k
    ∧ contains "dev_" (Device.GetPath device).
Proof.
  intros Hreach Hlook.
  destruct (reachable_well_keyed s Hreach k v Hlook) as (Hne & d & -> & Hkey).
  exists d. split; [done|]. split; [done|]. split; [done|].
  split; [rewrite Hkey; apply GetMACFromPath_no_underscore|].
  destruct (StdString.find "dev_" (Device.GetPath d)) as [pos|] eqn:Hfind.
  - apply find_Some in Hfind as [(pre & post & Hp & _) _]. by exists pre, post.
  - apply find_None in Hfind. destruct Hne. rewrite Hkey.
    by apply GetMACFromPath_no_marker.
Qed.

End RegistryExtras.

(* ================================================================== *)
(** ** The device: what reaches the bus and what comes back *)

Section DeviceOperations.
Context {B : Type} `{!Device1_proxy B}.

Lemma run_request_thrown {A} (ev : BusEvent) (op : B → reply A * B) (e : Env B)
    (r : reply A) (b' : B) :
  op (bus e) = (r, b') →
  request ev op e = (thrown r, mkEnv b' (trace e ++ [ev]) (console e)).
Proof. intros Hop. unfold request. rewrite Hop. by destruct r. Qed.

(** X12.  For every device the bus reports as paired, [Pair] reads that
    report, logs that the device is already paired and returns without
    invoking anything; likewise [CancelPairing] for a device reported as
    not paired. *)
Theorem Pair_CancelPairing_guarded (this : Device.Device) (e : Env B) (b' : B) :
  let p := Device.m_devicePath this in
  (org_bluez.Paired p (bus e) = (Ok true, b') →
     Device.Pair this e
     = (Ret tt,
        mkEnv b' (trace e ++ [PropertyGet p "Paired"])
          (console e ++ [mkLog "%s%s" [LStr Device.TAG; LStr "Pair"];
                         mkLog "%s%s Device is already paired"
                               [LStr Device.TAG; LStr "Pair"]])))
  ∧ (org_bluez.Paired p (bus e) = (Ok false, b') →
       Device.CancelPairing this e
       = (Ret tt,
          mkEnv b' (trace e ++ [PropertyGet p "Paired"])
            (console e ++ [mkLog "%s%s" [LStr Device.TAG; LStr "CancelPairing"];
                           mkLog "%s%s Device is not paired"
                                 [LStr Device.TAG; LStr "CancelPairing"]]))).
Proof.
  intros p. subst p. split; intros Hreport.
  - unfold Device.Pair. erewrite run_bind_Ret by apply run_Log.
    unfold DeviceProxy.GetPaired.
    erewrite run_bind_Ret by (apply run_request_Ok; exact Hreport).
    cbv beta iota. rewrite run_Log. cbn. by rewrite <- app_assoc.
  - unfold Device.CancelPairing. erewrite run_bind_Ret by apply run_Log.
    unfold DeviceProxy.GetPaired.
    erewrite run_bind_Ret by (apply run_request_Ok; exact Hreport).
    cbn [negb]. cbv beta iota. rewrite run_Log. cbn. by rewrite <- app_assoc.
Qed.

(** X13.  When its guard lets it through, an operation of the device
    invokes its method on the bus exactly once and ends as the bus
    answers: it returns when the bus accepts, and a refusal reaches the
    caller as the bus error.  [Connect] and [Pair] go through for a
    device reported as not connected, not paired; [Disconnect] and
    [CancelPairing] for one reported as connected, paired;
    [DisconnectProfile] has no guard. *)
Theorem device_operations_delegate (this : Device.Device) (e : Env B)
    (r : reply unit) (b1 b2 : B) :
  let p := Device.m_devicePath this in
  (org_bluez.Connected p (bus e) = (Ok false, b1) →
   org_bluez.invoke p mConnect b1 = (r, b2) →
     Device.Connect this e
     = (thrown r,
        mkEnv b2 (trace e ++ [PropertyGet p "Connected"; MethodCall p mConnect])
          (console e ++ [mkLog "%s%s" [LStr Device.TAG; LStr "Connect"]])))
  ∧ (org_bluez.Connected p (bus e) = (Ok true, b1) →
     org_bluez.invoke p mDisconnect b1 = (r, b2) →
       Device.Disconnect this e
       = (thrown r,
          mkEnv b2 (trace e ++ [PropertyGet p "Connected"; MethodCall p mDisconnect])
            (console e ++ [mkLog "%s%s" [LStr Device.TAG; LStr "Disconnect"]])))
  ∧ (org_bluez.Paired p (bus e) = (Ok false, b1) →
     org_bluez.invoke p mPair b1 = (r, b2) →
       Device.Pair this e
       = (thrown r,
          mkEnv b2 (trace e ++ [PropertyGet p "Paired"; MethodCall p mPair])
            (console e ++ [mkLog "%s%s" [LStr Device.TAG; LStr "Pair"]])))
  ∧ (org_bluez.Paired p (bus e) = (Ok true, b1) →
     org_bluez.invoke p mCancelPairing b1 = (r, b2) →
       Device.CancelPairing this e
       = (thrown r,
          mkEnv b2 (trace e ++ [PropertyGet p "Paired"; MethodCall p mCancelPairing])
            (console e ++ [mkLog "%s%s" [LStr Device.TAG; LStr "CancelPairing"]])))
  ∧ (∀ uuid,
     org_bluez.invoke p (mDisconnectProfile uuid) (bus e) = (r, b2) →
       Device.DisconnectProfile uuid this e
       = (thrown r,
          mkEnv b2 (trace e ++ [MethodCall p (mDisconnectProfile uuid)])
            (console e ++ [mkLog "%s%s UUID - %s"
                                 [LStr Device.TAG; LStr "DisconnectProfile";
                                  LStr uuid]]))).
Proof.
  intros p. subst p.
  split; [|split; [|split; [|split]]].
  - intros Hreport Hinvoke. unfold Device.Connect.
    erewrite run_bind_Ret by apply run_Log.
    unfold DeviceProxy.GetConnected.
    erewrite run_bind_Ret by (apply run_request_Ok; exact Hreport).
    cbv beta iota. unfold DeviceProxy.Connect.
    erewrite run_request_thrown by exact Hinvoke. cbn. by rewrite <- app_assoc.
  - intros Hreport Hinvoke. unfold Device.Disconnect.
    erewrite run_bind_Ret by apply run_Log.
    unfold DeviceProxy.GetConnected.
    erewrite run_bind_Ret by (apply run_request_Ok; exact Hreport).
    cbn [negb]. cbv beta iota. unfold DeviceProxy.Disconnect.
    erewrite run_request_thrown by exact Hinvoke. cbn. by rewrite <- app_assoc.
  - intros Hreport Hinvoke. unfold Device.Pair.
    erewrite run_bind_Ret by apply run_Log.
    unfold DeviceProxy.GetPaired.
    erewrite run_bind_Ret by (apply run_request_Ok; exact Hreport).
    cbv beta iota. unfold DeviceProxy.Pair.
    erewrite run_request_thrown by exact Hinvoke. cbn. by rewrite <- app_assoc.
  - intros Hreport Hinvoke. unfold Device.CancelPairing.
    erewrite run_bind_Ret by apply run_Log.
    unfold DeviceProxy.GetPaired.
    erewrite run_bind_Ret by (apply run_request_Ok; exact Hreport).
    cbn [negb]. cbv beta iota. unfold DeviceProxy.CancelPairing.
    erewrite run_request_thrown by exact Hinvoke. cbn. by rewrite <- app_assoc.
  - intros uuid Hinvoke. unfold Device.DisconnectProfile.
    erewrite run_bind_Ret by apply run_Log.
    unfold DeviceProxy.DisconnectProfile.
    erewrite run_request_thrown by exact Hinvoke. reflexivity.
Qed.

(** X14.  When the bus fails to report the state a guard asks for, the
    operation ends with that bus error and invokes nothing: [Connect]
    and [Disconnect] when the connection state cannot be read, [Pair]
    and [CancelPairing] when the pairing state cannot. *)
Theorem device_operations_failed_report (this : Device.Device) (e : Env B)
    (w : string) (b' : B) :
  let p := Device.m_devicePath this in
  (org_bluez.Connected p (bus e) = (Failed w, b') →
     Device.Connect this e
     = (Throw (sdbus_Error w),
        mkEnv b' (trace e ++ [PropertyGet p "Connected"])
          (console e ++ [mkLog "%s%s" [LStr Device.TAG; LStr "Connect"]]))
     ∧ Device.Disconnect this e
       = (Throw (sdbus_Error w),
          mkEnv b' (trace e ++ [PropertyGet p "Connected"])
            (console e ++ [mkLog "%s%s" [LStr Device.TAG; LStr "Disconnect"]])))
  ∧ (org_bluez.Paired p (bus e) = (Failed w, b') →
       Device.Pair this e
       = (Throw (sdbus_Error w),
          mkEnv b' (trace e ++ [PropertyGet p "Paired"])
            (console e ++ [mkLog "%s%s" [LStr Device.TAG; LStr "Pair"]]))
       ∧ Device.CancelPairing this e
         = (Throw (sdbus_Error w),
            mkEnv b' (trace e ++ [PropertyGet p "Paired"])
              (console e ++ [mkLog "%s%s" [LStr Device.TAG; LStr "CancelPairing"]]))).
Proof.
  intros p. subst p. split; intros Hreport; split.
  - unfold Device.Connect. erewrite run_bind_Ret by apply run_Log.
    unfold DeviceProxy.GetConnected.
    erewrite run_bind_Throw by (apply run_request_Failed; exact Hreport). reflexivity.
  - unfold Device.Disconnect. erewrite run_bind_Ret by apply run_Log.
    unfold DeviceProxy.GetConnected.
    erewrite run_bind_Throw by (apply run_request_Failed; exact Hreport). reflexivity.
  - unfold Device.Pair. erewrite run_bind_Ret by apply run_Log.
    unfold DeviceProxy.GetPaired.
    erewrite run_bind_Throw by (apply run_request_Failed; exact Hreport). reflexivity.
  - unfold Device.CancelPairing. erewrite run_bind_Ret by apply run_Log.
    unfold DeviceProxy.GetPaired.
    erewrite run_bind_Throw by (apply run_request_Failed; exact Hreport). reflexivity.
Qed.

Lemma PrintUUID_lines_cons (i : Z) (uuid : string) (rest : list string) :
  PrintUUID_lines i (uuid :: rest)
  = mkLog "%s%s %d UUID - %s" [LStr Device.TAG; LStr "PrintUUID"; LNum i; LStr uuid]
    :: PrintUUID_lines (i + 1) rest.
Proof.
  unfold PrintUUID_lines. cbn [imap]. f_equal.
  - by rewrite Z.add_0_r.
  - apply imap_ext. intros n uuid' _. unfold compose.
    replace (i + Z.of_nat (S n)) with (i + 1 + Z.of_nat n) by lia. reflexivity.
Qed.

Lemma run_PrintUUID_loop (i : Z) (uuids : list string) (e : Env B) :
  Device.PrintUUID_loop i uuids e
  = (Ret tt, mkEnv (bus e) (trace e) (console e ++ PrintUUID_lines i uuids)).
Proof.
  revert i e. induction uuids as [|uuid rest IH]; intros i e.
  - cbn. rewrite app_nil_r. by destruct e.
  - cbn [Device.PrintUUID_loop]. erewrite run_bind_Ret by apply run_Log.
    rewrite IH, PrintUUID_lines_cons. cbn [bus trace console].
    by rewrite <- app_assoc.
Qed.

(** X15.  [ConnectProfile] contains a failure of the invocation but not
    one of the read that precedes it.  When the UUIDs cannot be read it
    ends with that bus error and invokes nothing.  Otherwise it stores
    the reported UUIDs in the cache, lists them numbered from one, and
    invokes the profile on the bus whatever the list holds -- be it
    empty or without the profile asked for; it then returns to its
    caller even if the bus refuses, and a refusal is logged. *)
Theorem ConnectProfile_outcome (uuid : string) (this : Device.Device) (e : Env B) :
  let p := Device.m_devicePath this in
  match org_bluez.UUIDs p (bus e) with
  | (Failed w, b1) =>
      Device.ConnectProfile uuid this e
      = (Throw (sdbus_Error w),
         mkEnv b1 (trace e ++ [PropertyGet p "UUIDs"])
           (console e ++ [mkLog "%s%s UUID - %s"
                                [LStr Device.TAG; LStr "ConnectProfile"; LStr uuid]]))
  | (Ok uuids, b1) =>
      ∀ r b2,
        org_bluez.invoke p (mConnectProfile uuid) b1 = (r, b2) →
        Device.ConnectProfile uuid this e
        = (Ret (with_UUIDs uuids this),
           mkEnv b2
             (trace e ++ [PropertyGet p "UUIDs"; MethodCall p (mConnectProfile uuid)])
             (console e ++ ConnectProfile_lines uuid uuids r))
  end.
Proof.
  intros p. subst p.
  destruct (org_bluez.UUIDs (Device.m_devicePath this) (bus e)) as [[uuids|w] b1]
    eqn:Hread.
  - intros r b2 Hinvoke. unfold Device.ConnectProfile.
    erewrite run_bind_Ret by apply run_Log.
    unfold DeviceProxy.GetUUIDs.
    erewrite run_bind_Ret by (apply run_request_Ok; exact Hread).
    cbv beta zeta.
    change (Device.set_m_properties
              (DeviceHelper.set_UUIDs uuids (Device.m_properties this)) this)
      with (with_UUIDs uuids this).
    assert (DeviceHelper.UUIDs (Device.m_properties (with_UUIDs uuids this)) = uuids)
      as Hcache by (by destruct this as [? []]).
    assert (Device.m_devicePath (with_UUIDs uuids this) = Device.m_devicePath this)
      as Hpath by (by destruct this).
    rewrite Hcache, Hpath.
    rewrite run_bind.
    assert (bool_decide (length uuids = 0%nat) = bool_decide (uuids = [])) as ->.
    { apply bool_decide_ext. by rewrite length_zero_iff_nil. }
    unfold ConnectProfile_lines.
    destruct (bool_decide (uuids = [])); cbn [when].
    + rewrite run_Log. unfold Device.PrintUUID. rewrite Hcache.
      rewrite run_bind.
      erewrite run_bind_Ret by apply run_Log. rewrite run_PrintUUID_loop.
      rewrite run_bind, run_try_catch. unfold DeviceProxy.ConnectProfile.
      erewrite run_request_thrown by exact Hinvoke.
      destruct r as [[]|w]; cbn [thrown catch_sdbus_Error].
      * unfold mret, M_ret. cbn [bus trace console].
        rewrite <- !app_assoc, ?app_nil_r. reflexivity.
      * rewrite run_Log. unfold mret, M_ret. cbn [bus trace console].
        rewrite <- !app_assoc. reflexivity.
    + unfold Device.PrintUUID. rewrite Hcache.
      cbn [mret M_ret]. rewrite run_bind.
      erewrite run_bind_Ret by apply run_Log. rewrite run_PrintUUID_loop.
      rewrite run_bind, run_try_catch. unfold DeviceProxy.ConnectProfile.
      erewrite run_request_thrown by exact Hinvoke.
      destruct r as [[]|w]; cbn [thrown catch_sdbus_Error].
      * unfold mret, M_ret. cbn [bus trace console].
        rewrite <- !app_assoc, ?app_nil_r. reflexivity.
      * rewrite run_Log. unfold mret, M_ret. cbn [bus trace console].
        rewrite <- !app_assoc. reflexivity.
  - unfold Device.ConnectProfile.
    erewrite run_bind_Ret by apply run_Log.
    unfold DeviceProxy.GetUUIDs.
    erewrite run_bind_Throw by (apply run_request_Failed; exact Hread). reflexivity.
Qed.

End DeviceOperations.

(* ================================================================== *)
(** ** Reading the properties of a device *)

Section ReadingProperties.
Context {B : Type} `{!Device1_proxy B}.

(** One entry of the dispatch table that reads a property: the loop
    moves on with the value stored, or ends with the bus error. *)
Lemma GetProperties_loop_read {A} (getter : string → B → reply A * B)
    (key name : string)
    (set : A → DeviceHelper.DeviceProperties → DeviceHelper.DeviceProperties)
    (rest : list (string * (DeviceHelper.DeviceProperties → string →
                            M (Env B) DeviceHelper.DeviceProperties)))
    (q : DeviceHelper.DeviceProperties) (p : string) (e : Env B) :
  DeviceProxy.GetProperties_loop
    ((key, λ q p, request (PropertyGet p name) (getter p) ≫= λ v, mret (set v q))
     :: rest) q p e
  = match getter p (bus e) with
    | (Ok v, b') =>
        DeviceProxy.GetProperties_loop rest (set v q) p
          (mkEnv b' (trace e ++ [PropertyGet p name]) (console e))
    | (Failed w, b') =>
        (Throw (sdbus_Error w), mkEnv b' (trace e ++ [PropertyGet p name]) (console e))
    end.
Proof.
  cbn [DeviceProxy.GetProperties_loop snd]. rewrite run_bind, run_try_catch, run_bind.
  destruct (getter p (bus e)) as [[v|w] b'] eqn:Hget.
  - by rewrite (run_request_Ok _ _ _ _ _ Hget).
  - by rewrite (run_request_Failed _ _ _ _ _ Hget).
Qed.

(** An entry that does nothing. *)
Lemma GetProperties_loop_skip (key : string)
    (rest : list (string * (DeviceHelper.DeviceProperties → string →
                            M (Env B) DeviceHelper.DeviceProperties)))
    (q : DeviceHelper.DeviceProperties) (p : string) (e : Env B) :
  DeviceProxy.GetProperties_loop ((key, λ q p, mret q) :: rest) q p e
  = DeviceProxy.GetProperties_loop rest q p e.
Proof. reflexivity. Qed.

Ltac read_step get :=
  rewrite GetProperties_loop_read; cbn [bus];
  match goal with
  | |- context [get ?p ?b0] =>
      let v := fresh "v" in
      let w := fresh "w" in
      let b' := fresh "b" in
      destruct (get p b0) as [[v|w] b'];
      cbn [bus trace console reported]
  end.

Ltac read_failed :=
  cbn [asked got failure bus_after read_more fmap list_fmap fst snd];
  split; [rewrite <- ?app_assoc; reflexivity | reflexivity].

(** X16.  [GetProperties] reads fourteen properties from the bus, in the
    order of their names, each on the bus as the read before has left
    it, and does nothing else: it invokes no method and writes nothing,
    and it never asks for the service data or the manufacturer data.  A
    read that fails ends it with the error of that read, and no later
    property is read.  When every read succeeds it returns, and what it
    returns holds each value as the bus reported it; the service data and
    the manufacturer data are empty. *)
Theorem GetProperties_reads_in_order (p : string) (e : Env B) :
  let r := read_in_order property_getters p (bus e) in
  (DeviceProxy.GetProperties p e).2
  = mkEnv (bus_after r) (trace e ++ (PropertyGet p <$> asked r)) (console e)
  ∧ match failure r with
    | Some w => (DeviceProxy.GetProperties p e).1 = Throw (sdbus_Error w)
    | None =>
        asked r = (property_getters (B:=B)).*1
        ∧ ∃ properties,
            (DeviceProxy.GetProperties p e).1 = Ret properties
            ∧ Forall (λ c, Device.cached c properties) (got r)
            ∧ DeviceHelper.ServiceData properties = ∅
            ∧ DeviceHelper.ManufacturerData properties = ∅
    end.
Proof.
  destruct e as [b tr co]. cbv zeta.
  unfold DeviceProxy.GetProperties, DeviceProxy.dispatchDeviceProperties,
    property_getters.
  unfold DeviceProxy.GetAdapter, DeviceProxy.GetAddress, DeviceProxy.GetAddressType,
    DeviceProxy.GetAlias, DeviceProxy.GetBlocked, DeviceProxy.GetClass,
    DeviceProxy.GetConnected, DeviceProxy.GetIcon, DeviceProxy.GetLegacyPairing,
    DeviceProxy.GetName, DeviceProxy.GetPaired, DeviceProxy.GetServicesResolved,
    DeviceProxy.GetTrusted, DeviceProxy.GetUUIDs.
  cbn [bus trace console read_in_order fst snd].
  read_step (org_bluez.Adapter (B:=B)); [|read_failed].
  read_step (org_bluez.Address (B:=B)); [|read_failed].
  read_step (org_bluez.AddressType (B:=B)); [|read_failed].
  read_step (org_bluez.Alias (B:=B)); [|read_failed].
  read_step (org_bluez.Blocked (B:=B)); [|read_failed].
  read_step (org_bluez.Class (B:=B)); [|read_failed].
  read_step (org_bluez.Connected (B:=B)); [|read_failed].
  read_step (org_bluez.Icon (B:=B)); [|read_failed].
  read_step (org_bluez.LegacyPairing (B:=B)); [|read_failed].
  rewrite GetProperties_loop_skip.
  read_step (org_bluez.Name (B:=B)); [|read_failed].
  read_step (org_bluez.Paired (B:=B)); [|read_failed].
  rewrite GetProperties_loop_skip.
  read_step (org_bluez.ServicesResolved (B:=B)); [|read_failed].
  read_step (org_bluez.Trusted (B:=B)); [|read_failed].
  read_step (org_bluez.UUIDs (B:=B)); [|read_failed].
  cbn [asked got failure bus_after read_more fmap list_fmap fst snd
       DeviceProxy.GetProperties_loop].
  split; [rewrite <- ?app_assoc; reflexivity|].
  split; [reflexivity|]. eexists. split; [reflexivity|].
  split; [repeat constructor|]. split; reflexivity.
Qed.

End ReadingProperties.

(* ================================================================== *)
(** ** The property-changed signal *)

Section PropertySignal.
Context {B : Type} `{!Device1_proxy B}.
Import DeviceProxySignal.

Lemma run_signal_Log (fmt : string) (args : list LogArg) (s : State B) :
  io (Log fmt args) s = (Ret tt, set_env (logged fmt args (env s)) s).
Proof. reflexivity. Qed.

(** What one callback does: it returns, the bus is not asked anything,
    the member it is about holds the delivered value, and nothing else of
    the device has changed. *)
Lemma deliver_spec (c : Device.PropertyChange) (this : Device.Device) (e : Env B) :
  ∃ this' lines,
    Device.deliver c this e
    = (Ret this', mkEnv (bus e) (trace e) (console e ++ lines))
    ∧ Device.cached c (Device.m_properties this')
    ∧ (∀ c', Device.same_member c c' = false →
         Device.cached c' (Device.m_properties this')
         ↔ Device.cached c' (Device.m_properties this))
    ∧ Device.m_devicePath this' = Device.m_devicePath this
    ∧ Device.m_running this' = Device.m_running this
    ∧ Device.m_eventLoopThread this' = Device.m_eventLoopThread this.
Proof.
  destruct this as [p q running thread]. destruct e as [b tr co].
  destruct c; cbn [Device.deliver Device.cached Device.m_properties];
    unfold_callbacks; cbn [Device.m_properties];
    match goal with |- context [decide ?P] => destruct (decide P) as [Hd|Hd] end.
  all: try (erewrite run_bind_Ret by apply run_Log;
            eexists _, [_]; split; [reflexivity|];
            split; [reflexivity|];
            split; [|by repeat split];
            intros c' Hc'; destruct c'; cbn in Hc'; try discriminate Hc'; reflexivity).
  all: eexists _, []; rewrite app_nil_r; split; [reflexivity|];
       split; [by apply dec_stable|]; by repeat split.
Qed.

Lemma same_member_property (c c' : Device.PropertyChange) :
  Device.same_member c c' = true ↔ property_of c = property_of c'.
Proof. destruct c, c'; cbn; split; intros Heq; done. Qed.

Lemma carried_by_inj (c c' : Device.PropertyChange) (value : Variant) :
  property_of c = property_of c' →
  carried_by c = Some value → carried_by c' = Some value → c = c'.
Proof.
  destruct c, c'; cbn; intros Hname Hc Hc'; try discriminate Hname;
    try discriminate Hc; congruence.
Qed.

Lemma run_callback (changed : Device.Device → M (Env B) Device.Device) (s : State B)
    (device : Device.Device) (e' : Env B) :
  changed (m_device s) (env s) = (Ret device, e') →
  callback changed s = (Ret tt, mkState device e' (cerr s)).
Proof. intros Hc. unfold callback. by rewrite Hc. Qed.

(** An entry of the table that extracts a value of type [T] with [get]
    and hands it to the callback [changed]. *)
Lemma typed_entry_Ret {T} (get : Variant → M (State B) T)
    (changed : T → Device.Device → M (Env B) Device.Device)
    (handler : exn → M (State B) unit)
    (value : Variant) (v : T) (s : State B) (device : Device.Device) (e' : Env B) :
  get value s = (Ret v, s) →
  changed v (m_device s) (env s) = (Ret device, e') →
  try_catch (getFromSVariant get value ≫= λ v, callback (changed v)) handler s
  = (Ret tt, mkState device e' (cerr s)).
Proof.
  intros Hget Hc. rewrite run_try_catch, run_bind.
  unfold getFromSVariant. rewrite run_try_catch, Hget.
  by rewrite (run_callback _ _ _ _ Hc).
Qed.

Lemma typed_entry_Throw {T} (get : Variant → M (State B) T)
    (changed : T → Device.Device → M (Env B) Device.Device)
    (h : string → M (State B) unit)
    (value : Variant) (w : string) (s : State B) :
  get value s = (Throw (sdbus_Error w), s) →
  try_catch (getFromSVariant get value ≫= λ v, callback (changed v))
            (catch_out_of_range h) s
  = (Throw (sdbus_Error w), mkState (m_device s) (env s) (cerr s ++ [w])).
Proof.
  intros Hget. rewrite run_try_catch, run_bind.
  unfold getFromSVariant. rewrite run_try_catch, Hget. reflexivity.
Qed.


Lemma get_string_cases (value : Variant) :
  (∃ v, value = VString v)
  ∨ ((∀ v, value ≠ VString v)
     ∧ ∃ w, ∀ s : State B, get_string value s = (Throw (sdbus_Error w), s)).
Proof.
  destruct value; first [left; by eexists | right; split; [done|by eexists]].
Qed.

Lemma get_bool_cases (value : Variant) :
  (∃ v, value = VBool v)
  ∨ ((∀ v, value ≠ VBool v)
     ∧ ∃ w, ∀ s : State B, get_bool value s = (Throw (sdbus_Error w), s)).
Proof.
  destruct value; first [left; by eexists | right; split; [done|by eexists]].
Qed.

Lemma get_uint32_cases (value : Variant) :
  (∃ v, value = VUint32 v)
  ∨ ((∀ v, value ≠ VUint32 v)
     ∧ ∃ w, ∀ s : State B, get_uint32 value s = (Throw (sdbus_Error w), s)).
Proof.
  destruct value; first [left; by eexists | right; split; [done|by eexists]].
Qed.

Lemma get_strings_cases (value : Variant) :
  (∃ v, value = VStrings v)
  ∨ ((∀ v, value ≠ VStrings v)
     ∧ ∃ w, ∀ s : State B, get_strings value s = (Throw (sdbus_Error w), s)).
Proof.
  destruct value; first [left; by eexists | right; split; [done|by eexists]].
Qed.

(** An entry of the table that extracts a value and calls a callback:
    the change is applied, or the value has another type and the handler
    is left with a bus error. *)
Lemma typed_entry_outcome {T} (get : Variant → M (State B) T) (inj : T → Variant)
    (changed : T → Device.Device → M (Env B) Device.Device)
    (ctor : T → Device.PropertyChange) (v0 : T)
    (name : string) (value : Variant) (s : State B) :
  (∀ v s, get (inj v) s = (Ret v, s)) →
  ((∃ v, value = inj v)
   ∨ ((∀ v, value ≠ inj v) ∧ ∃ w, ∀ s, get value s = (Throw (sdbus_Error w), s))) →
  (∀ v, Device.deliver (ctor v) = changed v) →
  (∀ v, property_of (ctor v) = name) →
  (∀ v, carried_by (ctor v) = Some (inj v)) →
  (∀ c, property_of c = name → ∃ v, c = ctor v) →
  dispatch name value = (getFromSVariant get value ≫= λ v, callback (changed v)) →
  entry_outcome name value s (onPropertiesChanged_entry (name, value) s).
Proof.
  intros Hget Hcases Hdeliver Hprop Hcarried Hall Hdispatch.
  unfold onPropertiesChanged_entry. cbn [fst snd].
  rewrite run_bind, run_signal_Log, Hdispatch.
  destruct Hcases as [[v ->]|[Hne [w Hw]]].
  - destruct (deliver_spec (ctor v) (m_device s)
                (logged "%s%s Name - %s"
                   [LStr DeviceProxy.TAG; LStr "onPropertiesChanged"; LStr name]
                   (env s)))
      as (device & lines & Hd & Hc & Hframe & Hpath & Hrun & Hthread).
    rewrite Hdeliver in Hd.
    erewrite typed_entry_Ret; [|apply Hget|exact Hd].
    cbn [logged bus trace console set_env cerr]. rewrite <- app_assoc.
    by eapply (entry_applied _ _ _ (ctor v)).
  - erewrite typed_entry_Throw by apply Hw.
    cbn [logged bus trace console set_env cerr env m_device].
    apply entry_mistyped.
    + exists (ctor v0), (inj v0). by split.
    + intros (c & Hc & Hv). destruct (Hall c Hc) as [v ->].
      rewrite Hcarried in Hv. injection Hv as <-. by apply (Hne v).
Qed.

Lemma data_entry_outcome (name : string) (value : Variant) (s : State B) :
  dispatch (B:=B) name value = mret tt →
  (∀ c, property_of c = name → carried_by c = None) →
  entry_outcome name value s (onPropertiesChanged_entry (name, value) s).
Proof.
  intros Hdispatch Hdata. unfold onPropertiesChanged_entry. cbn [fst snd].
  rewrite run_bind, run_signal_Log, Hdispatch, run_try_catch.
  cbn [mret M_ret logged bus trace console set_env cerr env m_device].
  apply entry_ignored. intros (c & v & Hc & Hv). by rewrite (Hdata c Hc) in Hv.
Qed.

Lemma unknown_entry_outcome (name : string) (value : Variant) (s : State B) :
  dispatchDeviceCallbacks (B:=B) !! name = None →
  (∀ c, property_of c ≠ name) →
  entry_outcome name value s (onPropertiesChanged_entry (name, value) s).
Proof.
  intros Hlook Hunknown. unfold onPropertiesChanged_entry, dispatch. cbn [fst snd].
  rewrite run_bind, run_signal_Log, Hlook, run_try_catch.
  cbn [mthrow M_throw catch_out_of_range]. rewrite run_signal_Log.
  unfold set_env, logged. cbn [bus trace console cerr env m_device].
  rewrite <- app_assoc.
  apply entry_ignored. intros (c & v & Hc & Hv). by apply (Hunknown c).
Qed.

Ltac typed_entry get inj changed ctor v0 cases :=
  apply (typed_entry_outcome get inj changed ctor v0);
  [ reflexivity | apply cases | reflexivity | reflexivity | reflexivity
  | intros c Hc; destruct c; try discriminate Hc; by eexists
  | reflexivity ].

Ltac data_entry :=
  apply data_entry_outcome;
  [ reflexivity | intros c Hc; destruct c; try discriminate Hc; reflexivity ].

(** What the handler does with one changed property. *)
Lemma onPropertiesChanged_entry_outcome (name : string) (value : Variant)
    (s : State B) :
  entry_outcome name value s (onPropertiesChanged_entry (name, value) s).
Proof.
  destruct (decide (name = "Address")) as [->|?].
  { typed_entry (get_string (σ:=State B)) VString (Device.AddressChanged (B:=B))
      Device.ChAddress "" get_string_cases. }
  destruct (decide (name = "AddressType")) as [->|?].
  { typed_entry (get_string (σ:=State B)) VString (Device.AddressTypeChanged (B:=B))
      Device.ChAddressType "" get_string_cases. }
  destruct (decide (name = "Name")) as [->|?].
  { typed_entry (get_string (σ:=State B)) VString (Device.NameChanged (B:=B))
      Device.ChName "" get_string_cases. }
  destruct (decide (name = "UUIDs")) as [->|?].
  { typed_entry (get_strings (σ:=State B)) VStrings (Device.UUIDsChanged (B:=B))
      Device.ChUUIDs (@nil string) get_strings_cases. }
  destruct (decide (name = "Paired")) as [->|?].
  { typed_entry (get_bool (σ:=State B)) VBool (Device.PairedChanged (B:=B))
      Device.ChPaired true get_bool_cases. }
  destruct (decide (name = "Connected")) as [->|?].
  { typed_entry (get_bool (σ:=State B)) VBool (Device.ConnectedChanged (B:=B))
      Device.ChConnected true get_bool_cases. }
  destruct (decide (name = "Trusted")) as [->|?].
  { typed_entry (get_bool (σ:=State B)) VBool (Device.TrustedChanged (B:=B))
      Device.ChTrusted true get_bool_cases. }
  destruct (decide (name = "Blocked")) as [->|?].
  { typed_entry (get_bool (σ:=State B)) VBool (Device.BlockedChanged (B:=B))
      Device.ChBlocked true get_bool_cases. }
  destruct (decide (name = "Alias")) as [->|?].
  { typed_entry (get_string (σ:=State B)) VString (Device.AliasChanged (B:=B))
      Device.ChAlias "" get_string_cases. }
  destruct (decide (name = "Adapter")) as [->|?].
  { typed_entry (get_string (σ:=State B)) VString (Device.AdapterChanged (B:=B))
      Device.ChAdapter "" get_string_cases. }
  destruct (decide (name = "LegacyPairing")) as [->|?].
  { typed_entry (get_bool (σ:=State B)) VBool (Device.LegacyPairingChanged (B:=B))
      Device.ChLegacyPairing true get_bool_cases. }
  destruct (decide (name = "ServiceData")) as [->|?]; [data_entry|].
  destruct (decide (name = "ServicesResolved")) as [->|?].
  { typed_entry (get_bool (σ:=State B)) VBool (Device.ServicesResolvedChanged (B:=B))
      Device.ChServicesResolved true get_bool_cases. }
  destruct (decide (name = "Icon")) as [->|?].
  { typed_entry (get_string (σ:=State B)) VString (Device.IconChanged (B:=B))
      Device.ChIcon "" get_string_cases. }
  destruct (decide (name = "Class")) as [->|?].
  { typed_entry (get_uint32 (σ:=State B)) VUint32 (Device.ClassChanged (B:=B))
      Device.ChClass 0 get_uint32_cases. }
  destruct (decide (name = "ManufacturerData")) as [->|?]; [data_entry|].
  apply unknown_entry_outcome.
  - apply not_elem_of_list_to_map_1. cbn [fmap list_fmap fst].
    rewrite !elem_of_cons, elem_of_nil. tauto.
  - intros c Hc. destruct c; cbn in Hc; congruence.
Qed.


(** The loop of the handler: what it never touches, and how it ends. *)
Lemma entries_frame (l : list (string * Variant)) (s : State B) :
  ∃ r s' lines,
    for_each l onPropertiesChanged_entry s = (r, s')
    ∧ bus (env s') = bus (env s)
    ∧ trace (env s') = trace (env s)
    ∧ console (env s') = console (env s) ++ lines
    ∧ Device.m_devicePath (m_device s') = Device.m_devicePath (m_device s)
    ∧ Device.m_running (m_device s') = Device.m_running (m_device s)
    ∧ Device.m_eventLoopThread (m_device s') = Device.m_eventLoopThread (m_device s)
    ∧ ((r = Ret tt ∧ cerr s' = cerr s)
       ∨ ∃ w, r = Throw (sdbus_Error w) ∧ cerr s' = cerr s ++ [w]).
Proof.
  revert s. induction l as [|[name value] l IH]; intros s.
  { exists (Ret tt), s, []. rewrite app_nil_r. repeat split; by left. }
  cbn [for_each]. rewrite run_bind.
  pose proof (onPropertiesChanged_entry_outcome name value s) as Ho.
  destruct (onPropertiesChanged_entry (name, value) s) as [r1 s1].
  inversion Ho as [c device lines Hp Hc Hcached Hframe Hpath Hrun Hthread [Hr Hs]
                  |lines Hn [Hr Hs]|w lines Hx Hv [Hr Hs]]; clear Ho.
  - destruct (IH (mkState device
                    (mkEnv (bus (env s)) (trace (env s)) (console (env s) ++ lines))
                    (cerr s)))
      as (r & s' & lines' & -> & Hb & Ht & Hco & Hpa & Hru & Hth & Hend).
    cbn [env m_device cerr bus trace console] in *.
    exists r, s', (lines ++ lines'). rewrite app_assoc.
    repeat split; congruence.
  - destruct (IH (mkState (m_device s)
                    (mkEnv (bus (env s)) (trace (env s)) (console (env s) ++ lines))
                    (cerr s)))
      as (r & s' & lines' & -> & Hb & Ht & Hco & Hpa & Hru & Hth & Hend).
    cbn [env m_device cerr bus trace console] in *.
    exists r, s', (lines ++ lines'). rewrite app_assoc.
    repeat split; congruence.
  - eexists _, _, lines. split; [reflexivity|].
    cbn [env m_device cerr bus trace console]. repeat split. right. by exists w.
Qed.

(** The loop of the handler when it returns: every property of the list
    from which the table extracts a change is in the cache, and no other
    member has changed. *)
Lemma entries_update_cache (l : list (string * Variant)) (s s' : State B) :
  NoDup l.*1 →
  for_each l onPropertiesChanged_entry s = (Ret tt, s') →
  (∀ c value, carried_by c = Some value → (property_of c, value) ∈ l →
     Device.cached c (Device.m_properties (m_device s')))
  ∧ (∀ c, carried_by c = None ∨ property_of c ∉ l.*1 →
       Device.cached c (Device.m_properties (m_device s'))
       ↔ Device.cached c (Device.m_properties (m_device s))).
Proof.
  revert s. induction l as [|[name value] l IH]; intros s Hnodup Hrun.
  { injection Hrun as <-. split; [|done]. intros c v _ Hin. by apply elem_of_nil in Hin. }
  cbn [fmap list_fmap fst] in Hnodup. apply NoDup_cons in Hnodup as [Hfresh Hnodup].
  cbn [for_each] in Hrun. rewrite run_bind in Hrun.
  pose proof (onPropertiesChanged_entry_outcome name value s) as Ho.
  destruct (onPropertiesChanged_entry (name, value) s) as [r1 s1].
  inversion Ho as [c0 device lines Hp Hc Hcached Hframe Hpath Hrun' Hthread [Hr Hs]
                  |lines Hn [Hr Hs]|w lines Hx Hv [Hr Hs]]; clear Ho;
    subst r1 s1; [| |discriminate Hrun].
  - destruct (IH _ Hnodup Hrun) as [Hin Hout]. cbn [m_device] in Hout. split.
    + intros c v Hcv Hel. apply elem_of_cons in Hel as [[= Hname ->]|Hel].
      * assert (c = c0) as -> by (apply (carried_by_inj _ _ value); congruence).
        apply Hout; [|exact Hcached]. right. by rewrite Hp.
      * by apply (Hin c v).
    + intros c Hc'. cbn [fmap list_fmap fst] in Hc'.
      rewrite Hout, Hframe; [done| |].
      * apply not_true_iff_false. rewrite same_member_property.
        destruct Hc' as [Hnone|Hnot].
        -- intros Heq. destruct c0, c; try discriminate Heq;
             try discriminate Hnone; discriminate Hc.
        -- rewrite Hp. intros Heq. apply Hnot. rewrite <- Heq. left.
      * destruct Hc' as [?|Hnot]; [by left|]. right. intros Hel. apply Hnot. by right.
  - destruct (IH _ Hnodup Hrun) as [Hin Hout]. cbn [m_device] in Hout. split.
    + intros c v Hcv Hel. apply elem_of_cons in Hel as [[= Hname ->]|Hel].
      * destruct Hn. by exists c, value.
      * by apply (Hin c v).
    + intros c Hc'. cbn [fmap list_fmap fst] in Hc'. apply Hout.
      destruct Hc' as [?|Hnot]; [by left|]. right. intros Hel. apply Hnot. by right.
Qed.

(** The loop of the handler returns exactly when no value has another
    type than the one the table extracts for its name. *)
Lemma entries_return_iff (l : list (string * Variant)) (s : State B) :
  (for_each l onPropertiesChanged_entry s).1 = Ret tt ↔
  Forall (λ prop, extracted_property prop.1 → extracted_value prop.1 prop.2) l.
Proof.
  revert s. induction l as [|[name value] l IH]; intros s.
  { split; [constructor|done]. }
  cbn [for_each]. rewrite run_bind, Forall_cons. cbn [fst snd].
  pose proof (onPropertiesChanged_entry_outcome name value s) as Ho.
  destruct (onPropertiesChanged_entry (name, value) s) as [r1 s1].
  inversion Ho as [c0 device lines Hp Hc Hcached Hframe Hpath Hrun' Hthread [Hr Hs]
                  |lines Hn [Hr Hs]|w lines Hx Hv [Hr Hs]]; clear Ho; subst r1 s1.
  - rewrite IH. split; [|by intros [_ ?]]. intros Hall. split; [|done].
    intros _. by exists c0.
  - rewrite IH. split; [|by intros [_ ?]]. intros Hall. split; [|done].
    intros Hx. by destruct Hn.
  - cbn [fst]. split; [done|]. intros [Hok _]. destruct Hv. by apply Hok.
Qed.

(** X17.  The handler of the property-changed signal asks the bus
    nothing and leaves the path of the device and its loop flags as they
    are.  It looks at nothing but the changed properties: the name of
    the interface the signal is about and the invalidated properties play
    no part.  It returns, or it ends with a bus error whose text is the
    one line it has written to the error stream. *)
Theorem onPropertiesChanged_asks_nothing (interface_name : string)
    (changed_properties : gmap string Variant)
    (invalidated_properties : list string) (s : State B) :
  let r := onPropertiesChanged interface_name changed_properties
             invalidated_properties s in
  bus (env r.2) = bus (env s)
  ∧ trace (env r.2) = trace (env s)
  ∧ (∃ lines, console (env r.2) = console (env s) ++ lines)
  ∧ Device.m_devicePath (m_device r.2) = Device.m_devicePath (m_device s)
  ∧ Device.m_running (m_device r.2) = Device.m_running (m_device s)
  ∧ Device.m_eventLoopThread (m_device r.2) = Device.m_eventLoopThread (m_device s)
  ∧ ((r.1 = Ret tt ∧ cerr r.2 = cerr s)
     ∨ ∃ w, r.1 = Throw (sdbus_Error w) ∧ cerr r.2 = cerr s ++ [w])
  ∧ ∀ interface_name' invalidated_properties',
      onPropertiesChanged interface_name' changed_properties
        invalidated_properties' s = r.
Proof.
  intros r. subst r. unfold onPropertiesChanged.
  destruct (entries_frame (in_order String.le changed_properties) s)
    as (r & s' & lines & -> & Hb & Ht & Hco & Hpa & Hru & Hth & Hend).
  cbn [fst snd]. repeat split; try done. by exists lines.
Qed.

(** X18.  When the handler of the property-changed signal returns,
    every changed property whose value has the type the dispatch table
    extracts for it is in the cache of the device; every member the
    signal does not name is as before, and so are the service data and
    the manufacturer data, for which the table extracts nothing. *)
Theorem onPropertiesChanged_updates_cache (interface_name : string)
    (changed_properties : gmap string Variant)
    (invalidated_properties : list string) (s s' : State B) :
  onPropertiesChanged interface_name changed_properties invalidated_properties s
    = (Ret tt, s') →
  (∀ c value,
     carried_by c = Some value →
     changed_properties !! property_of c = Some value →
     Device.cached c (Device.m_properties (m_device s')))
  ∧ (∀ c,
       carried_by c = None ∨ changed_properties !! property_of c = None →
       Device.cached c (Device.m_properties (m_device s'))
       ↔ Device.cached c (Device.m_properties (m_device s))).
Proof.
  unfold onPropertiesChanged. intros Hrun.
  destruct (entries_update_cache _ _ _ (in_order_NoDup changed_properties) Hrun)
    as [Hin Hout].
  split.
  - intros c value Hc Hlook. apply (Hin c value Hc). by apply in_order_elem_of.
  - intros c Hc. apply Hout. destruct Hc as [?|Hnone]; [by left|]. right.
    rewrite list_elem_of_fmap. intros ([name value] & Hname & Hel).
    apply in_order_elem_of in Hel. cbn in *. congruence.
Qed.

(** X19.  The handler of the property-changed signal returns if and
    only if no changed property for which the dispatch table extracts a
    value holds a value of another type; names that are not in the
    table, and the two data properties, never make it fail. *)
Theorem onPropertiesChanged_returns_iff (interface_name : string)
    (changed_properties : gmap string Variant)
    (invalidated_properties : list string) (s : State B) :
  (onPropertiesChanged interface_name changed_properties invalidated_properties s).1
    = Ret tt
  ↔ ∀ name value,
      changed_properties !! name = Some value →
      extracted_property name → extracted_value name value.
Proof.
  unfold onPropertiesChanged. rewrite entries_return_iff, Forall_forall. split.
  - intros Hall name value Hlook. apply (Hall (name, value)).
    by apply in_order_elem_of.
  - intros Hall [name value] Hel. apply Hall. by apply in_order_elem_of in Hel.
Qed.

End PropertySignal.

(* ================================================================== *)
(** ** From the object manager to the registry *)

Section Announcement.
Context {B : Type} `{!Device1_proxy B}.

(** A loop whose body only writes to the console does nothing else. *)
Lemma for_each_only_logs {X} (l : list X) (body : X → M (DeviceManager.State B) unit)
    (s : DeviceManager.State B) :
  (∀ x s, x ∈ l → ∃ lines, body x s = (Ret tt, with_lines lines s)) →
  ∃ lines, for_each l body s = (Ret tt, with_lines lines s).
Proof.
  revert s. induction l as [|x l IH]; intros s Hbody.
  { exists []. by rewrite with_lines_nil. }
  cbn [for_each]. rewrite run_bind.
  destruct (Hbody x s) as [lines1 ->]; [left|].
  destruct (IH (with_lines lines1 s)) as [lines2 ->].
  { intros y s' Hy. apply Hbody. by right. }
  exists (lines1 ++ lines2). by rewrite with_lines_app.
Qed.

Lemma GetAndValidateClass_mistyped {σ} (interfaces : gmap string Variant) (s : σ)
    (value : Variant) :
  interfaces !! "Class" = Some value →
  (∀ device_class, value ≠ VUint32 device_class) →
  ∃ w, ObjectManagerProxy.GetAndValidateClass interfaces s = (Throw (sdbus_Error w), s).
Proof.
  intros Hlook Hne. unfold ObjectManagerProxy.GetAndValidateClass,
    ObjectManagerProxy.GetClass. cbv zeta. rewrite run_bind, Hlook.
  destruct value; try (eexists; reflexivity). by destruct (Hne n).
Qed.

(** The add request the filter queues for a class value. *)
Lemma DeviceAdded_queue (devicePath : string) (enableLoop : bool)
    (s : DeviceManager.State B) :
  DeviceManager.DeviceAdded devicePath enableLoop s
  = (Ret tt,
     with_lines [mkLog "%s%s Device - %s added to queue"
                   [LStr DeviceManager.TAG; LStr "DeviceAdded"; LStr devicePath]]
       (DeviceManager.set_deviceQueue
          (DeviceManager.m_deviceQueue s
           ++ [DeviceManager.mkDeviceStruct devicePath enableLoop]) s)).
Proof. reflexivity. Qed.

Ltac finish_state :=
  unfold mret, M_ret, with_lines, DeviceManager.set_deviceQueue,
    DeviceManager.set_env, logged;
  cbn [DeviceManager.m_devicesMap DeviceManager.m_deviceQueue
       DeviceManager.m_running DeviceManager.env bus trace console];
  rewrite ?app_nil_r, <- ?app_assoc; reflexivity.

(** What the consumer of the object manager does with one signal, by
    what the signal holds under the device interface. *)
Lemma RunEventLoop_signal_cases (interfaceAdded : ObjectManagerProxy.InterfaceAddedStruct)
    (s : DeviceManager.State B) :
  ∃ r queued lines,
    ObjectManagerProxy.RunEventLoop_signal interfaceAdded s
    = (r, with_lines lines
            (DeviceManager.set_deviceQueue (DeviceManager.m_deviceQueue s ++ queued) s))
    ∧ match ObjectManagerProxy.interfacesAndProperties interfaceAdded
              !! ObjectManagerProxy.DEVICE_INTERFACE with
      | None => r = Ret tt ∧ queued = []
      | Some properties =>
          match properties !! "Class" with
          | None => r = Ret tt ∧ queued = []
          | Some (VUint32 device_class) =>
              r = Ret tt
              ∧ queued
                = if ObjectManagerProxy.ValidateClass device_class
                  then [DeviceManager.mkDeviceStruct
                          (ObjectManagerProxy.path interfaceAdded) false]
                  else []
          | Some _ => (∃ w, r = Throw (sdbus_Error w)) ∧ queued = []
          end
      end.
Proof.
  unfold ObjectManagerProxy.RunEventLoop_signal.
  set (body := λ interface : string * gmap string Variant, _).
  assert (∀ x s, x.1 ≠ ObjectManagerProxy.DEVICE_INTERFACE →
            ∃ lines, body x s = (Ret tt, with_lines lines s)) as Hother.
  { intros x s0 Hx. subst body. cbv beta. rewrite run_bind, run_io_Log.
    rewrite bool_decide_false by done. eexists [_]. reflexivity. }
  assert (∀ m : list (string * gmap string Variant),
            ObjectManagerProxy.DEVICE_INTERFACE ∉ m.*1 →
            ∀ s, ∃ lines, for_each m body s = (Ret tt, with_lines lines s)) as Hquiet.
  { intros m Hm s0. apply for_each_only_logs. intros x s1 Hx. apply Hother.
    intros Heq. apply Hm. rewrite <- Heq. apply list_elem_of_fmap_2, Hx. }
  destruct (ObjectManagerProxy.interfacesAndProperties interfaceAdded
              !! ObjectManagerProxy.DEVICE_INTERFACE) as [properties|] eqn:Hdev.
  - assert ((ObjectManagerProxy.DEVICE_INTERFACE, properties)
            ∈ in_order String.le
                (ObjectManagerProxy.interfacesAndProperties interfaceAdded)) as Hin
      by (by apply in_order_elem_of).
    apply list_elem_of_split in Hin as (l1 & l2 & Hsplit).
    pose proof (in_order_NoDup
                  (ObjectManagerProxy.interfacesAndProperties interfaceAdded)) as Hnodup.
    rewrite Hsplit in Hnodup |- *.
    rewrite fmap_app, fmap_cons in Hnodup. cbn [fst] in Hnodup.
    apply NoDup_app in Hnodup as (_ & Hl1 & Hl2).
    apply NoDup_cons in Hl2 as [Hl2 _].
    assert (ObjectManagerProxy.DEVICE_INTERFACE ∉ l1.*1) as Hl1'.
    { intros Hel. apply (Hl1 _ Hel). left. }
    rewrite for_each_app.
    destruct (Hquiet l1 Hl1' s) as [lines1 ->].
    cbn [for_each]. rewrite run_bind.
    assert (∃ r queued lines,
              body (ObjectManagerProxy.DEVICE_INTERFACE, properties)
                   (with_lines lines1 s)
              = (r, with_lines lines
                      (DeviceManager.set_deviceQueue
                         (DeviceManager.m_deviceQueue s ++ queued) s))
              ∧ match properties !! "Class" with
                | None => r = Ret tt ∧ queued = []
                | Some (VUint32 device_class) =>
                    r = Ret tt
                    ∧ queued
                      = if ObjectManagerProxy.ValidateClass device_class
                        then [DeviceManager.mkDeviceStruct
                                (ObjectManagerProxy.path interfaceAdded) false]
                        else []
                | Some _ => (∃ w, r = Throw (sdbus_Error w)) ∧ queued = []
                end) as (r & queued & lines & -> & Hcase).
    { subst body. cbv beta. cbn [fst snd]. rewrite run_bind, run_io_Log.
      rewrite bool_decide_true by done. rewrite run_bind.
      set (line := mkLog "%s%s Interface - %s"
                     [LStr ObjectManagerProxy.TAG; LStr "RunEventLoop";
                      LStr ObjectManagerProxy.DEVICE_INTERFACE]).
      destruct (properties !! "Class") as [value|] eqn:Hclass.
      - assert ((∃ device_class, value = VUint32 device_class)
                ∨ (∀ device_class, value ≠ VUint32 device_class))
          as [[device_class ->]|Hne]
          by (destruct value; first [left; by eexists | by right]).
        + rewrite (GetAndValidateClass_uint32 _ _ _ Hclass).
          destruct (ObjectManagerProxy.ValidateClass device_class); cbn [when].
          * rewrite DeviceAdded_queue.
            eexists _, _,
              (lines1 ++ [line;
                          mkLog "%s%s Device - %s added to queue"
                            [LStr DeviceManager.TAG; LStr "DeviceAdded";
                             LStr (ObjectManagerProxy.path interfaceAdded)]]).
            split; [|done]. finish_state.
          * eexists _, [], (lines1 ++ [line]). split; [|done]. finish_state.
        + match goal with
          | |- context [ObjectManagerProxy.GetAndValidateClass properties ?st] =>
              destruct (GetAndValidateClass_mistyped properties st value Hclass Hne)
                as [w ->]
          end.
          eexists _, [], (lines1 ++ [line]). split; [finish_state|].
          destruct value; try (split; [by eexists|done]). by destruct (Hne n).
      - rewrite (GetAndValidateClass_absent _ _ Hclass). cbn [when].
        eexists _, [], (lines1 ++ [line]). split; [|done]. finish_state. }
    destruct r as [[]|ex].
    + edestruct (Hquiet l2 Hl2) as [lines2 ->].
      rewrite with_lines_app. by eexists _, _, _.
    + by eexists _, _, _.
  - assert (ObjectManagerProxy.DEVICE_INTERFACE
            ∉ (in_order String.le
                 (ObjectManagerProxy.interfacesAndProperties interfaceAdded)).*1) as Hno.
    { rewrite list_elem_of_fmap. intros ([k v] & Hk & Hel).
      apply in_order_elem_of in Hel. cbn in *. congruence. }
    destruct (Hquiet _ Hno s) as [lines ->].
    exists (Ret tt), [], lines. split; [|done].
    unfold with_lines, DeviceManager.set_deviceQueue. rewrite app_nil_r. by destruct s.
Qed.


(** X20.  What the consumer of the object manager does with an
    object-added signal is decided by what the signal holds under the
    device interface.  One add request -- for the path of the signal,
    with the loop flag off -- is queued when the signal has that
    interface with a class the filter accepts; nothing is queued when the
    interface is missing, when it has no class, or when the filter
    rejects the class; a class that is not a 32-bit unsigned value ends
    the handling with a bus error.  Neither the map of the registry nor
    the bus is touched, whatever other interfaces the signal lists. *)
Theorem RunEventLoop_signal_filter
    (interfaceAdded : ObjectManagerProxy.InterfaceAddedStruct)
    (s : DeviceManager.State B) :
  let r := ObjectManagerProxy.RunEventLoop_signal interfaceAdded s in
  DeviceManager.m_devicesMap r.2 = DeviceManager.m_devicesMap s
  ∧ DeviceManager.m_running r.2 = DeviceManager.m_running s
  ∧ bus (DeviceManager.env r.2) = bus (DeviceManager.env s)
  ∧ trace (DeviceManager.env r.2) = trace (DeviceManager.env s)
  ∧ match ObjectManagerProxy.interfacesAndProperties interfaceAdded
            !! ObjectManagerProxy.DEVICE_INTERFACE with
    | None => r.1 = Ret tt ∧ DeviceManager.m_deviceQueue r.2 = DeviceManager.m_deviceQueue s
    | Some properties =>
        match properties !! "Class" with
        | None =>
            r.1 = Ret tt
            ∧ DeviceManager.m_deviceQueue r.2 = DeviceManager.m_deviceQueue s
        | Some (VUint32 device_class) =>
            r.1 = Ret tt
            ∧ DeviceManager.m_deviceQueue r.2
              = DeviceManager.m_deviceQueue s
                ++ (if ObjectManagerProxy.ValidateClass device_class
                    then [DeviceManager.mkDeviceStruct
                            (ObjectManagerProxy.path interfaceAdded) false]
                    else [])
        | Some _ =>
            (∃ w, r.1 = Throw (sdbus_Error w))
            ∧ DeviceManager.m_deviceQueue r.2 = DeviceManager.m_deviceQueue s
        end
    end.
Proof.
  intros r. subst r.
  destruct (RunEventLoop_signal_cases interfaceAdded s)
    as (r & queued & lines & -> & Hcase).
  cbn [fst snd with_lines DeviceManager.set_deviceQueue DeviceManager.m_devicesMap
       DeviceManager.m_deviceQueue DeviceManager.m_running DeviceManager.env
       bus trace].
  do 4 (split; [reflexivity|]).
  destruct (ObjectManagerProxy.interfacesAndProperties interfaceAdded
              !! ObjectManagerProxy.DEVICE_INTERFACE) as [properties|].
  - destruct (properties !! "Class") as [[]|];
      destruct Hcase as [Hr ->]; rewrite ?app_nil_r; by split.
  - destruct Hcase as [-> ->]. by rewrite app_nil_r.
Qed.

Lemma onInterfacesAdded_eq (objectPath : string)
    (interfacesAndProperties : gmap string (gmap string Variant))
    (s : ObjectManagerProxy.State B) :
  ObjectManagerProxy.onInterfacesAdded objectPath interfacesAndProperties s
  = (Ret tt,
     ObjectManagerProxy.mkState
       (with_lines [mkLog "%s%s Object Path - %s"
                      [LStr ObjectManagerProxy.TAG; LStr "onInterfacesAdded";
                       LStr objectPath]]
          (ObjectManagerProxy.m_deviceManager s))
       (ObjectManagerProxy.m_interface_added_queue s
        ++ [ObjectManagerProxy.mkInterfaceAdded objectPath interfacesAndProperties])
       (ObjectManagerProxy.m_running s)).
Proof. reflexivity. Qed.

(** A wake-up of the object manager's consumer takes the signal at the
    front of the queue, and no other. *)
Lemma ObjectManager_wakeup_front (s : ObjectManagerProxy.State B)
    (interfaceAdded : ObjectManagerProxy.InterfaceAddedStruct)
    (rest : list ObjectManagerProxy.InterfaceAddedStruct) :
  ObjectManagerProxy.m_running s = true →
  ObjectManagerProxy.m_interface_added_queue s = interfaceAdded :: rest →
  ObjectManagerProxy.RunEventLoop_wakeup s
  = ((ObjectManagerProxy.RunEventLoop_signal interfaceAdded
        (ObjectManagerProxy.m_deviceManager s)).1,
     ObjectManagerProxy.mkState
       (ObjectManagerProxy.RunEventLoop_signal interfaceAdded
          (ObjectManagerProxy.m_deviceManager s)).2
       rest true).
Proof.
  intros Hrun Hq. destruct s as [dm q running]. cbn in Hrun, Hq. subst q running.
  unfold ObjectManagerProxy.RunEventLoop_wakeup.
  rewrite run_bind. unfold gets at 1. cbn [ObjectManagerProxy.m_running negb].
  rewrite run_bind. unfold gets at 1. cbn [ObjectManagerProxy.m_interface_added_queue].
  rewrite run_bind. unfold modify at 1.
  unfold ObjectManagerProxy.manager, zoom.
  cbn [ObjectManagerProxy.set_interface_added_queue ObjectManagerProxy.m_deviceManager
       ObjectManagerProxy.m_interface_added_queue ObjectManagerProxy.m_running].
  by destruct (ObjectManagerProxy.RunEventLoop_signal interfaceAdded dm).
Qed.

(** X21.  From the signal to the registry.  When both consumers are
    running with nothing queued, an object-added signal that announces the
    device interface with an accepted class, for a path whose identity is
    not empty and not registered, on a bus that lets the proxy be
    created and on which the properties of the object cannot all be
    read -- so that the construction of the device is defined, see X4 --
    ends as a record: after the handler of the signal, a wake-up of the
    object manager and a wake-up of the registry, both queues are empty,
    a lookup of the identity returns a device bound to the announced
    path, and the run is defined if it was. *)
Theorem announced_device_is_registered (s : ObjectManagerProxy.State B)
    (objectPath : string) (interfaces : gmap string (gmap string Variant))
    (properties : gmap string Variant) (device_class : Z) (b' : B) :
  ObjectManagerProxy.m_running s = true →
  ObjectManagerProxy.m_interface_added_queue s = [] →
  DeviceManager.m_running (ObjectManagerProxy.m_deviceManager s) = true →
  DeviceManager.m_deviceQueue (ObjectManagerProxy.m_deviceManager s) = [] →
  interfaces !! ObjectManagerProxy.DEVICE_INTERFACE = Some properties →
  properties !! "Class" = Some (VUint32 device_class) →
  ObjectManagerProxy.ValidateClass device_class = true →
  DeviceManager.GetMACFromPath objectPath ≠ "" →
  DeviceManager.m_devicesMap (ObjectManagerProxy.m_deviceManager s)
    !! DeviceManager.GetMACFromPath objectPath = None →
  org_bluez.ProxyInterfaces objectPath
    (bus (DeviceManager.env (ObjectManagerProxy.m_deviceManager s))) = (Ok tt, b') →
  unreadable objectPath b' →
  let announced := (ObjectManagerProxy.onInterfacesAdded objectPath interfaces s).2 in
  let filtered := (ObjectManagerProxy.RunEventLoop_wakeup announced).2 in
  let registry :=
    after DeviceManager.RunEventLoop_wakeup
          (ObjectManagerProxy.m_deviceManager filtered) in
  ObjectManagerProxy.m_interface_added_queue filtered = []
  ∧ DeviceManager.m_deviceQueue registry = []
  ∧ (∃ device,
       DeviceManager.GetDevice (DeviceManager.GetMACFromPath objectPath) registry
       = (Ret (Some device), registry)
       ∧ Device.GetPath device = objectPath)
  ∧ (defined (trace (DeviceManager.env (ObjectManagerProxy.m_deviceManager s))) →
     defined (trace (DeviceManager.env registry))).
Proof.
  intros Hrun Hq Hmrun Hmq Hdev Hclass Hvalid Hmac Hfree Hbase Hunread
    announced filtered registry.
  destruct s as [dm q running]. cbn in Hrun, Hq, Hmrun, Hmq, Hfree, Hbase. subst q running.
  set (signal := ObjectManagerProxy.mkInterfaceAdded objectPath interfaces).
  destruct (RunEventLoop_signal_cases signal
              (with_lines [mkLog "%s%s Object Path - %s"
                             [LStr ObjectManagerProxy.TAG; LStr "onInterfacesAdded";
                              LStr objectPath]] dm))
    as (r & queued & lines & Hsignal & Hcase).
  cbn [signal ObjectManagerProxy.interfacesAndProperties ObjectManagerProxy.path]
    in Hcase.
  rewrite Hdev, Hclass, Hvalid in Hcase. destruct Hcase as [-> ->].
  assert (filtered
          = ObjectManagerProxy.mkState
              (with_lines lines
                 (DeviceManager.set_deviceQueue
                    [DeviceManager.mkDeviceStruct objectPath false]
                    (with_lines [mkLog "%s%s Object Path - %s"
                                   [LStr ObjectManagerProxy.TAG;
                                    LStr "onInterfacesAdded"; LStr objectPath]] dm)))
              [] true) as Hfiltered.
  { subst filtered announced.
    rewrite onInterfacesAdded_eq. cbn [snd].
    erewrite ObjectManager_wakeup_front; [|reflexivity|reflexivity].
    cbn [ObjectManagerProxy.m_deviceManager]. fold signal. rewrite Hsignal.
    cbn [snd]. unfold with_lines at 2. cbn [DeviceManager.m_deviceQueue].
    by rewrite Hmq. }
  split; [by rewrite Hfiltered|].
  assert (∃ e', registry
                = DeviceManager.mkState
                    (<[DeviceManager.GetMACFromPath objectPath
                       := Some (fresh_device objectPath)]> (DeviceManager.m_devicesMap dm))
                    [] true e'
                ∧ (defined (trace (DeviceManager.env dm)) → defined (trace e')))
    as (e' & Hregistry & Hdef).
  { subst registry. rewrite Hfiltered. cbn [ObjectManagerProxy.m_deviceManager].
    unfold after. rewrite RunEventLoop_wakeup_eq.
    cbn [with_lines DeviceManager.set_deviceQueue DeviceManager.m_running
         DeviceManager.m_deviceQueue DeviceManager.m_devicesMap DeviceManager.env
         bus trace console].
    rewrite Hmrun. cbn [DeviceManager.drain].
    rewrite run_bind. unfold modify at 1. rewrite run_bind.
    edestruct (process_constructs (DeviceManager.mkDeviceStruct objectPath false))
      as (e' & -> & Hdef); [exact Hmac| |cbn; exact Hbase|exact Hunread|].
    { cbn. exact Hfree. }
    cbn. rewrite Hmrun. eexists. split; [reflexivity|exact Hdef]. }
  rewrite Hregistry. split; [reflexivity|]. split; [|exact Hdef].
  exists (fresh_device objectPath). split; [|reflexivity].
  apply GetDevice_registered. cbn. by rewrite lookup_insert_eq.
Qed.

End Announcement.

(* ================================================================== *)
(** ** The writer thread of the serial port *)

Section Writer.
Import SPPHandler.

Lemma count_reset (count : Z) :
  0 ≤ count ≤ max_value →
  (if count =? max_value then 0 else count) = count mod max_value.
Proof.
  intros Hc. unfold max_value in *. destruct (Z.eqb_spec count (2 ^ 64 - 1)) as [->|Hne].
  - by rewrite Z_mod_same_full.
  - rewrite Z.mod_small; lia.
Qed.

(** The turns of the loop that are answered with a positive number of
    bytes. *)
Lemma WriteBuffer_loop_good (good tail : list (Z * Z)) (count : Z) (s : State) :
  m_writeRunning s = true → 0 ≤ m_fd s → 0 ≤ count ≤ max_value →
  Forall (λ answer, 0 < answer.1) good →
  ∃ count' s',
    WriteBuffer_loop count (good ++ tail) s = WriteBuffer_loop count' tail s'
    ∧ m_writeRunning s' = true ∧ m_fd s' = m_fd s
    ∧ 0 ≤ count' ≤ max_value
    ∧ count' mod max_value = (count + Z.of_nat (length good)) mod max_value
    ∧ writes s'
      = writes s
        ++ ((λ i, (m_fd s, "Ping " +:+ pretty ((count + Z.of_nat i) mod max_value)))
            <$> seq 0 (length good)).
Proof.
  revert count s. induction good as [|answer good IH]; intros count s Hrun Hfd Hc Hgood.
  { exists count, s. cbn [app length seq fmap list_fmap Z.of_nat].
    rewrite Z.add_0_r, app_nil_r. repeat split; try done; lia. }
  apply Forall_cons in Hgood as [Hpos Hgood].
  cbn [app WriteBuffer_loop]. rewrite Hrun.
  assert ((m_fd s <? 0) = false) as -> by lia.
  unfold WriteBuffer_body. cbv zeta.
  rewrite (count_reset count Hc).
  assert (0 ≤ count mod max_value < max_value) as Hm
    by (apply Z.mod_pos_bound; unfold max_value; lia).
  assert ((count mod max_value + 1) mod 2 ^ 64 = count mod max_value + 1) as ->
    by (apply Z.mod_small; unfold max_value in *; lia).
  assert ((answer.1 <? 0) = false) as -> by lia.
  assert ((answer.1 =? 0) = false) as -> by lia.
  cbn [m_writeRunning Log write m_fd]. rewrite Hrun. cbn [negb].
  edestruct (IH (count mod max_value + 1)) as (count' & s' & -> & Hrun' & Hfd' & Hc' & Hmod & Hw);
    [| | |exact Hgood|].
  { cbn. exact Hrun. } { cbn. exact Hfd. } { lia. }
  cbn [m_fd writes Log write] in Hfd', Hw.
  exists count', s'. split; [reflexivity|]. split; [exact Hrun'|].
  split; [exact Hfd'|]. split; [exact Hc'|]. split.
  - rewrite Hmod. cbn [length]. rewrite Nat2Z.inj_succ.
    rewrite <- Z.add_assoc, Zplus_mod_idemp_l. f_equal. lia.
  - rewrite Hw. cbn [length seq fmap list_fmap]. rewrite <- app_assoc. cbn [app].
    rewrite Z.add_0_r. do 2 f_equal.
    rewrite <- seq_shift, <- list_fmap_compose.
    apply list_fmap_ext. intros _ i _. cbn. do 3 f_equal.
    rewrite <- Z.add_assoc, Zplus_mod_idemp_l. f_equal. lia.
Qed.

(** X22.  The writer thread, on a valid descriptor and as long as its
    flag is its own, sends the data ["Ping 0"], ["Ping 1"], ... to that
    descriptor, one call of [write] for each turn; the number wraps to 0
    after 2^64 - 2, so that 2^64 - 1 is never sent.  It keeps running
    while the calls are answered with a positive number of bytes.  The
    first call answered with zero or a negative number is the last: the
    flag is cleared, the data of that call is still logged, and nothing
    more is written. *)
Theorem WriteBuffer_pings (good : list (Z * Z)) (s : State) :
  m_writeRunning s = true →
  0 ≤ m_fd s →
  Forall (λ answer, 0 < answer.1) good →
  (writes (WriteBuffer good s) = writes s ++ pings (m_fd s) (length good)
   ∧ m_writeRunning (WriteBuffer good s) = true)
  ∧ ∀ bad rest,
      bad.1 ≤ 0 →
      let s' := WriteBuffer (good ++ bad :: rest) s in
      writes s' = writes s ++ pings (m_fd s) (length good + 1)
      ∧ m_writeRunning s' = false
      ∧ last (lines s')
        = Some (mkLog "%s%s Data - %s"
                      [LStr TAG; LStr "WriteBuffer"; LStr (ping (length good))]).
Proof.
  intros Hrun Hfd Hgood. unfold WriteBuffer.
  set (s0 := Log "%s%s" [LStr TAG; LStr "WriteBuffer"] s).
  assert (m_writeRunning s0 = true) as Hrun0 by exact Hrun.
  assert (0 ≤ max_value) as Hmax by (unfold max_value; lia).
  split.
  - destruct (WriteBuffer_loop_good good [] 0 s0 Hrun0 Hfd ltac:(lia) Hgood)
      as (count' & s' & Heq & Hrun' & Hfd' & Hc' & Hmod & Hw).
    rewrite app_nil_r in Heq. rewrite Heq.
    cbn [WriteBuffer_loop]. rewrite Hrun'.
    assert ((m_fd s' <? 0) = false) as -> by (rewrite Hfd'; cbn; lia).
    split; [|exact Hrun']. rewrite Hw. reflexivity.
  - intros bad rest Hbad.
    destruct (WriteBuffer_loop_good good (bad :: rest) 0 s0 Hrun0 Hfd ltac:(lia) Hgood)
      as (count' & s1 & Heq & Hrun' & Hfd' & Hc' & Hmod & Hw).
    rewrite Heq.
    cbn [WriteBuffer_loop]. rewrite Hrun'.
    assert ((m_fd s1 <? 0) = false) as -> by (rewrite Hfd'; cbn; lia).
    unfold WriteBuffer_body. cbv zeta.
    rewrite (count_reset count' Hc'), Hmod, Z.add_0_l.
    fold (ping (length good)).
    assert (negb (m_writeRunning
              (Log "%s%s Data - %s" [LStr TAG; LStr "WriteBuffer"; LStr (ping (length good))]
                 (if bad.1 <? 0
                  then set_writeRunning false
                         (Log "%s%s Error: Writing to FD - %d, Error - %d"
                            [LStr TAG; LStr "WriteBuffer"; LNum (m_fd s1); LNum bad.2]
                            (write (m_fd s1) (ping (length good)) s1))
                  else if bad.1 =? 0
                       then set_writeRunning false
                              (Log "%s%s Error: No data written to FD - %d"
                                 [LStr TAG; LStr "WriteBuffer"; LNum (m_fd s1)]
                                 (write (m_fd s1) (ping (length good)) s1))
                       else write (m_fd s1) (ping (length good)) s1))) = true) as Hstop.
    { destruct (Z.ltb_spec bad.1 0); [reflexivity|].
      destruct (Z.eqb_spec bad.1 0); [reflexivity|lia]. }
    rewrite Hstop.
    split; [|split].
    + destruct (bad.1 <? 0); [|destruct (bad.1 =? 0)]; cbn [writes Log set_writeRunning write];
        rewrite Hw, Hfd'; unfold pings; rewrite Nat.add_1_r, seq_S, fmap_app;
        cbn [m_fd Log]; by rewrite <- app_assoc.
    + by apply negb_true_iff in Hstop.
    + unfold Log at 1. cbn [lines]. by rewrite last_snoc.
Qed.

End Writer.

(* ================================================================== *)
(** ** The menu: selecting a device *)

Section MenuSelection.
Context {B : Type} `{!Device1_proxy B}.

Lemma run_menu_Log (fmt : string) (args : list LogArg) (s : Menu.State B) :
  Menu.io (Log fmt args) s
  = (Ret tt, Menu.set_application (with_lines [mkLog fmt args] (Menu.m_application s)) s).
Proof. reflexivity. Qed.

Lemma run_GetDeviceManager {A} (m : M (DeviceManager.State B) A) (s : Menu.State B)
    (r : outcome A) (a' : DeviceManager.State B) :
  m (Menu.m_application s) = (r, a') →
  Menu.GetDeviceManager m s = (r, Menu.set_application a' s).
Proof. intros Hm. unfold Menu.GetDeviceManager, zoom. by rewrite Hm. Qed.


Lemma Device_Connect_asks (device : Device.Device) (e : Env B) :
  ∃ r e' more,
    Device.Connect device e = (r, e')
    ∧ trace e' = trace e ++ PropertyGet (Device.m_devicePath device) "Connected" :: more.
Proof.
  unfold Device.Connect. erewrite run_bind_Ret by apply run_Log.
  unfold DeviceProxy.GetConnected. rewrite run_bind.
  destruct (org_bluez.Connected (Device.m_devicePath device)
              (bus (mkEnv (bus e) (trace e)
                      (console e ++ [mkLog "%s%s" [LStr Device.TAG; LStr "Connect"]]))))
    as [[[]|w] b1] eqn:Hreport.
  - rewrite (run_request_Ok _ _ _ _ _ Hreport), run_Log.
    eexists _, _, []. split; reflexivity.
  - rewrite (run_request_Ok _ _ _ _ _ Hreport).
    unfold DeviceProxy.Connect.
    match goal with |- context [request ?ev ?op ?e1] =>
      destruct (run_request ev op e1) as (r & b2 & ->) end.
    eexists _, _, [_]. split; [reflexivity|]. cbn [trace]. by rewrite <- app_assoc.
  - rewrite (run_request_Failed _ _ _ _ _ Hreport).
    eexists _, _, []. split; reflexivity.
Qed.

(** X23.  Selecting a device.  On a registry in a state it can reach,
    the menu's selection command returns and asks the bus nothing.  For
    an identity that is registered it selects the device filed under it,
    whose path derives that identity; for any other word -- an identity
    that is not registered, a path, nothing at all -- it logs that the
    device is null and keeps the device that was selected before. *)
Theorem Menu_GetDevice_selects (s : Menu.State B) (input : string) :
  reachable (Menu.m_application s) →
  let r := Menu.GetDevice input s in
  r.1 = Ret tt
  ∧ DeviceManager.m_devicesMap (Menu.m_application r.2)
    = DeviceManager.m_devicesMap (Menu.m_application s)
  ∧ trace (DeviceManager.env (Menu.m_application r.2))
    = trace (DeviceManager.env (Menu.m_application s))
  ∧ match DeviceManager.m_devicesMap (Menu.m_application s) !! input with
    | Some record =>
        ∃ device,
          record = Some device
          ∧ Menu.m_device r.2 = Some device
          ∧ DeviceManager.GetMACFromPath (Device.GetPath device) = input
    | None =>
        Menu.m_device r.2 = Menu.m_device s
        ∧ last (console (DeviceManager.env (Menu.m_application r.2)))
          = Some (mkLog "Device is null" [])
    end.
Proof.
  intros Hreach r. subst r. destruct s as [a selected]. cbn [Menu.m_application] in *.
  unfold Menu.GetDevice. rewrite run_bind, run_menu_Log.
  unfold Menu.GetMAC. rewrite !run_bind, run_menu_Log.
  cbn [mret M_ret Menu.set_application Menu.m_application Menu.m_device].
  rewrite run_bind.
  destruct (DeviceManager.m_devicesMap a !! input) as [record|] eqn:Hlook.
  - destruct (reachable_well_keyed a Hreach input record Hlook)
      as (_ & device & -> & Hkey).
    erewrite run_GetDeviceManager.
    2:{ apply GetDevice_registered. cbn. exact Hlook. }
    cbv beta iota. cbn. repeat split; try done. by exists device.
  - erewrite run_GetDeviceManager.
    2:{ apply GetDevice_absent. cbn. exact Hlook. }
    cbv beta iota. rewrite run_menu_Log. cbn. repeat split; try done.
    by rewrite last_snoc.
Qed.

(** X24.  The selection outlives the record.  Removing a record from
    the registry -- the one of the selected device or any other -- leaves
    the menu's selection as it is, although the identity is then free in
    the registry: the connect command that follows still acts on the
    selected device, the first thing it asks the bus being the connection
    state of that device's path. *)
Theorem Menu_selection_outlives_record (s : Menu.State B) (device : Device.Device)
    (devicePath : string) :
  Menu.m_device s = Some device →
  let removed :=
    (Menu.GetDeviceManager (DeviceManager.DeviceRemoved devicePath) s).2 in
  Menu.m_device removed = Some device
  ∧ DeviceManager.m_devicesMap (Menu.m_application removed)
      !! DeviceManager.GetMACFromPath devicePath = None
  ∧ ∃ more,
      trace (DeviceManager.env (Menu.m_application (Menu.Connect removed).2))
      = trace (DeviceManager.env (Menu.m_application removed))
        ++ PropertyGet (Device.GetPath device) "Connected" :: more.
Proof.
  intros Hsel removed. destruct s as [a selected]. cbn in Hsel. subst selected.
  assert (∃ a', removed = Menu.mkState a' (Some device)
                ∧ DeviceManager.m_devicesMap a'
                    !! DeviceManager.GetMACFromPath devicePath = None
                ∧ trace (DeviceManager.env a') = trace (DeviceManager.env a))
    as (a' & -> & Hgone & Htrace).
  { subst removed. unfold Menu.GetDeviceManager, zoom. cbn [Menu.m_application].
    destruct (DeviceManager.m_devicesMap a !! DeviceManager.GetMACFromPath devicePath)
      as [record|] eqn:Hlook.
    - destruct (DeviceRemoved_present a devicePath record Hlook) as [line ->].
      eexists. split; [reflexivity|]. cbn. by rewrite lookup_delete_eq.
    - rewrite (DeviceRemoved_absent devicePath a Hlook).
      eexists. split; [reflexivity|]. cbn. by split. }
  split; [reflexivity|]. split; [exact Hgone|].
  unfold Menu.Connect. rewrite run_bind, run_menu_Log, run_bind.
  unfold gets at 1. cbn [Menu.m_device Menu.set_application].
  unfold Menu.io, Menu.GetDeviceManager, DeviceManager.io, zoom.
  cbn [Menu.m_application with_lines DeviceManager.env].
  match goal with |- context [Device.Connect device ?e] =>
    destruct (Device_Connect_asks device e) as (r & e' & more & -> & Hasks) end.
  exists more. cbn. rewrite Hasks. reflexivity.
Qed.

End MenuSelection.

(* ================================================================== *)
(** ** The further properties at work *)

Lemma phone_registered_map :
  DeviceManager.m_devicesMap phone_registered
  = {[ "AA:BB:CC:DD:EE:FF" := Some (fresh_device phone_path) ]}.
Proof. vm_compute. reflexivity. Qed.

(** The first read of a property of the phone the daemon has just
    announced fails. *)
Lemma phone_unreadable : unreadable phone_path phone_announced.
Proof.
  intros tr co.
  exists "org.freedesktop.DBus.Error.UnknownProperty",
         (mkEnv SimpleBus.quiet (tr ++ [PropertyGet phone_path "Adapter"]) co).
  vm_compute. reflexivity.
Qed.

Lemma GetDevice_lookup_witness :
  reachable phone_registered
  ∧ ∃ device,
      DeviceManager.GetDevice "AA:BB:CC:DD:EE:FF" phone_registered
      = (Ret (Some device), phone_registered)
      ∧ DeviceManager.GetMACFromPath (Device.GetPath device) = "AA:BB:CC:DD:EE:FF".
Proof.
  split; [exact phone_registered_reachable|].
  pose proof (GetDevice_lookup phone_registered "AA:BB:CC:DD:EE:FF"
                phone_registered_reachable) as Hlookup.
  rewrite phone_registered_map in Hlookup.
  exact Hlookup.
Defined.

Lemma failed_construction_registers_nothing_witness :
  let r := DeviceManager.mkDeviceStruct relative_path false in
  DeviceManager.GetMACFromPath relative_path = "AA:BB:CC:DD:EE:FF"
  ∧ org_bluez.ProxyInterfaces relative_path
      (bus (DeviceManager.env empty_registry))
    = (Failed "Invalid object path", phone_announced)
  ∧ DeviceManager.m_devicesMap (after (DeviceManager.process r) empty_registry)
    = DeviceManager.m_devicesMap empty_registry
  ∧ trace (DeviceManager.env (after (DeviceManager.process r) empty_registry))
    = trace (DeviceManager.env empty_registry) ++ [ProxyCreated relative_path].
Proof.
  intros r.
  assert (DeviceManager.GetMACFromPath (DeviceManager.path r) ≠ "") as Hmac
    by (vm_compute; discriminate).
  assert (DeviceManager.m_devicesMap empty_registry
            !! DeviceManager.GetMACFromPath (DeviceManager.path r) = None) as Hfree
    by reflexivity.
  assert (org_bluez.ProxyInterfaces (DeviceManager.path r)
            (bus (DeviceManager.env empty_registry))
          = (Failed "Invalid object path", phone_announced)) as Hbase
    by reflexivity.
  destruct (failed_construction_registers_nothing r empty_registry
              "Invalid object path" phone_announced Hmac Hfree Hbase)
    as (_ & Hmap & _ & _ & Htrace & _).
  split; [reflexivity|]. split; [exact Hbase|]. split; [exact Hmap|exact Htrace].
Defined.

Lemma DeviceAdded_then_GetDevice_witness :
  let s' := after DeviceManager.RunEventLoop_wakeup
              (after (DeviceManager.DeviceAdded phone_path true) empty_registry) in
  DeviceManager.GetMACFromPath phone_path = "AA:BB:CC:DD:EE:FF"
  ∧ DeviceManager.m_devicesMap empty_registry !! "AA:BB:CC:DD:EE:FF" = None
  ∧ unreadable phone_path phone_announced
  ∧ (∃ device,
       DeviceManager.GetDevice "AA:BB:CC:DD:EE:FF" s' = (Ret (Some device), s')
       ∧ Device.GetPath device = phone_path)
  ∧ defined (trace (DeviceManager.env s')).
Proof.
  intros s'.
  assert (DeviceManager.GetMACFromPath phone_path ≠ "") as Hmac
    by (vm_compute; discriminate).
  assert (DeviceManager.m_devicesMap empty_registry
            !! DeviceManager.GetMACFromPath phone_path = None) as Hfree
    by reflexivity.
  assert (org_bluez.ProxyInterfaces phone_path (bus (DeviceManager.env empty_registry))
          = (Ok tt, phone_announced)) as Hbase by reflexivity.
  assert (defined (trace (DeviceManager.env empty_registry))) as Hdefined
    by constructor.
  destruct (DeviceAdded_then_GetDevice empty_registry phone_path true phone_announced
              eq_refl eq_refl Hmac Hfree Hbase phone_unreadable)
    as (Hget & _ & _ & Hdef).
  split; [reflexivity|]. split; [reflexivity|]. split; [exact phone_unreadable|].
  split; [exact Hget|exact (Hdef Hdefined)].
Defined.

Lemma RunEventLoop_wakeup_drains_witness :
  let s := after (DeviceManager.DeviceAdded phone_path true) empty_registry in
  let s' := after DeviceManager.RunEventLoop_wakeup s in
  defined (trace (DeviceManager.env s'))
  ∧ DeviceManager.m_deviceQueue s = [DeviceManager.mkDeviceStruct phone_path true]
  ∧ (DeviceManager.RunEventLoop_wakeup s).1 = Ret tt
  ∧ DeviceManager.m_deviceQueue s' = []
  ∧ DeviceManager.m_devicesMap s' !! "AA:BB:CC:DD:EE:FF"
    = Some (Some (fresh_device phone_path)).
Proof.
  intros s s'.
  assert (defined (trace (DeviceManager.env s'))) as Hdefined
    by (apply (bool_decide_unpack _); vm_compute; exact I).
  assert (DeviceManager.m_devicesMap s' !! "AA:BB:CC:DD:EE:FF"
          = Some (Some (fresh_device phone_path))) as Hreg
    by (vm_compute; reflexivity).
  destruct (RunEventLoop_wakeup_drains s Hdefined) as (Hret & _ & Hqueue & _).
  split; [exact Hdefined|]. split; [reflexivity|]. split; [exact Hret|].
  split; [exact (Hqueue eq_refl)|exact Hreg].
Defined.

Lemma DeviceRemoved_erases_identity_witness :
  DeviceManager.GetMACFromPath phone_path_hci1
    = DeviceManager.GetMACFromPath phone_path
  ∧ is_Some (DeviceManager.m_devicesMap phone_registered !! "AA:BB:CC:DD:EE:FF")
  ∧ DeviceManager.m_devicesMap
      (after (DeviceManager.DeviceRemoved phone_path_hci1) phone_registered)
      !! "AA:BB:CC:DD:EE:FF" = None.
Proof.
  assert (is_Some (DeviceManager.m_devicesMap phone_registered
                     !! DeviceManager.GetMACFromPath phone_path_hci1)) as Hreg.
  { rewrite phone_registered_map. exists (Some (fresh_device phone_path)).
    reflexivity. }
  destruct (DeviceRemoved_erases_identity phone_registered phone_path_hci1 Hreg)
    as (_ & _ & _ & Hgone & _ & _).
  split; [reflexivity|]. split; [exact Hreg|exact Hgone].
Defined.

Lemma registry_records_well_keyed_witness :
  reachable phone_registered
  ∧ DeviceManager.m_devicesMap phone_registered !! "AA:BB:CC:DD:EE:FF"
    = Some (Some (fresh_device phone_path))
  ∧ ¬ contains "_" "AA:BB:CC:DD:EE:FF"
  ∧ contains "dev_" phone_path.
Proof.
  assert (DeviceManager.m_devicesMap phone_registered !! "AA:BB:CC:DD:EE:FF"
          = Some (Some (fresh_device phone_path))) as Hlook.
  { rewrite phone_registered_map. reflexivity. }
  destruct (registry_records_well_keyed phone_registered "AA:BB:CC:DD:EE:FF"
              (Some (fresh_device phone_path)) phone_registered_reachable Hlook)
    as (device & Hdevice & _ & _ & Hclean & Hmarker).
  injection Hdevice as <-.
  split; [exact phone_registered_reachable|]. split; [exact Hlook|].
  split; [exact Hclean|exact Hmarker].
Defined.

Lemma Pair_CancelPairing_guarded_witness :
  org_bluez.Paired phone_path (bus paired_phone) = (Ok true, bus paired_phone)
  ∧ (Device.Pair (fresh_device phone_path) paired_phone).1 = Ret tt
  ∧ method_calls (trace (Device.Pair (fresh_device phone_path) paired_phone).2) = [].
Proof.
  assert (org_bluez.Paired phone_path (bus paired_phone)
          = (Ok true, bus paired_phone)) as Hreport by (vm_compute; reflexivity).
  destruct (Pair_CancelPairing_guarded (fresh_device phone_path) paired_phone
              (bus paired_phone)) as [HPair _].
  rewrite (HPair Hreport).
  split; [exact Hreport|]. split; reflexivity.
Defined.

Lemma device_operations_delegate_witness :
  org_bluez.Connected phone_path (bus held_phone) = (Ok true, bus held_phone)
  ∧ Device.Disconnect (fresh_device phone_path) held_phone
    = (Throw (sdbus_Error "org.bluez.Error.Failed"),
       mkEnv (bus held_phone)
         [PropertyGet phone_path "Connected"; MethodCall phone_path mDisconnect]
         [mkLog "%s%s" [LStr Device.TAG; LStr "Disconnect"]]).
Proof.
  assert (org_bluez.Connected phone_path (bus held_phone)
          = (Ok true, bus held_phone)) as Hreport by (vm_compute; reflexivity).
  assert (org_bluez.invoke phone_path mDisconnect (bus held_phone)
          = (Failed "org.bluez.Error.Failed", bus held_phone)) as Hinvoke
    by (vm_compute; reflexivity).
  destruct (device_operations_delegate (fresh_device phone_path) held_phone
              (Failed "org.bluez.Error.Failed") (bus held_phone) (bus held_phone))
    as (_ & HDisconnect & _).
  split; [exact Hreport|]. exact (HDisconnect Hreport Hinvoke).
Defined.

Lemma device_operations_failed_report_witness :
  org_bluez.Connected phone_path (bus GoneBus.boot)
    = (Failed "org.freedesktop.DBus.Error.UnknownObject", tt)
  ∧ Device.Connect (fresh_device phone_path) GoneBus.boot
    = (Throw (sdbus_Error "org.freedesktop.DBus.Error.UnknownObject"),
       mkEnv tt [PropertyGet phone_path "Connected"]
         [mkLog "%s%s" [LStr Device.TAG; LStr "Connect"]]).
Proof.
  destruct (device_operations_failed_report (fresh_device phone_path) GoneBus.boot
              "org.freedesktop.DBus.Error.UnknownObject" tt) as [HConnected _].
  split; [reflexivity|]. exact (proj1 (HConnected eq_refl)).
Defined.

Lemma ConnectProfile_outcome_witness :
  (Device.ConnectProfile Menu.SPP_UUID (fresh_device phone_path)
     (SimpleBus.boot SimpleBus.quiet)).1
    = Ret (with_UUIDs [] (fresh_device phone_path))
  ∧ method_calls (trace (Device.ConnectProfile Menu.SPP_UUID (fresh_device phone_path)
                        (SimpleBus.boot SimpleBus.quiet)).2)
    = [MethodCall phone_path (mConnectProfile Menu.SPP_UUID)]
  ∧ Device.ConnectProfile Menu.SPP_UUID (fresh_device phone_path) GoneBus.boot
    = (Throw (sdbus_Error "org.freedesktop.DBus.Error.UnknownObject"),
       mkEnv tt [PropertyGet phone_path "UUIDs"]
         [mkLog "%s%s UUID - %s"
                [LStr Device.TAG; LStr "ConnectProfile"; LStr Menu.SPP_UUID]]).
Proof.
  pose proof (ConnectProfile_outcome Menu.SPP_UUID (fresh_device phone_path)
                (SimpleBus.boot SimpleBus.quiet)) as Hquiet.
  pose proof (ConnectProfile_outcome Menu.SPP_UUID (fresh_device phone_path)
                GoneBus.boot) as Hgone.
  cbv zeta in Hquiet, Hgone.
  change (org_bluez.UUIDs (Device.m_devicePath (fresh_device phone_path))
            (bus (SimpleBus.boot SimpleBus.quiet)))
    with (Ok (@nil string), SimpleBus.quiet) in Hquiet.
  change (org_bluez.UUIDs (Device.m_devicePath (fresh_device phone_path))
            (bus GoneBus.boot))
    with (@Failed (list string) "org.freedesktop.DBus.Error.UnknownObject", tt) in Hgone.
  cbv beta iota in Hquiet, Hgone.
  rewrite (Hquiet (Ok tt) SimpleBus.quiet eq_refl).
  split; [reflexivity|]. split; [reflexivity|]. exact Hgone.
Defined.

Lemma onPropertiesChanged_updates_cache_witness :
  let s' := (DeviceProxySignal.onPropertiesChanged "org.bluez.Device1"
               phone_changes [] phone_listener).2 in
  DeviceProxySignal.onPropertiesChanged "org.bluez.Device1" phone_changes []
    phone_listener = (Ret tt, s')
  ∧ DeviceHelper.Name (Device.m_properties (DeviceProxySignal.m_device s')) = "Pixel"
  ∧ DeviceHelper.Paired (Device.m_properties (DeviceProxySignal.m_device s')) = true
  ∧ DeviceHelper.Alias (Device.m_properties (DeviceProxySignal.m_device s'))
    = DeviceHelper.Alias (Device.m_properties (DeviceProxySignal.m_device phone_listener)).
Proof.
  intros s'.
  assert (DeviceProxySignal.onPropertiesChanged "org.bluez.Device1" phone_changes []
            phone_listener = (Ret tt, s')) as Hrun.
  { assert ((DeviceProxySignal.onPropertiesChanged "org.bluez.Device1" phone_changes []
               phone_listener).1 = Ret tt) as Hret by (vm_compute; reflexivity).
    etransitivity; [apply surjective_pairing|].
    apply (f_equal2 pair); [exact Hret|reflexivity]. }
  destruct (onPropertiesChanged_updates_cache "org.bluez.Device1" phone_changes []
              phone_listener s' Hrun) as [Hin Hout].
  split; [exact Hrun|].
  split; [exact (Hin (Device.ChName "Pixel") (VString "Pixel") eq_refl eq_refl)|].
  split; [exact (Hin (Device.ChPaired true) (VBool true) eq_refl eq_refl)|].
  exact (proj2 (Hout (Device.ChAlias
                        (DeviceHelper.Alias
                           (Device.m_properties
                              (DeviceProxySignal.m_device phone_listener))))
                  (or_intror eq_refl)) eq_refl).
Defined.

Lemma announced_device_is_registered_witness :
  let announced :=
    (ObjectManagerProxy.onInterfacesAdded phone_path phone_interfaces
       idle_object_manager).2 in
  let filtered := (ObjectManagerProxy.RunEventLoop_wakeup announced).2 in
  let registry :=
    after DeviceManager.RunEventLoop_wakeup
          (ObjectManagerProxy.m_deviceManager filtered) in
  ObjectManagerProxy.ValidateClass 0x5A020C = true
  ∧ unreadable phone_path phone_announced
  ∧ (∃ device,
       DeviceManager.GetDevice "AA:BB:CC:DD:EE:FF" registry
       = (Ret (Some device), registry)
       ∧ Device.GetPath device = phone_path)
  ∧ defined (trace (DeviceManager.env registry)).
Proof.
  intros announced filtered registry.
  assert (DeviceManager.GetMACFromPath phone_path ≠ "") as Hmac
    by (vm_compute; discriminate).
  assert (phone_interfaces !! ObjectManagerProxy.DEVICE_INTERFACE
          = Some ({[ "Class" := VUint32 0x5A020C ]} : gmap string Variant)) as Hdev
    by reflexivity.
  assert (({[ "Class" := VUint32 0x5A020C ]} : gmap string Variant) !! "Class"
          = Some (VUint32 0x5A020C)) as Hclass by reflexivity.
  assert (ObjectManagerProxy.ValidateClass 0x5A020C = true) as Hvalid by reflexivity.
  assert (DeviceManager.m_devicesMap
            (ObjectManagerProxy.m_deviceManager idle_object_manager)
            !! DeviceManager.GetMACFromPath phone_path = None) as Hfree by reflexivity.
  assert (org_bluez.ProxyInterfaces phone_path
            (bus (DeviceManager.env
                    (ObjectManagerProxy.m_deviceManager idle_object_manager)))
          = (Ok tt, phone_announced)) as Hbase by reflexivity.
  assert (defined (trace (DeviceManager.env
                            (ObjectManagerProxy.m_deviceManager idle_object_manager))))
    as Hdefined by constructor.
  destruct (announced_device_is_registered idle_object_manager phone_path
              phone_interfaces {[ "Class" := VUint32 0x5A020C ]} 0x5A020C
              phone_announced eq_refl eq_refl eq_refl eq_refl Hdev Hclass Hvalid
              Hmac Hfree Hbase phone_unreadable) as (_ & _ & Hget & Hdef).
  split; [exact Hvalid|]. split; [exact phone_unreadable|].
  split; [exact Hget|exact (Hdef Hdefined)].
Defined.

Lemma WriteBuffer_pings_witness :
  let answers := [(6, 0); (6, 0)] ++ (-1, 32) :: [(6, 0)] in
  SPPHandler.writes (SPPHandler.WriteBuffer answers port)
    = [(7, "Ping 0"); (7, "Ping 1"); (7, "Ping 2")]
  ∧ SPPHandler.m_writeRunning (SPPHandler.WriteBuffer answers port) = false.
Proof.
  intros answers. subst answers.
  assert (Forall (λ answer : Z * Z, 0 < answer.1) [(6, 0); (6, 0)]) as Hgood
    by (repeat constructor; cbn; lia).
  assert (0 ≤ SPPHandler.m_fd port) as Hfd by (cbn; lia).
  destruct (WriteBuffer_pings [(6, 0); (6, 0)] port eq_refl Hfd Hgood) as [_ Hbad].
  assert ((-1, 32).1 ≤ 0) as Hneg by (cbn; lia).
  pose proof (Hbad (-1, 32) [(6, 0)] Hneg) as Hstop. cbv zeta in Hstop.
  destruct Hstop as (Hwrites & Hflag & _).
  split; [|exact Hflag].
  rewrite Hwrites. vm_compute. reflexivity.
Defined.

Lemma Menu_GetDevice_selects_witness :
  reachable (Menu.m_application menu_started)
  ∧ (∃ device,
       Menu.m_device (Menu.GetDevice "AA:BB:CC:DD:EE:FF" menu_started).2 = Some device
       ∧ DeviceManager.GetMACFromPath (Device.GetPath device) = "AA:BB:CC:DD:EE:FF")
  ∧ Menu.m_device (Menu.GetDevice phone_path menu_selected).2
    = Some (fresh_device phone_path).
Proof.
  pose proof (Menu_GetDevice_selects menu_started "AA:BB:CC:DD:EE:FF"
                phone_registered_reachable) as (_ & _ & _ & Hknown).
  pose proof (Menu_GetDevice_selects menu_selected phone_path
                phone_registered_reachable) as (_ & _ & _ & Hunknown).
  change (Menu.m_application menu_started) with phone_registered in Hknown.
  change (Menu.m_application menu_selected) with phone_registered in Hunknown.
  rewrite phone_registered_map in Hknown, Hunknown.
  split; [exact phone_registered_reachable|]. split.
  - destruct Hknown as (device & _ & Hselected & Hmac).
    exists device. split; [exact Hselected|exact Hmac].
  - exact (proj1 Hunknown).
Defined.

Lemma Menu_selection_outlives_record_witness :
  let removed :=
    (Menu.GetDeviceManager (DeviceManager.DeviceRemoved phone_path) menu_selected).2 in
  Menu.m_device removed = Some (fresh_device phone_path)
  ∧ DeviceManager.m_devicesMap (Menu.m_application removed) !! "AA:BB:CC:DD:EE:FF"
    = None
  ∧ ∃ more,
      trace (DeviceManager.env (Menu.m_application (Menu.Connect removed).2))
      = trace (DeviceManager.env (Menu.m_application removed))
        ++ PropertyGet phone_path "Connected" :: more.
Proof.
  exact (Menu_selection_outlives_record menu_selected (fresh_device phone_path)
           phone_path eq_refl).
Defined.
